(** * Normalisation transforms of the COVID-19 ETL job (dl.py)

    A shallow embedding of [Covid19Data] from [dl.py]: the per-source
    transforms ([processNyTimesCounty], [processJHUProvinceState],
    [processCovidTrackingStateHistorical],
    [processCovidTrackingCountryHistorical], [processDxyCovid19Country],
    [processDxyCovid19Region]), the staging / archive / target sequencing
    of [getStagingBlob_andArchiveCurrentTarget] and [process], and the fetch
    step ([startDateDefault], [getFilename], [getJhuData], [getData]).

    Python exceptions are values of [exn]; code that may raise returns
    [result].  A pandas [DataFrame] is a list of column labels with a list
    of rows, each row a finite map from label to cell, and the categories of
    its categorical columns. *)

From Stdlib Require Import ZArith QArith Qcanon Lia Ascii String.
From stdpp Require Import base option list sorting gmap strings pretty.

Local Open Scope Z_scope.

(** * Part I: the program *)

(** ** Exceptions and results *)

Inductive exn : Type :=
| KeyError (labels : list string)
| AttributeError (name : string)
| TypeError
| ValueError
| NotFound (key : string).

Inductive result (A : Type) : Type :=
| Ok (a : A)
| Raise (e : exn).
Arguments Ok {A} a.
Arguments Raise {A} e.

#[global] Instance result_ret : MRet result := fun A a => Ok a.
#[global] Instance result_bind : MBind result := fun A B f m =>
  match m with
  | Ok a => f a
  | Raise e => Raise e
  end.
#[global] Instance result_fmap : FMap result := fun A B f m =>
  match m with
  | Ok a => Ok (f a)
  | Raise e => Raise e
  end.

(** [for x in xs: f(x)], collecting the results; the first exception wins. *)
Fixpoint traverse {A B : Type} (f : A -> result B) (xs : list A) : result (list B) :=
  match xs with
  | [] => Ok []
  | x :: xs' => y ← f x; ys ← traverse f xs'; Ok (y :: ys)
  end.

(** [for x in xs: acc = f(acc, x)]. *)
Fixpoint foldM {A B : Type} (f : B -> A -> result B) (acc : B) (xs : list A) : result B :=
  match xs with
  | [] => Ok acc
  | x :: xs' => acc' ← f acc x; foldM f acc' xs'
  end.

(** ** Calendar values *)

Record date : Type := mkDate { year : Z; month : Z; day : Z }.
Record datetime : Type :=
  mkDateTime { dt_date : date; hour : Z; minute : Z; second : Z }.

#[global] Instance date_eq_dec : EqDecision date.
Proof. solve_decision. Defined.
#[global] Instance datetime_eq_dec : EqDecision datetime.
Proof. solve_decision. Defined.

(** Lexicographic order on a list of integers of equal length. *)
Fixpoint lex_leb (a b : list Z) : bool :=
  match a, b with
  | x :: a', y :: b' => (x <? y) || ((x =? y) && lex_leb a' b')
  | _, _ => true
  end.

Definition date_leb (a b : date) : bool :=
  lex_leb [year a; month a; day a] [year b; month b; day b].

Definition datetime_leb (a b : datetime) : bool :=
  lex_leb [year (dt_date a); month (dt_date a); day (dt_date a); hour a; minute a; second a]
          [year (dt_date b); month (dt_date b); day (dt_date b); hour b; minute b; second b].

(** ** Cells *)

Inductive Cell : Type :=
| NaN                       (* empty field, None, NaT *)
| Str (s : string)
| Num (q : Qc)
| Date (d : date)
| DateTime (t : datetime).

#[global] Instance Cell_eq_dec : EqDecision Cell.
Proof. solve_decision. Defined.

Definition is_nan (c : Cell) : bool :=
  match c with NaN => true | _ => false end.

(** The order used to sort the values of a column.  Cells of one kind are
    ordered as Python orders them; a column that mixes kinds is ordered by
    kind. *)
Definition cell_rank (c : Cell) : Z :=
  match c with NaN => 0 | Str _ => 1 | Num _ => 2 | Date _ => 3 | DateTime _ => 4 end.

Definition cell_leb (a b : Cell) : bool :=
  match a, b with
  | Str s, Str t => String.leb s t
  | Num p, Num q => Qle_bool p q
  | Date d, Date e => date_leb d e
  | DateTime s, DateTime t => datetime_leb s t
  | _, _ => cell_rank a <=? cell_rank b
  end.

Definition cell_le (a b : Cell) : Prop := cell_leb a b.

(** Tuples of cells (group keys), in lexicographic order. *)
Fixpoint key_leb (a b : list Cell) : bool :=
  match a, b with
  | x :: a', y :: b' =>
      if decide (x = y) then key_leb a' b' else cell_leb x y
  | [], _ => true
  | _ :: _, [] => false
  end.

Definition key_le (a b : list Cell) : Prop := key_leb a b.

(** The distinct non-null values, sorted: [Series.unique()] then sort, and
    the categories that [astype('category')] infers. *)
Definition sorted_unique (l : list Cell) : list Cell :=
  merge_sort cell_le (remove_dups (filter (fun c => c ≠ NaN) l)).

(** [Series.max()]: nulls are skipped, an all-null series gives a null. *)
Definition cell_max (a b : Cell) : Cell :=
  match a, b with
  | NaN, _ => b
  | _, NaN => a
  | _, _ => if cell_leb a b then b else a
  end.

Definition series_max (l : list Cell) : Cell := foldr cell_max NaN l.

(** [Series.sum()]: nulls count for zero. *)
Definition series_sum (l : list Cell) : Cell :=
  Num (foldr (fun c acc => match c with Num q => (q + acc)%Qc | _ => acc end) 0%Qc l).

(** ** Frames *)

Abbreviation Row := (gmap string Cell).

Record DataFrame : Type :=
  mkFrame { columns : list string;
            rows : list Row;
            categories : gmap string (list Cell) }.

(** [pd.DataFrame([])]. *)
Definition empty_frame : DataFrame := mkFrame [] [] ∅.

(** A row handed to a row-wise function is a pandas [Series] indexed by the
    column labels of its frame; a label of the frame that the row does not
    bind reads as [NaN] (the fill value of [DataFrame.append]). *)
Record Series : Type := mkSeries { index : list string; values : Row }.

Definition cell (r : Row) (label : string) : Cell := default NaN (r !! label).

(** [row[label]]: a [KeyError] when the label is not in the index. *)
Definition getitem (row : Series) (label : string) : result Cell :=
  if decide (label ∈ index row) then Ok (cell (values row) label)
  else Raise (KeyError [label]).

(** [row.name]. *)
Definition series_getattr (row : Series) (name : string) : result Cell :=
  if decide (name ∈ index row) then Ok (cell (values row) name)
  else Raise (AttributeError name).

(** [df[label]]: a column of the frame. *)
Definition getcol (df : DataFrame) (label : string) : result (list Cell) :=
  if decide (label ∈ columns df) then Ok ((fun r => cell r label) <$> rows df)
  else Raise (KeyError [label]).

(** [df.name]: attribute access to a column of the frame. *)
Definition getattr (df : DataFrame) (name : string) : result (list Cell) :=
  if decide (name ∈ columns df) then Ok ((fun r => cell r name) <$> rows df)
  else Raise (AttributeError name).

(** [df[label] = values] with a plain series: overwrite the column, or
    append a new one. *)
Definition setitem (df : DataFrame) (label : string) (vals : list Cell) : DataFrame :=
  {| columns := if decide (label ∈ columns df) then columns df
                else columns df ++ [label];
     rows := zip_with (fun (r : Row) c => <[label := c]> r) (rows df) vals;
     categories := delete label (categories df) |}.

(** [df[[l1, ..., ln]]]: every label must be a column. *)
Definition select_columns (df : DataFrame) (labels : list string) : result DataFrame :=
  match filter (fun l => l ∉ columns df) labels with
  | [] => Ok {| columns := labels;
                rows := (fun r : Row => filter (fun kv => kv.1 ∈ labels) r) <$> rows df;
                categories := filter (fun kv => kv.1 ∈ labels) (categories df) |}
  | missing => Raise (KeyError missing)
  end.

(** [df.drop(labels, axis=1)] with the default [errors='raise']: every label
    must be a column, the [KeyError] lists the missing ones. *)
Definition drop_columns (df : DataFrame) (labels : list string) : result DataFrame :=
  match filter (fun l => l ∉ columns df) labels with
  | [] => Ok {| columns := filter (fun c => c ∉ labels) (columns df);
                rows := (fun r : Row => foldr delete r labels) <$> rows df;
                categories := foldr delete (categories df) labels |}
  | missing => Raise (KeyError missing)
  end.

(** [df.rename(columns={old: new}, inplace=True)]: nothing happens when
    [old] is not a column. *)
Definition rename_column (df : DataFrame) (old new : string) : DataFrame :=
  if decide (old ∈ columns df) then
    {| columns := (fun c => if decide (c = old) then new else c) <$> columns df;
       rows := (fun r : Row => <[new := cell r old]> (delete old r)) <$> rows df;
       categories := match categories df !! old with
                     | Some cs => <[new := cs]> (delete old (categories df))
                     | None => delete old (categories df)
                     end |}
  else df.

(** [df[mask]] for a boolean series. *)
Definition boolean_index (df : DataFrame) (mask : list bool) : DataFrame :=
  {| columns := columns df;
     rows := fst <$> filter (fun rb => snd rb = true) (zip (rows df) mask);
     categories := categories df |}.

(** [df.apply(f, axis=1)]. *)
Definition apply_rows (f : Series -> result Cell) (df : DataFrame) : result (list Cell) :=
  traverse (fun r => f (mkSeries (columns df) r)) (rows df).

(** The date-times a nanosecond timestamp holds, to the second: from
    1677-09-21 00:12:44 to 2262-04-11 23:47:16. *)
Definition Timestamp_min : datetime := mkDateTime (mkDate 1677 9 21) 0 12 44.
Definition Timestamp_max : datetime := mkDateTime (mkDate 2262 4 11) 23 47 16.

Definition in_bounds (t : datetime) : bool :=
  datetime_leb Timestamp_min t && datetime_leb t Timestamp_max.

(** The dtype of a series built from Python objects, as [df.apply(f, axis=1)]
    builds its result: it is [datetime64[ns]] when every value is a
    [datetime] within the bounds or [None] and one of them at least is a
    [datetime]; a [datetime] out of bounds, a value of another type, or
    nothing but [None], leaves the series [object]. *)
Definition is_datetime64 (col : list Cell) : bool :=
  forallb (fun c => match c with
                    | DateTime t => in_bounds t
                    | NaN => true
                    | _ => false
                    end) col
  && existsb (fun c => match c with DateTime _ => true | _ => false end) col.

(** [series.dt.date] on such a series: [.dt] is an [AttributeError] unless
    the series is [datetime64]; then a date-time gives its calendar date and
    a null gives a null. *)
Definition series_dt_date (col : list Cell) : result (list Cell) :=
  if is_datetime64 col
  then Ok ((fun c => match c with DateTime t => Date (dt_date t) | _ => NaN end) <$> col)
  else Raise (AttributeError "dt").

(** [df[col] = df[col].astype('category')]: the values are kept, the column
    becomes categorical with the sorted distinct values as categories. *)
Definition astype_category (df : DataFrame) (col : string) : result DataFrame :=
  vals ← getcol df col;
  Ok {| columns := columns df;
        rows := rows (setitem df col vals);
        categories := <[col := sorted_unique vals]> (categories df) |}.

(** [series.fillna(0)]. *)
Definition fillna0 (c : Cell) : Cell :=
  match c with NaN => Num 0%Qc | _ => c end.

(** [series.isin(values)] for a list of strings. *)
Definition isin (vals : list string) (c : Cell) : bool :=
  match c with
  | Str s => bool_decide (s ∈ vals)
  | _ => false
  end.

(** [df.append(other)]: the columns of [other] that [df] lacks are added,
    the rows follow those of [df]. *)
Definition df_append (df other : DataFrame) : DataFrame :=
  {| columns := columns df ++ filter (fun c => c ∉ columns df) (columns other);
     rows := rows df ++ rows other;
     categories := ∅ |}.

(** ** Text: regular expressions of the date-time shapes *)

Definition chars (s : string) : list ascii := list_ascii_of_string s.

(** The decimal value of an ASCII digit. *)
Definition digit_val (c : ascii) : option Z :=
  let n := Z.of_N (N_of_ascii c) in
  if (48 <=? n) && (n <=? 57) then Some (n - 48) else None.

Definition is_digit (c : ascii) : bool :=
  match digit_val c with Some _ => true | None => false end.

(** The fragment of [re] the shapes use: [[0-9]{lo,hi}] and a literal
    character, between [^] and [$]. *)
Inductive re_item : Type :=
| Digits (lo hi : nat)
| Chr (c : ascii).

(** [$] matches at the end, and before a newline that ends the text. *)
Definition at_end (s : list ascii) : bool :=
  match s with
  | [] => true
  | [c] => Ascii.eqb c "010"
  | _ => false
  end.

Fixpoint re_match_from (p : list re_item) (s : list ascii) : bool :=
  match p with
  | [] => at_end s
  | Chr c :: p' =>
      match s with
      | c' :: s' => Ascii.eqb c c' && re_match_from p' s'
      | [] => false
      end
  | Digits lo hi :: p' =>
      existsb (fun k => (length (take k s) =? k)%nat && forallb is_digit (take k s)
                        && re_match_from p' (drop k s))
              (seq lo (S hi - lo))
  end.

(** [re.match(p, s)] for an anchored pattern [p], as a truth value. *)
Definition re_match (p : list re_item) (s : string) : bool :=
  re_match_from p (chars s).

(** ** Text: [datetime.strptime] *)

(** The directives of the four formats, a literal character, and a run of
    white space (which [_strptime] turns into [\s+]). *)
Inductive directive : Type :=
| Dm | Dd | Dy | DY | DH | DM | DS
| Dlit (c : ascii)
| Dspace.

Definition is_space (c : ascii) : bool :=
  let n := Z.of_N (N_of_ascii c) in
  ((9 <=? n) && (n <=? 13)) || ((28 <=? n) && (n <=? 32)).

Fixpoint parse_format (f : list ascii) : list directive :=
  match f with
  | [] => []
  | "%"%char :: c :: f' =>
      (if Ascii.eqb c "m" then Dm else if Ascii.eqb c "d" then Dd
       else if Ascii.eqb c "y" then Dy else if Ascii.eqb c "Y" then DY
       else if Ascii.eqb c "H" then DH else if Ascii.eqb c "M" then DM
       else if Ascii.eqb c "S" then DS else Dlit c) :: parse_format f'
  | c :: f' => (if is_space c then Dspace else Dlit c) :: parse_format f'
  end.

(** A character class of the directive regexes: a digit range or a blank. *)
Inductive cclass : Type :=
| CDigit (lo hi : Z)
| CBlank.

Definition in_class (k : cclass) (c : ascii) : bool :=
  match k with
  | CDigit lo hi =>
      match digit_val c with
      | Some v => (lo <=? v) && (v <=? hi)
      | None => false
      end
  | CBlank => Ascii.eqb c " "
  end.

(** The alternatives of each directive, in the order [_strptime] lists them. *)
Definition alternatives (d : directive) : list (list cclass) :=
  match d with
  | Dm => [[CDigit 1 1; CDigit 0 2]; [CDigit 0 0; CDigit 1 9]; [CDigit 1 9]]
  | Dd => [[CDigit 3 3; CDigit 0 1]; [CDigit 1 2; CDigit 0 9];
           [CDigit 0 0; CDigit 1 9]; [CDigit 1 9]; [CBlank; CDigit 1 9]]
  | Dy => [[CDigit 0 9; CDigit 0 9]]
  | DY => [[CDigit 0 9; CDigit 0 9; CDigit 0 9; CDigit 0 9]]
  | DH => [[CDigit 2 2; CDigit 0 3]; [CDigit 0 1; CDigit 0 9]; [CDigit 0 9]]
  | DM => [[CDigit 0 5; CDigit 0 9]; [CDigit 0 9]]
  | DS => [[CDigit 6 6; CDigit 0 1]; [CDigit 0 5; CDigit 0 9]; [CDigit 0 9]]
  | Dlit _ | Dspace => []
  end.

(** Match a sequence of classes at the head of the text; the value is that
    of [int] on the matched text. *)
Fixpoint match_classes (ks : list cclass) (s : list ascii) (acc : Z) : option (Z * list ascii) :=
  match ks with
  | [] => Some (acc, s)
  | k :: ks' =>
      match s with
      | c :: s' =>
          if in_class k c
          then match_classes ks' s' (match digit_val c with
                                     | Some v => 10 * acc + v
                                     | None => acc
                                     end)
          else None
      | [] => None
      end
  end.

Record fields : Type :=
  mkFields { f_year : Z; f_month : Z; f_day : Z; f_hour : Z; f_minute : Z; f_second : Z }.

Definition default_fields : fields := mkFields 1900 1 1 0 0 0.

Definition set_field (d : directive) (v : Z) (f : fields) : fields :=
  match d with
  | Dm => mkFields (f_year f) v (f_day f) (f_hour f) (f_minute f) (f_second f)
  | Dd => mkFields (f_year f) (f_month f) v (f_hour f) (f_minute f) (f_second f)
  | Dy => mkFields (if v <=? 68 then v + 2000 else v + 1900)
                   (f_month f) (f_day f) (f_hour f) (f_minute f) (f_second f)
  | DY => mkFields v (f_month f) (f_day f) (f_hour f) (f_minute f) (f_second f)
  | DH => mkFields (f_year f) (f_month f) (f_day f) v (f_minute f) (f_second f)
  | DM => mkFields (f_year f) (f_month f) (f_day f) (f_hour f) v (f_second f)
  | DS => mkFields (f_year f) (f_month f) (f_day f) (f_hour f) (f_minute f) v
  | Dlit _ | Dspace => f
  end.

(** The first alternative (in order) under which the rest also matches. *)
Fixpoint first_some {A B : Type} (f : A -> option B) (xs : list A) : option B :=
  match xs with
  | [] => None
  | x :: xs' => match f x with Some b => Some b | None => first_some f xs' end
  end.

Fixpoint space_run (s : list ascii) : nat :=
  match s with
  | c :: s' => if is_space c then S (space_run s') else 0
  | [] => 0
  end.

(** The regular expression of a format, matched at the start of the text
    with backtracking: the fields found and the text left over. *)
Fixpoint strptime_from (fmt : list directive) (s : list ascii) (f : fields)
  : option (fields * list ascii) :=
  match fmt with
  | [] => Some (f, s)
  | Dlit c :: fmt' =>
      match s with
      | c' :: s' => if Ascii.eqb c c' then strptime_from fmt' s' f else None
      | [] => None
      end
  | Dspace :: fmt' =>
      first_some (fun k => strptime_from fmt' (drop k s) f)
                 (reverse (seq 1 (space_run s)))
  | d :: fmt' =>
      first_some (fun ks => match match_classes ks s 0 with
                            | Some (v, s') => strptime_from fmt' s' (set_field d v f)
                            | None => None
                            end)
                 (alternatives d)
  end.

Definition is_leap (y : Z) : bool :=
  (y mod 4 =? 0) && (negb (y mod 100 =? 0) || (y mod 400 =? 0)).

Definition days_in_month (y m : Z) : Z :=
  if m =? 2 then (if is_leap y then 29 else 28)
  else if (m =? 4) || (m =? 6) || (m =? 9) || (m =? 11) then 30 else 31.

(** The range checks of the [datetime] constructor. *)
Definition valid_datetime (t : datetime) : bool :=
  let d := dt_date t in
  (1 <=? year d) && (year d <=? 9999) && (1 <=? month d) && (month d <=? 12)
  && (1 <=? day d) && (day d <=? days_in_month (year d) (month d))
  && (0 <=? hour t) && (hour t <=? 23) && (0 <=? minute t) && (minute t <=? 59)
  && (0 <=? second t) && (second t <=? 59).

Definition datetime_of_fields (f : fields) : datetime :=
  mkDateTime (mkDate (f_year f) (f_month f) (f_day f)) (f_hour f) (f_minute f) (f_second f).

(** [datetime.strptime(s, fmt)]: the whole text must be consumed and the
    fields must form a date-time, else [ValueError]. *)
Definition strptime (s fmt : string) : result datetime :=
  match strptime_from (parse_format (chars fmt)) (chars s) default_fields with
  | Some (f, []) =>
      let t := datetime_of_fields f in
      if valid_datetime t then Ok t else Raise ValueError
  | _ => Raise ValueError
  end.

(** ** Group-by *)

Inductive aggfun : Type := AggMax | AggSum.

Definition aggregate (f : aggfun) (l : list Cell) : Cell :=
  match f with
  | AggMax => series_max l
  | AggSum => series_sum l
  end.

Definition key_of (keys : list string) (r : Row) : list Cell :=
  (fun k => cell r k) <$> keys.

Definition has_nan (k : list Cell) : bool := existsb is_nan k.

(** The rows of one group. *)
Definition group_rows (keys : list string) (k : list Cell) (rs : list Row) : list Row :=
  filter (fun r => key_of keys r = k) rs.

(** The keys that occur, sorted; rows with a null in a key are in no group. *)
Definition observed_keys (keys : list string) (df : DataFrame) : list (list Cell) :=
  merge_sort key_le
    (remove_dups (filter (fun k => has_nan k = false) (key_of keys <$> rows df))).

(** The levels of a grouper: the categories of a categorical column, else
    the sorted distinct values. *)
Definition levels (df : DataFrame) (key : string) : list Cell :=
  match categories df !! key with
  | Some cs => cs
  | None => sorted_unique ((fun r => cell r key) <$> rows df)
  end.

Fixpoint product (ls : list (list Cell)) : list (list Cell) :=
  match ls with
  | [] => [[]]
  | l :: ls' => x ← l; (fun k => x :: k) <$> product ls'
  end.

(** The index of [groupby(keys).agg(...)]: with [observed=False] and a
    categorical grouper it is the product of the levels, else the keys that
    occur. *)
Definition group_index (observed : bool) (keys : list string) (df : DataFrame)
  : list (list Cell) :=
  if observed || forallb (fun k => bool_decide (categories df !! k = None)) keys
  then observed_keys keys df
  else product (levels df <$> keys).

Definition missing_labels (df : DataFrame) (labels : list string) : list string :=
  filter (fun l => l ∉ columns df) labels.

Definition bind_cells (labels : list string) (cs : list Cell) (r : Row) : Row :=
  foldr (fun lc acc => <[lc.1 := lc.2]> acc) r (zip labels cs).

(** [df.groupby(keys).agg({col: f, ...}).reset_index()]: one row per key of
    the index, with the keys and the aggregates as columns. *)
Definition groupby_agg (observed : bool) (keys : list string)
    (aggs : list (string * aggfun)) (df : DataFrame) : result DataFrame :=
  match missing_labels df (keys ++ aggs.*1) with
  | [] =>
      Ok {| columns := keys ++ aggs.*1;
            rows := (fun k =>
                       let g := group_rows keys k (rows df) in
                       bind_cells keys k
                         (bind_cells aggs.*1
                            ((fun cf => aggregate cf.2 ((fun r => cell r cf.1) <$> g)) <$> aggs)
                            ∅))
                    <$> group_index observed keys df;
            categories := filter (fun kv => kv.1 ∈ keys) (categories df) |}
  | missing => Raise (KeyError missing)
  end.

(** [.ffill()] on the value columns: a null takes the last value above it. *)
Fixpoint ffill_rows (cols : list string) (last : Row) (rs : list Row) : list Row :=
  match rs with
  | [] => []
  | r :: rs' =>
      let r' := foldr (fun c acc => if is_nan (cell r c) then <[c := cell last c]> acc else acc)
                      r cols in
      r' :: ffill_rows cols r' rs'
  end.

Definition ffill (cols : list string) (df : DataFrame) : DataFrame :=
  {| columns := columns df; rows := ffill_rows cols ∅ (rows df);
     categories := categories df |}.

(** The running maximum of a cell over the cells of its group above it. *)
Definition running_max (c : Cell) (above : list Cell) : Cell :=
  if is_nan c then NaN else cell_max c (series_max above).

(** [.groupby(keys).cummax()] on the value columns; [seen] are the rows
    above, as they were. *)
Fixpoint cummax_rows (keys cols : list string) (seen rs : list Row) : list Row :=
  match rs with
  | [] => []
  | r :: rs' =>
      let same := group_rows keys (key_of keys r) seen in
      foldr (fun c acc =>
               <[c := if has_nan (key_of keys r) then NaN
                      else running_max (cell r c) ((fun r' => cell r' c) <$> same)]> acc)
            r cols
      :: cummax_rows keys cols (seen ++ [r]) rs'
  end.

Definition groupby_cummax (keys cols : list string) (df : DataFrame) : DataFrame :=
  {| columns := columns df; rows := cummax_rows keys cols [] (rows df);
     categories := categories df |}.

(** [df.groupby(keys).apply(f)] for an [f] that returns some of the rows of
    its group.  The result carries the group keys as index when a group
    lost a row; when every group came back whole, pandas before 2.0 returns
    the rows under their original index ([group_keys] tells which pandas
    runs).  The index is kept beside the frame until [reset_index]. *)
Record Indexed : Type :=
  mkIndexed { frame : DataFrame; index_names : list string; index_keys : list (list Cell) }.

Definition groupby_apply (group_keys : bool) (keys : list string)
    (f : DataFrame -> result DataFrame) (df : DataFrame) : result Indexed :=
  match missing_labels df keys with
  | [] =>
      parts ← traverse (fun k =>
                 let g := mkFrame (columns df) (group_rows keys k (rows df)) (categories df) in
                 res ← f g;
                 Ok (k, g, res))
               (observed_keys keys df);
      let mutated :=
        existsb (fun p => negb (length (rows p.2) =? length (rows p.1.2))%nat) parts in
      let out := mkFrame (columns df) (parts ≫= (fun p => rows p.2)) (categories df) in
      if group_keys || mutated
      then Ok (mkIndexed out keys (parts ≫= (fun p => (fun _ => p.1.1) <$> rows p.2)))
      else Ok (mkIndexed out [] [])
  | missing => Raise (KeyError missing)
  end.

(** [x[[l1, ..., ln]]] on an indexed frame keeps the index. *)
Definition indexed_select (x : Indexed) (labels : list string) : result Indexed :=
  df ← select_columns (frame x) labels;
  Ok (mkIndexed df (index_names x) (index_keys x)).

(** [.reset_index()]: the index levels become the first columns (the last
    level, the original row labels, is named [level_n]; its values are not
    recorded here); a frame under its original index gets the column [index]
    instead.  A level whose name is already a column is a [ValueError]. *)
Definition reset_index (x : Indexed) : result DataFrame :=
  let df := frame x in
  match index_names x with
  | [] =>
      if decide ("index" ∈ columns df) then Raise ValueError
      else Ok {| columns := "index" :: columns df;
                 rows := imap (fun i (r : Row) => <["index" := Num (Q2Qc (inject_Z (Z.of_nat i)))]> r)
                              (rows df);
                 categories := categories df |}
  | names =>
      match filter (fun n => n ∈ columns df) names with
      | [] => Ok {| columns := names ++ ["level_" +:+ pretty (length names)] ++ columns df;
                    rows := zip_with (fun (r : Row) k => bind_cells names k r)
                                     (rows df) (index_keys x);
                    categories := categories df |}
      | _ => Raise ValueError
      end
  end.

(** ** County-level case counts *)

Definition processNyTimesCounty (df : DataFrame) : DataFrame := df.

(** ** Province/state time series (JHU) *)

(** [row[a] if type(row[a]) == str else row[b]]. *)
Definition coalesce_text (a b : string) (row : Series) : result Cell :=
  x ← getitem row a;
  match x with
  | Str _ => getitem row a
  | _ => getitem row b
  end.

(** [x != 0]. *)
Definition ne_zero (c : Cell) : bool :=
  match c with
  | Num q => negb (Qeq_bool q 0)
  | _ => true
  end.

(** [row[a] if row[a] != 0 else row[b]]. *)
Definition coalesce_coord (a b : string) (row : Series) : result Cell :=
  x ← getitem row a;
  if ne_zero x then getitem row a else getitem row b.

Definition reg_mmddyyHHMM : list re_item :=
  [Digits 1 2; Chr "/"; Digits 1 2; Chr "/"; Digits 2 2; Chr " ";
   Digits 1 2; Chr ":"; Digits 1 2].
Definition reg_mmddyyyyHHMM : list re_item :=
  [Digits 1 2; Chr "/"; Digits 1 2; Chr "/"; Digits 4 4; Chr " ";
   Digits 1 2; Chr ":"; Digits 1 2].
Definition reg_yyyymmddTHHMMSS : list re_item :=
  [Digits 4 4; Chr "-"; Digits 1 2; Chr "-"; Digits 1 2; Chr "T";
   Digits 1 2; Chr ":"; Digits 1 2; Chr ":"; Digits 1 2].
Definition reg_yyyy_mm_dd_HHMMSS : list re_item :=
  [Digits 4 4; Chr "-"; Digits 1 2; Chr "-"; Digits 1 2; Chr " ";
   Digits 1 2; Chr ":"; Digits 1 2; Chr ":"; Digits 1 2].

Definition mmddyyyyHHMM : string := "%m/%d/%Y %H:%M".
Definition mmddyyHHMM : string := "%m/%d/%y %H:%M".
Definition yyyymmddTHHMMSS : string := "%Y-%m-%dT%H:%M:%S".
Definition yyyy_mm_dd_HHMMSS : string := "%Y-%m-%d %H:%M:%S".

(** The row-wise function of [processJHUProvinceState]; [re.match] on a
    value that is not text is a [TypeError]. *)
Definition convertLastUpdate (df : Series) : result (option datetime) :=
  lu ← series_getattr df "LastUpdate";
  match lu with
  | Str s =>
      if re_match reg_mmddyyHHMM s then Some <$> strptime s mmddyyHHMM
      else if re_match reg_mmddyyyyHHMM s then Some <$> strptime s mmddyyyyHHMM
      else if re_match reg_yyyymmddTHHMMSS s then Some <$> strptime s yyyymmddTHHMMSS
      else if re_match reg_yyyy_mm_dd_HHMMSS s then Some <$> strptime s yyyy_mm_dd_HHMMSS
      else Ok None
  | _ => Raise TypeError
  end.

Definition cell_of_datetime (t : option datetime) : Cell :=
  match t with Some t => DateTime t | None => NaN end.

(** [try: df = df.drop([col], axis=1) except: pass]. *)
Definition try_drop (df : DataFrame) (col : string) : DataFrame :=
  match drop_columns df [col] with
  | Ok df' => df'
  | Raise _ => df
  end.

(** [df.name = df.name.fillna(0)]. *)
Definition fillna_column (df : DataFrame) (name : string) : result DataFrame :=
  col ← getattr df name; Ok (setitem df name (fillna0 <$> col)).

Definition processJHUProvinceState (df : DataFrame) : result DataFrame :=
  (* rename columns *)
  let df := rename_column df "Admin2" "US_County" in
  (* combine duplicate columns *)
  c ← apply_rows (coalesce_text "Last Update" "Last_Update") df;
  let df := setitem df "LastUpdate" c in
  c ← apply_rows (coalesce_text "Country/Region" "Country_Region") df;
  let df := setitem df "CountryRegion" c in
  c ← apply_rows (coalesce_text "Province/State" "Province_State") df;
  let df := setitem df "StateProvince" c in
  (* fix Lat/Long columns and combine *)
  df ← fillna_column df "Lat";
  df ← fillna_column df "Latitude";
  df ← fillna_column df "Long_";
  df ← fillna_column df "Longitude";
  c ← apply_rows (coalesce_coord "Lat" "Latitude") df;
  let df := setitem df "Latitude" c in
  c ← apply_rows (coalesce_coord "Long_" "Longitude") df;
  let df := setitem df "Longitude" c in
  (* convert String date columns and combine *)
  c ← apply_rows (fun row => cell_of_datetime <$> convertLastUpdate row) df;
  let df := setitem df "LastUpdateDatetime" c in
  c ← getattr df "LastUpdateDatetime";
  c ← series_dt_date c;
  let df := setitem df "LastUpdateDate" c in
  (* delete unnecessary columns *)
  let colsToDelete :=
    ["Last_Update"; "Last Update"; "FIPS"; "Country/Region"; "Country_Region";
     "Unnamed: 0"; "Long_"; "Lat"; "Province/State"; "Province_State";
     "LastUpdate"; "Combined_Key"; "updateLength"] in
  let df := foldl try_drop df colsToDelete in
  (* set categorical columns *)
  let colsCategory :=
    ["Latitude"; "Longitude"; "US_County"; "StateProvince"; "CountryRegion";
     "LastUpdateDatetime"; "LastUpdateDate"] in
  df ← foldM astype_category df colsCategory;
  (* remove China from dataset *)
  c ← getattr df "CountryRegion";
  Ok (boolean_index df ((fun x => negb (isin ["China"; "Mainland China"] x)) <$> c)).

(** [.date] of one value of a [datetime64] series: the calendar date of a
    timestamp, a null for [NaT]. *)
Definition timestamp_date (c : Cell) : result Cell :=
  match c with
  | DateTime t => Ok (Date (dt_date t))
  | NaN => Ok NaN
  | _ => Raise (AttributeError "dt")
  end.

Section Pandas.

(** [pd.to_datetime(_, format=fmt)] on one cell: a [DateTime], [NaN] for
    [NaT], or an exception (among them the one pandas raises for a date-time
    out of the bounds of nanosecond timestamps). *)
Variable to_datetime : string -> Cell -> result Cell.

(** Whether [groupby(...).apply] always keys its result by group (pandas
    from 2.0 on), and the default of [observed] in [groupby]. *)
Variable group_keys : bool.
Variable observed : bool.

(** [pd.to_datetime(col, format=fmt).dt.date].  What [pd.to_datetime]
    returns is a [datetime64] series whatever it holds (nulls only, or no
    value at all), so that [.dt] is there, and [.date] is taken value by
    value. *)
Definition to_date_column (fmt : string) (col : list Cell) : result (list Cell) :=
  ts ← traverse (to_datetime fmt) col;
  traverse timestamp_date ts.

(** ** State and country historical counts *)

Definition processCovidTrackingStateHistorical (df : DataFrame) : result DataFrame :=
  let colsToDrop := ["hash"; "posNeg"; "fips"; "dateChecked"] in
  df ← drop_columns df colsToDrop;
  col ← getattr df "date";
  dates ← to_date_column "%Y%m%d" col;
  let df := setitem df "date" dates in
  foldM astype_category df ["date"; "state"].

Definition processCovidTrackingCountryHistorical (df : DataFrame) : result DataFrame :=
  let colsToDrop := ["hash"; "posNeg"; "fips"; "dateChecked"; "states"] in
  df ← drop_columns df colsToDrop;
  col ← getattr df "date";
  dates ← to_date_column "%Y%m%d" col;
  let df := setitem df "date" dates in
  foldM astype_category df ["date"].

(** ** Regional aggregate counts, country level *)

(** [df[df.updateTime == df.updateTime.max()]]. *)
Definition chooseLatestRow (df : DataFrame) : result DataFrame :=
  ut ← getattr df "updateTime";
  let m := series_max ut in
  Ok (boolean_index df ((fun c => negb (is_nan c) && bool_decide (c = m)) <$> ut)).

Definition processDxyCovid19Country (df : DataFrame) : result DataFrame :=
  let colsToKeep :=
    ["confirmedCount"; "suspectedCount"; "curedCount"; "deadCount";
     "seriousCount"; "updateTime"] in
  df ← select_columns df colsToKeep;
  let df := rename_column df "confirmedCount" "confirmed" in
  let df := rename_column df "suspectedCount" "suspected" in
  let df := rename_column df "curedCount" "recovered" in
  let df := rename_column df "deadCount" "death" in
  let df := rename_column df "seriousCount" "serious" in
  ut ← getattr df "updateTime";
  dates ← to_date_column "%Y-%m-%d %H:%M:%S" ut;
  let df := setitem df "date" dates in
  df ← foldM astype_category df ["updateTime"; "date"];
  x ← groupby_apply group_keys ["date"] chooseLatestRow df;
  x ← indexed_select x ["confirmed"; "suspected"; "recovered"; "death"; "serious"];
  df ← reset_index x;
  select_columns df ["date"; "confirmed"; "suspected"; "recovered"; "death"; "serious"].

(** ** Regional aggregate counts, province level *)

(** [series != 'China']. *)
Definition ne_text (s : string) (c : Cell) : bool :=
  match c with
  | Str t => negb (String.eqb t s)
  | _ => true
  end.

Definition count_columns : list string :=
  ["province_confirmedCount"; "province_suspectedCount";
   "province_curedCount"; "province_deadCount"].

Definition processDxyCovid19Region (df : DataFrame) : result DataFrame :=
  df ← drop_columns df ["continentName"; "countryName"; "provinceName"; "cityName"];
  let df := rename_column df "continentEnglishName" "continent" in
  let df := rename_column df "countryEnglishName" "country" in
  let df := rename_column df "provinceEnglishName" "province" in
  let df := rename_column df "cityEnglishName" "city" in
  ut ← getattr df "updateTime";
  dates ← to_date_column "%Y-%m-%d %H:%M:%S" ut;
  let df := setitem df "date" dates in
  let validCountries := ["China"] in
  c ← getattr df "country";
  let df := boolean_index df (isin validCountries <$> c) in
  df ← groupby_agg observed
         ["continent"; "country"; "province"; "province_zipCode"; "date"; "updateTime"]
         ((fun c => (c, AggMax)) <$> count_columns) df;
  df ← groupby_agg observed
         ["continent"; "country"; "province"; "date"; "updateTime"]
         ((fun c => (c, AggSum)) <$> count_columns) df;
  df ← foldM astype_category df ["continent"; "country"; "province"; "date"; "updateTime"];
  p ← getattr df "province";
  let df := boolean_index df (ne_text "China" <$> p) in
  df ← groupby_agg observed ["continent"; "country"; "province"; "date"]
         ((fun c => (c, AggMax)) <$> count_columns) df;
  let df := ffill count_columns df in
  Ok (groupby_cummax ["continent"; "country"; "province"; "date"] count_columns df).

End Pandas.

(** An instance of [to_datetime] to run the transforms on examples: text
    goes through [strptime]; an integer is read as [YYYYMMDD]; a null gives
    a null. *)
Definition to_datetime_model (fmt : string) (c : Cell) : result Cell :=
  match c with
  | Str s => DateTime <$> strptime s fmt
  | Num q =>
      let n := Qnum q in
      let t := mkDateTime (mkDate (n / 10000) (n / 100 mod 100) (n mod 100)) 0 0 0 in
      if (Qden q =? 1)%positive && valid_datetime t then Ok (DateTime t)
      else Raise ValueError
  | NaN => Ok NaN
  | _ => Raise TypeError
  end.

(** ** Storage and the processing run *)

(** The object store and the printed output. *)
Record World : Type :=
  mkWorld { bucket : gmap string string; stdout : list string }.

Definition IO (A : Type) : Type := World -> result A * World.

Definition io_ret {A : Type} (a : A) : IO A := fun w => (Ok a, w).

Definition io_bind {A B : Type} (m : IO A) (k : A -> IO B) : IO B :=
  fun w => match m w with
           | (Ok a, w') => k a w'
           | (Raise e, w') => (Raise e, w')
           end.

Declare Scope io_scope.
Delimit Scope io_scope with io.
Notation "x <- m ;; k" := (io_bind m (fun x => k))
  (at level 100, m at next level, right associativity) : io_scope.
Notation "m ;; k" := (io_bind m (fun _ => k))
  (at level 100, right associativity) : io_scope.

(** [try: m except Exception as e: h(e)]. *)
Definition try_except {A : Type} (m : IO A) (h : exn -> IO A) : IO A :=
  fun w => match m w with
           | (Ok a, w') => (Ok a, w')
           | (Raise e, w') => h e w'
           end.

Definition lift {A : Type} (r : result A) : IO A := fun w => (r, w).

Definition print (line : string) : IO unit :=
  fun w => (Ok tt, mkWorld (bucket w) (stdout w ++ [line])).

(** [bucket.blob(key).download_as_string()]. *)
Definition download_as_string (key : string) : IO string :=
  fun w => match bucket w !! key with
           | Some content => (Ok content, w)
           | None => (Raise (NotFound key), w)
           end.

(** [bucket.blob(key).upload_from_string(content)]. *)
Definition upload_from_string (key content : string) : IO unit :=
  fun w => (Ok tt, mkWorld (<[key := content]> (bucket w)) (stdout w)).

(** The registry of sources, in the order of the dictionary. *)
Definition sources : list (string * list (string * string)) :=
  [("NyTimes",
    [("County", "https://raw.githubusercontent.com/nytimes/covid-19-data/master/us-counties.csv")]);
   ("CovidTracking",
    [("StateHistorical", "https://covidtracking.com/api/v1/states/daily.csv");
     ("CountryHistorical", "https://covidtracking.com/api/v1/us/daily.csv")]);
   ("DxyCovid19",
    [("Region", "https://raw.githubusercontent.com/BlankerL/DXY-COVID-19-Data/master/csv/DXYArea.csv");
     ("Country", "https://raw.githubusercontent.com/BlankerL/DXY-COVID-19-Data/master/csv/DXYOverall.csv")]);
   ("JHU",
    [("ProvinceState", "https://raw.githubusercontent.com/CSSEGISandData/COVID-19/master/csse_covid_19_data/csse_covid_19_daily_reports/");
     ("FilenameFormat", "%m-%d-%Y.csv");
     ("StartDate", "01-22-2020")])].

Fixpoint assoc {A : Type} (k : string) (l : list (string * A)) : option A :=
  match l with
  | [] => None
  | (k', v) :: l' => if String.eqb k k' then Some v else assoc k l'
  end.

Definition is_newline (c : ascii) : bool := Ascii.eqb c "010".

Definition ci_eq (c lower upper : ascii) : bool := Ascii.eqb c lower || Ascii.eqb c upper.

(** The text starts with [[.]csv], whatever the case. *)
Definition at_dot_csv (s : list ascii) : bool :=
  match s with
  | d :: c :: s' :: v :: _ =>
      Ascii.eqb d "." && ci_eq c "c" "C" && ci_eq s' "s" "S" && ci_eq v "v" "V"
  | _ => false
  end.

(** Group 1 of the match of [filename] against the pattern of
    [getStagingBlob_andArchiveCurrentTarget] (any characters, then [.csv] in
    any case): the longest start of the first line that [.csv] follows. *)
Fixpoint csv_stem (s : list ascii) : option (list ascii) :=
  match s with
  | [] => None
  | c :: s' =>
      match (if is_newline c then None else csv_stem s') with
      | Some p => Some (c :: p)
      | None => if at_dot_csv s then Some [] else None
      end
  end.

(** Group 1 of the match of [url] against the pattern of [getFilename]:
    what follows the last slash after which a [.csv] still occurs, up to
    and including the last [.csv]. *)
Fixpoint csv_basename (s : list ascii) : option (list ascii) :=
  match s with
  | [] => None
  | c :: s' =>
      match (if is_newline c then None else csv_basename s') with
      | Some g => Some g
      | None =>
          if Ascii.eqb c "/"
          then p ← csv_stem s'; Some (p ++ take 4 (drop (length p) s'))
          else None
      end
  end.

Definition lower_char (c : ascii) : ascii :=
  let n := N_of_ascii c in
  if ((65 <=? n) && (n <=? 90))%N then ascii_of_N (n + 32) else c.

Definition lower (s : string) : string :=
  string_of_list_ascii (lower_char <$> chars s).

Definition getFilename (key url desc : string) : result string :=
  match csv_basename (chars url) with
  | Some g =>
      Ok (lower key +:+ (if String.eqb desc EmptyString then EmptyString else "-" +:+ desc)
          +:+ "-" +:+ string_of_list_ascii g)
  | None => Raise (AttributeError "group")
  end.

Section Run.

Variable to_datetime : string -> Cell -> result Cell.
Variable group_keys : bool.
Variable observed : bool.

(** [pd.read_csv] on the text of an object, [df.to_csv(index=False)],
    [str(e)] of an exception, today as [%Y%m%d], and the days from the
    start date of the JHU series to today, each as [%m-%d-%Y]. *)
Variable read_csv : string -> result DataFrame.
Variable to_csv : DataFrame -> string.
Variable str_exn : exn -> string.
Variable today : string.
Variable days : list string.

Local Open Scope io_scope.

Definition getStagingBlob_andArchiveCurrentTarget
    (folderStaging folderTarget folderArchive filename : string)
    (getStaging getTarget : bool) : IO (DataFrame * string) :=
  (* create blobs *)
  let blobStaging := folderStaging +:+ filename in
  let blobTarget := folderTarget +:+ filename in
  archiveFilename <- lift (match csv_stem (chars filename) with
                           | Some p => Ok (string_of_list_ascii p)
                           | None => Raise (AttributeError "group")
                           end);;
  let date := today in
  let archiveFilename := archiveFilename +:+ "-" +:+ date +:+ ".csv" in
  let blobArchive := folderArchive +:+ archiveFilename in
  (* retrieve file from staging and convert to Dataframe *)
  df <- (if getStaging then
           downloadStaging <- download_as_string blobStaging;;
           print ("Retrieved file from staging: " +:+ filename);;
           lift (read_csv downloadStaging)
         else io_ret empty_frame);;
  (if getTarget then
     (* retrieve/archive current file in target *)
     try_except
       (downloadTarget <- download_as_string blobTarget;;
        upload_from_string blobArchive downloadTarget;;
        print ("Target file archived: " +:+ filename +:+ " > " +:+ archiveFilename))
       (fun e =>
          print ("Archival Skipped. Target file does not exist: " +:+ filename
                 +:+ String "010" EmptyString);;
          print ("ERROR: " +:+ str_exn e))
   else io_ret tt);;
  io_ret (df, blobTarget).

(** [eval('self.process%s%s' % (source, key))]. *)
Definition transform_of (source key : string) : result (DataFrame -> result DataFrame) :=
  match source +:+ key with
  | "NyTimesCounty" => Ok (fun df => Ok (processNyTimesCounty df))
  | "JHUProvinceState" => Ok processJHUProvinceState
  | "CovidTrackingStateHistorical" => Ok (processCovidTrackingStateHistorical to_datetime)
  | "CovidTrackingCountryHistorical" => Ok (processCovidTrackingCountryHistorical to_datetime)
  | "DxyCovid19Country" => Ok (processDxyCovid19Country to_datetime group_keys)
  | "DxyCovid19Region" => Ok (processDxyCovid19Region to_datetime observed)
  | name => Raise (AttributeError ("process" +:+ name))
  end.

(** One turn of the loop over the days of the JHU series. *)
Definition append_day (staging source : string) (df : DataFrame)
    (currentDateStr : string) : IO DataFrame :=
  print ("attempting current date = " +:+ currentDateStr);;
  let blobStaging := staging +:+ lower source +:+ "-" +:+ currentDateStr +:+ ".csv" in
  print ("created blob: " +:+ currentDateStr);;
  downloadedFile <-
    try_except
      (s <- download_as_string blobStaging;;
       print ("downloaded file: " +:+ currentDateStr);;
       io_ret s)
      (fun e =>
         print ("ERROR: file not found - " +:+ currentDateStr);;
         print (str_exn e);;
         io_ret EmptyString);;
  if (String.length downloadedFile =? 0)%nat then
    print ("Empty file: " +:+ currentDateStr);;
    io_ret df
  else
    tempDf <- lift (read_csv downloadedFile);;
    print ("Converted download to DF - " +:+ currentDateStr);;
    let df := df_append df tempDf in
    print ("Appended file to DF: " +:+ currentDateStr);;
    io_ret df.

Fixpoint append_days (staging source : string) (df : DataFrame)
    (ds : list string) : IO DataFrame :=
  match ds with
  | [] => io_ret df
  | d :: ds' => df' <- append_day staging source df d;; append_days staging source df' ds'
  end.

(** The body of the loop over the datasets of a source. *)
Definition process_key (source staging target archive : string)
    (entry : string * string) : IO unit :=
  let key := entry.1 in
  (* get filenames *)
  filename <- lift (getFilename source entry.2 key);;
  (* retrieve files from staging, archive existing target files *)
  r <- getStagingBlob_andArchiveCurrentTarget staging target archive filename true true;;
  let df := r.1 in
  let blobTarget := r.2 in
  (* process staging file *)
  f <- lift (transform_of source key);;
  df <- lift (f df);;
  print ("Finish processing data: " +:+ filename);;
  (* push to target *)
  let df := to_csv df in
  upload_from_string blobTarget df;;
  print ("Pushed file to Target: " +:+ filename).

Fixpoint for_each {A : Type} (body : A -> IO unit) (xs : list A) : IO unit :=
  match xs with
  | [] => io_ret tt
  | x :: xs' => body x;; for_each body xs'
  end.

Definition process (source staging target archive : string) : IO unit :=
  print ("Processing " +:+ source);;
  if String.eqb source "JHU" then
    (* get target filename *)
    let filename := "jhu-target.csv" in
    r <- getStagingBlob_andArchiveCurrentTarget staging target archive filename false true;;
    let blobTarget := r.2 in
    df <- append_days staging source r.1 days;;
    (* process combined df object *)
    f <- lift (transform_of source "ProvinceState");;
    df <- lift (f df);;
    print ("Finish processing data: " +:+ filename);;
    (* push processed df to target *)
    let df := to_csv df in
    upload_from_string blobTarget df;;
    print ("Pushed file to Target: " +:+ filename)
  else
    match assoc source sources with
    | Some entries => for_each (process_key source staging target archive) entries
    | None => lift (Raise (KeyError [source]))
    end.

Definition processData (staging target archive : string) : IO unit :=
  for_each (fun k => process k.1 staging target archive) sources.

End Run.

(** * Part II: the vocabulary of the statements *)

(** Two rows agree on the labels [ls]. *)
Definition keeps (ls : list string) (r r' : Row) : Prop :=
  Forall (fun l => cell r' l = cell r l) ls.

(** [r'] is [r] with [l] set to a value that [P] relates to [r]. *)
Definition upd (l : string) (P : Row -> Cell -> Prop) (r r' : Row) : Prop :=
  exists v, P r v /\ r' = <[l := v]> r.

(** [x if x != 0 else y] and [x if type(x) == str else y] on cells. *)
Definition nonzero_or (x y : Cell) : Cell := if ne_zero x then x else y.
Definition text_or (x y : Cell) : Cell := match x with Str _ => x | _ => y end.

(** The cells of [r] at some labels, as functions of the input row [r0]. *)
Definition facts (fs : list (string * (Row -> Cell))) (r0 r : Row) : Prop :=
  Forall (fun lf => cell r lf.1 = lf.2 r0) fs.

(** What [processJHUProvinceState] makes of an input row [r0]. *)
Definition jhu_row : Row -> Row -> Prop :=
  facts [("Latitude", fun r0 => nonzero_or (fillna0 (cell r0 "Lat")) (fillna0 (cell r0 "Latitude")));
         ("Longitude", fun r0 => nonzero_or (fillna0 (cell r0 "Long_")) (fillna0 (cell r0 "Longitude")));
         ("CountryRegion", fun r0 => text_or (cell r0 "Country/Region") (cell r0 "Country_Region"))].

Definition orig (l : string) : string * (Row -> Cell) := (l, fun r0 => cell r0 l).
Definition filled (l : string) : string * (Row -> Cell) := (l, fun r0 => fillna0 (cell r0 l)).
Definition merged (l a b : string) : string * (Row -> Cell) :=
  (l, fun r0 => nonzero_or (fillna0 (cell r0 a)) (fillna0 (cell r0 b))).
Definition country : string * (Row -> Cell) :=
  ("CountryRegion", fun r0 => text_or (cell r0 "Country/Region") (cell r0 "Country_Region")).

Definition num (z : Z) : Cell := Num (Q2Qc (inject_Z z)).
Definition get_ok (r : result DataFrame) : DataFrame :=
  match r with Ok df => df | Raise _ => empty_frame end.

(** Three daily reports of the JHU series, one of each naming era, appended. *)
Definition jhu_example : DataFrame :=
  mkFrame ["Province/State"; "Country/Region"; "Last Update"; "Confirmed";
           "Province_State"; "Country_Region"; "Last_Update"; "Lat"; "Long_";
           "Latitude"; "Longitude"; "Admin2"; "FIPS"]
    [list_to_map [("Province/State", Str "Hubei"); ("Country/Region", Str "Mainland China");
                  ("Last Update", Str "1/22/2020 17:00"); ("Confirmed", num 444)];
     list_to_map [("Province_State", Str "New York"); ("Country_Region", Str "US");
                  ("Last_Update", Str "2020-03-22 23:45:00"); ("Confirmed", num 100);
                  ("Lat", Num (Q2Qc (407 # 10))); ("Long_", num (-74));
                  ("Latitude", num 41); ("Longitude", num (-73));
                  ("Admin2", Str "New York City")];
     list_to_map [("Province/State", Str "Ontario"); ("Country/Region", Str "Canada");
                  ("Last Update", Str "2020-03-01T08:00:00"); ("Confirmed", num 4);
                  ("Lat", num 0); ("Latitude", Num (Q2Qc (407 # 10)));
                  ("Longitude", num (-85))];
     list_to_map [("Province/State", Str "Hong Kong"); ("Country/Region", Str "China");
                  ("Last Update", Str "2/1/20 11:53"); ("Confirmed", num 13)];
     list_to_map [("Country_Region", Str "Iceland");
                  ("Last_Update", Str "2020-03-22 23:45:00"); ("Confirmed", num 7)]]
    ∅.

(** A day of the country-level history, and the same day in the state-level
    layout, which has no [states] column. *)
Definition us_daily : DataFrame :=
  mkFrame ["date"; "states"; "positive"; "hash"; "dateChecked"; "posNeg"; "fips"]
    [list_to_map [("date", num 20200301); ("states", num 56); ("positive", num 42);
                  ("hash", Str "8b1"); ("dateChecked", Str "2020-03-01T00:00:00Z");
                  ("posNeg", num 100); ("fips", num 0)]]
    ∅.

Definition states_daily : DataFrame :=
  mkFrame ["date"; "state"; "positive"; "hash"; "dateChecked"; "posNeg"; "fips"]
    [list_to_map [("date", num 20200301); ("state", Str "NY"); ("positive", num 42);
                  ("hash", Str "8b1"); ("dateChecked", Str "2020-03-01T00:00:00Z");
                  ("posNeg", num 100); ("fips", num 36)]]
    ∅.

Definition country_colsToDrop : list string :=
  ["hash"; "posNeg"; "fips"; "dateChecked"; "states"].

(** [to_datetime] gives a date-time or a null on the cell. *)
Definition converts (to_datetime : string -> Cell -> result Cell) (fmt : string) (c : Cell) : Prop :=
  to_datetime fmt c = Ok NaN \/ exists t, to_datetime fmt c = Ok (DateTime t).

(** How a date-time is written: decimal digits, a field of one or two digits
    with or without its leading zero. *)
Definition digit_char (v : Z) : ascii := ascii_of_N (Z.to_N (48 + v)).

Definition two_digits (n : Z) : list ascii :=
  [digit_char (n / 10); digit_char (n mod 10)].

Definition four_digits (n : Z) : list ascii :=
  [digit_char (n / 1000); digit_char (n / 100 mod 10);
   digit_char (n / 10 mod 10); digit_char (n mod 10)].

Inductive writes (n : Z) : list ascii -> Prop :=
| writes_padded : writes n (two_digits n)
| writes_bare : n < 10 -> writes n [digit_char n].

(** The text ends, or goes on with a character that is no digit. *)
Definition no_digit_next (rest : list ascii) : Prop :=
  match rest with
  | [] => True
  | c :: _ => digit_val c = None
  end.

(** A pattern that cannot start on a digit. *)
Definition rejects_digit (p : list re_item) : Prop :=
  match p with
  | [] => True
  | Chr c :: _ => digit_val c = None
  | Digits _ _ :: _ => False
  end.

Definition is_CDigit (k : cclass) : Prop :=
  match k with CDigit _ _ => True | CBlank => False end.

(** An alternative on a text that stands alone. *)
Definition alt_on (ks : list cclass) (ds : list ascii) : option (Z * list ascii) :=
  if (length ks <=? length ds)%nat then match_classes ks ds 0 else None.

Definition first_alt (d : directive) (ds : list ascii) : option (Z * list ascii) :=
  first_some (fun ks => alt_on ks ds) (alternatives d).

Definition with_rest (rest : list ascii) (x : Z * list ascii) : Z * list ascii :=
  (x.1, x.2 ++ rest).

Definition is_field (d : directive) : Prop :=
  match d with Dlit _ | Dspace => False | _ => True end.

(** The two layouts of the four shapes. *)
Definition text_slash (m d y H M : list ascii) : list ascii :=
  m ++ "/"%char :: d ++ "/"%char :: y ++ " "%char :: H ++ ":"%char :: M.

Definition text_dash (sep : ascii) (y m d H M S : list ascii) : list ascii :=
  y ++ "-"%char :: m ++ "-"%char :: d ++ sep :: H ++ ":"%char :: M ++ ":"%char :: S.

(** The year a two-digit year stands for. *)
Definition century (yy : Z) : Z := if yy <=? 68 then yy + 2000 else yy + 1900.

(** [written t s]: the text [s] writes the date-time [t] in one of the four
    shapes [mm/dd/yy HH:MM], [mm/dd/yyyy HH:MM], [yyyy-mm-ddTHH:MM:SS] and
    [yyyy-mm-dd HH:MM:SS]. *)
Inductive written (t : datetime) : list ascii -> Prop :=
| written_mdy2 yy m d H M :
    0 <= yy <= 99 -> year (dt_date t) = century yy -> second t = 0 ->
    writes (month (dt_date t)) m -> writes (day (dt_date t)) d ->
    writes (hour t) H -> writes (minute t) M ->
    written t (text_slash m d (two_digits yy) H M)
| written_mdy4 m d H M :
    second t = 0 ->
    writes (month (dt_date t)) m -> writes (day (dt_date t)) d ->
    writes (hour t) H -> writes (minute t) M ->
    written t (text_slash m d (four_digits (year (dt_date t))) H M)
| written_isoT m d H M S :
    writes (month (dt_date t)) m -> writes (day (dt_date t)) d ->
    writes (hour t) H -> writes (minute t) M -> writes (second t) S ->
    written t (text_dash "T" (four_digits (year (dt_date t))) m d H M S)
| written_iso m d H M S :
    writes (month (dt_date t)) m -> writes (day (dt_date t)) d ->
    writes (hour t) H -> writes (minute t) M -> writes (second t) S ->
    written t (text_dash " " (four_digits (year (dt_date t))) m d H M S).

(** The row holds the text [s] under [label]. *)
Definition has_text (row : Series) (label s : string) : Prop :=
  label ∈ index row /\ values row !! label = Some (Str s).

(** The text matches one of the four patterns. *)
Definition matches_a_shape (s : string) : bool :=
  re_match reg_mmddyyHHMM s || re_match reg_mmddyyyyHHMM s
  || re_match reg_yyyymmddTHHMMSS s || re_match reg_yyyy_mm_dd_HHMMSS s.

(** A field is a run of one or two digits. *)
Record run (lo hi : nat) (ds : list ascii) : Prop := mk_run {
  run_digits : Forall (fun c => is_digit c = true) ds;
  run_length : (lo <= length ds <= hi)%nat
}.

Definition fields_of (t : datetime) : fields :=
  mkFields (year (dt_date t)) (month (dt_date t)) (day (dt_date t))
           (hour t) (minute t) (second t).

Definition country_counts : list string :=
  ["confirmed"; "suspected"; "recovered"; "death"; "serious"].

(** The rows [chooseLatestRow] keeps of a group. *)
Definition latest (g : list Row) : list Row :=
  filter (fun r => (fun c => negb (is_nan c)
                             && bool_decide (c = series_max ((fun r => cell r "updateTime") <$> g)))
                     (cell r "updateTime") = true) g.

(** The output row for a kept row [r] of the group with key [k]. *)
Definition country_row (k : list Cell) (r : Row) : Row :=
  filter (fun kv => kv.1 ∈ "date" :: country_counts)
         (bind_cells ["date"] k (filter (fun kv => kv.1 ∈ country_counts) r)).

(** The frame [chooseLatestRow] returns, for a group that has [updateTime]. *)
Definition latest_frame (g : DataFrame) : DataFrame :=
  boolean_index g ((fun c => negb (is_nan c)
                             && bool_decide (c = series_max ((fun r => cell r "updateTime") <$> rows g)))
                   <$> ((fun r => cell r "updateTime") <$> rows g)).

(** The date [processDxyCovid19Country] derives for an input row. *)
Definition date_of (to_datetime : string -> Cell -> result Cell) (r : Row) : Cell :=
  match to_datetime "%Y-%m-%d %H:%M:%S" (cell r "updateTime") with
  | Ok (DateTime t) => Date (dt_date t)
  | _ => NaN
  end.

Definition is_text (c : Cell) : Prop := exists s, c = Str s.

(** An output row carries the counts of the input row [r0]. *)
Definition same_counts (r0 r' : Row) : Prop :=
  cell r' "confirmed" = cell r0 "confirmedCount"
  /\ cell r' "suspected" = cell r0 "suspectedCount"
  /\ cell r' "recovered" = cell r0 "curedCount"
  /\ cell r' "death" = cell r0 "deadCount"
  /\ cell r' "serious" = cell r0 "seriousCount".

Definition country_colsToKeep : list string :=
  ["confirmedCount"; "suspectedCount"; "curedCount"; "deadCount"; "seriousCount"; "updateTime"].

(** [to_datetime] turns the timestamp of the row into a date-time. *)
Definition has_timestamp (to_datetime : string -> Cell -> result Cell) (r : Row) : Prop :=
  is_text (cell r "updateTime")
  /\ exists t, to_datetime "%Y-%m-%d %H:%M:%S" (cell r "updateTime") = Ok (DateTime t).

Definition rename_label (old new c : string) : string := if decide (c = old) then new else c.

(** What reaches the group-by of the country transform: the renamed
    counts, the timestamp and the derived date. *)
Definition country_prepared (to_datetime : string -> Cell -> result Cell)
    : list (string * (Row -> Cell)) :=
  [("confirmed", fun r0 => cell r0 "confirmedCount");
   ("suspected", fun r0 => cell r0 "suspectedCount");
   ("recovered", fun r0 => cell r0 "curedCount");
   ("death", fun r0 => cell r0 "deadCount");
   ("serious", fun r0 => cell r0 "seriousCount");
   ("updateTime", fun r0 => cell r0 "updateTime");
   ("date", date_of to_datetime)].

(** Three snapshots of the country-level series, two of them on one day. *)
Definition dxy_overall_row (updateTime : string) (confirmed : Z) : Row :=
  list_to_map [("confirmedCount", num confirmed); ("suspectedCount", num 1);
               ("curedCount", num 2); ("deadCount", num 3); ("seriousCount", num 4);
               ("updateTime", Str updateTime); ("countryRemark", Str "x")].

Definition dxy_overall : DataFrame :=
  mkFrame ["confirmedCount"; "suspectedCount"; "curedCount"; "deadCount";
           "seriousCount"; "updateTime"; "countryRemark"]
    [dxy_overall_row "2020-03-01 08:00:00" 10;
     dxy_overall_row "2020-03-01 20:00:00" 15;
     dxy_overall_row "2020-02-28 20:00:00" 5]
    ∅.

(** [t.strftime('%Y-%m-%d %H:%M:%S')]: every field with its leading zeros. *)
Definition strftime_YmdHMS (t : datetime) : string :=
  string_of_list_ascii
    (text_dash " " (four_digits (year (dt_date t)))
       (two_digits (month (dt_date t))) (two_digits (day (dt_date t)))
       (two_digits (hour t)) (two_digits (minute t)) (two_digits (second t))).

(** The timestamp [to_datetime] reads from the row. *)
Definition timestamp_of (to_datetime : string -> Cell -> result Cell) (r : Row) : Cell :=
  match to_datetime "%Y-%m-%d %H:%M:%S" (cell r "updateTime") with
  | Ok c => c
  | Raise _ => NaN
  end.

(** The row writes its timestamp with leading zeros, as the format
    [%Y-%m-%d %H:%M:%S] prints it. *)
Definition padded_timestamp (to_datetime : string -> Cell -> result Cell) (r : Row) : Prop :=
  exists t, valid_datetime t = true
            /\ cell r "updateTime" = Str (strftime_YmdHMS t)
            /\ to_datetime "%Y-%m-%d %H:%M:%S" (cell r "updateTime") = Ok (DateTime t).

(** [out] has exactly one row for each date of [df], and that row carries
    the counts of the row of [df] with the latest timestamp of that date. *)
Definition latest_per_date (to_datetime : string -> Cell -> result Cell)
    (df out : DataFrame) : Prop :=
  NoDup ((fun r' => cell r' "date") <$> rows out)
  /\ (forall r0, r0 ∈ rows df ->
                 date_of to_datetime r0 ∈ (fun r' => cell r' "date") <$> rows out)
  /\ Forall (fun r' =>
               exists r0, r0 ∈ rows df
                 /\ cell r' "date" = date_of to_datetime r0
                 /\ same_counts r0 r'
                 /\ Forall (fun r2 =>
                              date_of to_datetime r2 = date_of to_datetime r0 ->
                              cell_leb (timestamp_of to_datetime r2)
                                       (timestamp_of to_datetime r0) = true)
                           (rows df))
            (rows out).

(** Two snapshots of one day, the earlier one written without the leading
    zero of its hour. *)
Definition dxy_unpadded : DataFrame :=
  mkFrame ["confirmedCount"; "suspectedCount"; "curedCount"; "deadCount";
           "seriousCount"; "updateTime"; "countryRemark"]
    [dxy_overall_row "2020-03-01 8:00:00" 10;
     dxy_overall_row "2020-03-01 20:00:00" 15]
    ∅.

(** A province on three days, with a lower count on the second day. *)
Definition dxy_area_row (province updateTime : string) (confirmed : Z) : Row :=
  list_to_map [("continentName", Str "Yazhou"); ("countryName", Str "Zhongguo");
               ("provinceName", Str "Hubei Sheng"); ("cityName", Str "Wuhan Shi");
               ("continentEnglishName", Str "Asia"); ("countryEnglishName", Str "China");
               ("provinceEnglishName", Str province); ("cityEnglishName", Str "Wuhan");
               ("province_zipCode", num 420000); ("updateTime", Str updateTime);
               ("province_confirmedCount", num confirmed);
               ("province_suspectedCount", num 0); ("province_curedCount", num 0);
               ("province_deadCount", num 0)].

Definition dxy_area : DataFrame :=
  mkFrame ["continentName"; "countryName"; "provinceName"; "cityName";
           "continentEnglishName"; "countryEnglishName"; "provinceEnglishName";
           "cityEnglishName"; "province_zipCode"; "updateTime";
           "province_confirmedCount"; "province_suspectedCount";
           "province_curedCount"; "province_deadCount"]
    [dxy_area_row "Hubei" "2020-03-01 08:00:00" 100;
     dxy_area_row "Hubei" "2020-03-02 08:00:00" 80;
     dxy_area_row "Hubei" "2020-03-03 08:00:00" 120]
    ∅.

(** The archive key of a target file. *)
Definition archive_key (folderArchive stem today : string) : string :=
  folderArchive +:+ (stem +:+ "-" +:+ today +:+ ".csv").

Definition skipped_line (filename : string) : string :=
  "Archival Skipped. Target file does not exist: " +:+ filename +:+ String "010" EmptyString.

(** A codec for files that hold a header line only, to run the publisher. *)
Definition read_header (s : string) : result DataFrame := Ok (mkFrame [s] [] ∅).
Definition write_header (df : DataFrame) : string := String.concat "," (columns df).
Definition show_exn (e : exn) : string :=
  match e with
  | NotFound key => "404 " +:+ key
  | _ => "error"
  end.

Definition county_file : string := "nytimes-County-us-counties.csv".

Definition staged_world (target : list (string * string)) : World :=
  mkWorld (list_to_map (("staging/" +:+ county_file, "date,county,state,fips,cases,deaths")
                        :: target)) [].

Definition last_update (s : string) : Series :=
  mkSeries ["LastUpdate"] {["LastUpdate" := Str s]}.

(** * Part III: the fetch step *)

(** [datetime.strptime(start, dateFormat).date()]. *)
Definition startDateDefault (start dateFormat : string) : result date :=
  dt_date <$> strptime start dateFormat.

(** [d + timedelta(days=1)]; there is no day after [date.max], where Python
    raises [OverflowError]. *)
Definition next_day (d : date) : option date :=
  if day d <? days_in_month (year d) (month d)
  then Some (mkDate (year d) (month d) (day d + 1))
  else if month d <? 12 then Some (mkDate (year d) (month d + 1) 1)
  else if year d <? 9999 then Some (mkDate (year d + 1) 1 1)
  else None.

(** [d.strftime('%m-%d-%Y')], for the years of four digits. *)
Definition strftime_mdY (d : date) : string :=
  string_of_list_ascii
    (two_digits (month d) ++ "-"%char :: two_digits (day d) ++ "-"%char :: four_digits (year d)).

(** The object: [__init__] starts [currentDate] at [startDate]. *)
Record Covid19Data : Type :=
  mkCovid19Data { startDate : date; endDate : date; currentDate : date }.

Definition init (startDate endDate : date) : Covid19Data :=
  mkCovid19Data startDate endDate startDate.

(** How a loop over the days ends: it returns or raises with a world, the
    date arithmetic overflows, or the fuel of the model runs out. *)
Inductive outcome : Type :=
| Finished (r : result unit) (w : World)
| Overflow (w : World)
| OutOfFuel.

(** An upper bound on the turns of [while currentDate <= endDate]. *)
Definition day_index (d : date) : Z := 372 * year d + 31 * month d + day d.

Definition turns (currentDate endDate : date) : nat :=
  S (Z.to_nat (day_index endDate - day_index currentDate + 1)).

Section Fetch.

(** [pd.read_csv(url)], [df.to_csv(index=False)] and [str(e)]. *)
Variable fetch : string -> result DataFrame.
Variable to_csv : DataFrame -> string.
Variable str_exn : exn -> string.

Local Open Scope io_scope.

(** The [try] statement of one day of [getJhuData]. *)
Definition fetch_day (folder baseURL currentDateStr : string) : IO unit :=
let url := baseURL +:+ currentDateStr +:+ ".csv" in
try_except
  ((* fetch CSV *)
   df <- lift (fetch url);;
   print ("Fetched file for JHU - " +:+ currentDateStr);;
   (* push to GCS *)
   let df := to_csv df in
   let filename := "jhu-" +:+ currentDateStr +:+ ".csv" in
   upload_from_string (folder +:+ filename) df;;
   print ("Pushed file for JHU - " +:+ currentDateStr +:+ " to GCS"))
  (fun e => print (str_exn e)).

Fixpoint getJhuData_loop (fuel : nat) (folder baseURL : string)
  (currentDate endDate : date) (w : World) : outcome :=
match fuel with
| O => OutOfFuel
| S fuel' =>
    if date_leb currentDate endDate then
      let currentDateStr := strftime_mdY currentDate in
      let (r, w') := fetch_day folder baseURL currentDateStr w in
      (* finally *)
      match next_day currentDate with
      | None => Overflow w'
      | Some currentDate' =>
          match r with
          | Ok _ => getJhuData_loop fuel' folder baseURL currentDate' endDate w'
          | Raise e => Finished (Raise e) w'
          end
      end
    else Finished (Ok tt) w
end.

(** [getJhuData]; an argument left at [None] is taken from the object. *)
Definition getJhuData (self : Covid19Data) (folder baseURL : string)
  (start stop current : option date) : World -> outcome :=
let start := default (startDate self) start in
let stop := default (endDate self) stop in
let current := default (currentDate self) current in
getJhuData_loop (turns current stop) folder baseURL current stop.

(** The [try] statement of one dataset of [getData]. *)
Definition fetch_key (staging k : string) (entry : string * string) : IO unit :=
let j := entry.1 in
try_except
  ((* fetch CSV *)
   let url := entry.2 in
   df <- lift (fetch url);;
   print ("Fetched file for " +:+ k +:+ " - " +:+ j);;
   (* push to GCS *)
   let df := to_csv df in
   filename <- lift (getFilename k url j);;
   upload_from_string (staging +:+ filename) df;;
   print ("Pushed file for " +:+ k +:+ " - " +:+ j +:+ " to GCS"))
  (fun e =>
     print ("ERROR: failed to fetch/push " +:+ k +:+ " - " +:+ j);;
     print (str_exn e)).

Fixpoint getData_sources (self : Covid19Data) (staging : string)
  (ks : list (string * list (string * string))) (w : World) : outcome :=
match ks with
| [] => Finished (Ok tt) w
| (k, entries) :: ks' =>
    let o :=
      if String.eqb k "JHU" then
        match assoc "ProvinceState" entries with
        | Some url =>
            getJhuData self staging url (Some (startDate self)) (Some (endDate self)) None w
        | None => Finished (Raise (KeyError ["ProvinceState"])) w
        end
      else
        let (r, w') := for_each (fetch_key staging k) entries w in Finished r w' in
    match o with
    | Finished (Ok _) w' => getData_sources self staging ks' w'
    | _ => o
    end
end.

Definition getData (self : Covid19Data) (staging : string) : World -> outcome :=
getData_sources self staging sources.
End Fetch.

(** * Part IV: more vocabulary *)

Definition no_newline (s : list ascii) : Prop := Forall (fun c => is_newline c = false) s.

(** The staging key of a day of the JHU series. *)
Definition day_key (staging source day : string) : string :=
  staging +:+ lower source +:+ "-" +:+ day +:+ ".csv".

(** What a day contributes to the combined frame: nothing when its staging
    object is missing or empty, else the frame read from it. *)
Definition staged_day (read_csv : string -> result DataFrame) (b : gmap string string)
    (staging source day : string) (f : option DataFrame) : Prop :=
  match f with
  | None => b !! day_key staging source day = None
            \/ b !! day_key staging source day = Some EmptyString
  | Some t => exists s, b !! day_key staging source day = Some s
                        /\ s <> EmptyString /\ read_csv s = Ok t
  end.

(** Two rows of a daily report, beside the columns of the other eras; the
    last update of the second row has the shape of a date-time and names a
    day that no calendar has. *)
Definition jhu_impossible_date : DataFrame :=
  mkFrame ["Province/State"; "Country/Region"; "Last Update"; "Confirmed";
           "Province_State"; "Country_Region"; "Last_Update"; "Lat"; "Long_";
           "Latitude"; "Longitude"; "Admin2"; "FIPS"]
    [list_to_map [("Province/State", Str "Ontario"); ("Country/Region", Str "Canada");
                  ("Last Update", Str "2/1/20 11:53"); ("Confirmed", num 4)];
     list_to_map [("Province/State", Str "Quebec"); ("Country/Region", Str "Canada");
                  ("Last Update", Str "2/30/20 10:00"); ("Confirmed", num 2)]]
    ∅.

(** A reader that takes every staged day for the three-era example. *)
Definition read_jhu_example (s : string) : result DataFrame := Ok jhu_example.

(** A bucket with one staged day of the JHU series and a published target. *)
Definition jhu_world : World :=
  mkWorld (list_to_map [("staging/jhu-01-22-2020.csv", "Province/State,Country/Region");
                        ("target/jhu-target.csv", "old")]) [].

(** The columns after [df[l] = ...]. *)
Definition add_col (cols : list string) (l : string) : list string :=
  if decide (l ∈ cols) then cols else cols ++ [l].

Definition jhu_colsToDelete : list string :=
  ["Last_Update"; "Last Update"; "FIPS"; "Country/Region"; "Country_Region";
   "Unnamed: 0"; "Long_"; "Lat"; "Province/State"; "Province_State";
   "LastUpdate"; "Combined_Key"; "updateLength"].

Definition jhu_colsCategory : list string :=
  ["Latitude"; "Longitude"; "US_County"; "StateProvince"; "CountryRegion";
   "LastUpdateDatetime"; "LastUpdateDate"].

(** The labels [processJHUProvinceState] writes, renames or deletes. *)
Definition jhu_touched : list string :=
  ["Admin2"; "US_County"; "CountryRegion"; "StateProvince"; "Latitude"; "Longitude";
   "LastUpdateDatetime"; "LastUpdateDate"] ++ jhu_colsToDelete.

(** [r] has the cells of [r0] at every label outside [T]. *)
Definition untouched (T : list string) (r0 r : Row) : Prop :=
  forall l, l ∉ T -> cell r l = cell r0 l.

(** A row that holds [c] as its last-update value. *)
Definition last_update_of (c : Cell) : Series :=
  mkSeries ["LastUpdate"] {["LastUpdate" := c]}.

(** The last-update value of an input row: the text of the older column,
    else the value of the newer one. *)
Definition last_update_text (r0 : Row) : Cell :=
  text_or (cell r0 "Last Update") (cell r0 "Last_Update").

Definition parsed (c : Cell) : Cell :=
  match convertLastUpdate (last_update_of c) with
  | Ok t => cell_of_datetime t
  | Raise _ => NaN
  end.

Arguments parsed : simpl never.

(** [.dt.date] of a date-time or a null. *)
Definition date_part (c : Cell) : Cell :=
  match c with DateTime t => Date (dt_date t) | _ => NaN end.

(** The county column of an input row: [Admin2] when the frame has it. *)
Definition county_of (df : DataFrame) (r0 : Row) : Cell :=
  if decide ("Admin2" ∈ columns df) then cell r0 "Admin2" else cell r0 "US_County".

(** What [processJHUProvinceState] makes of an input row [r0], before it
    removes the rows of China. *)
Definition jhu_cells (df : DataFrame) : list (string * (Row -> Cell)) :=
  [("Latitude", fun r0 => nonzero_or (fillna0 (cell r0 "Lat")) (fillna0 (cell r0 "Latitude")));
   ("Longitude", fun r0 => nonzero_or (fillna0 (cell r0 "Long_")) (fillna0 (cell r0 "Longitude")));
   ("CountryRegion", fun r0 => text_or (cell r0 "Country/Region") (cell r0 "Country_Region"));
   ("StateProvince", fun r0 => text_or (cell r0 "Province/State") (cell r0 "Province_State"));
   ("US_County", county_of df);
   ("LastUpdateDatetime",
    fun r0 => parsed (text_or (cell r0 "Last Update") (cell r0 "Last_Update")));
   ("LastUpdateDate",
    fun r0 => date_part (parsed (text_or (cell r0 "Last Update") (cell r0 "Last_Update"))))].

Definition jhu_columns (df : DataFrame) : list string :=
  filter (fun c => c ∉ jhu_colsToDelete)
         (foldl add_col (rename_label "Admin2" "US_County" <$> columns df)
                ["LastUpdate"; "CountryRegion"; "StateProvince";
                 "LastUpdateDatetime"; "LastUpdateDate"]).

(** The rows that stay: the coalesced country/region is not China. *)
Definition kept_by_jhu (r0 : Row) : bool :=
  negb (isin ["China"; "Mainland China"]
             (text_or (cell r0 "Country/Region") (cell r0 "Country_Region"))).

Definition not_china (r : Row) : bool :=
  negb (isin ["China"; "Mainland China"] (cell r "CountryRegion")).

(** The state/province, last-update and county cells of an input row. *)
Definition state : string * (Row -> Cell) :=
  ("StateProvince", fun r0 => text_or (cell r0 "Province/State") (cell r0 "Province_State")).
Definition county (df : DataFrame) : string * (Row -> Cell) := ("US_County", county_of df).
Definition last_text : string * (Row -> Cell) :=
  ("LastUpdate", fun r0 => text_or (cell r0 "Last Update") (cell r0 "Last_Update")).
Definition last_datetime : string * (Row -> Cell) :=
  ("LastUpdateDatetime",
   fun r0 => parsed (text_or (cell r0 "Last Update") (cell r0 "Last_Update"))).
Definition last_date : string * (Row -> Cell) :=
  ("LastUpdateDate",
   fun r0 => date_part (parsed (text_or (cell r0 "Last Update") (cell r0 "Last_Update")))).

(** The labels the stages of [processJHUProvinceState] read. *)
Definition jhu_raw_columns : list string :=
  ["Last Update"; "Last_Update"; "Country/Region"; "Country_Region";
   "Province/State"; "Province_State"; "Lat"; "Latitude"; "Long_"; "Longitude"].

Definition state_colsToDrop : list string := ["hash"; "posNeg"; "fips"; "dateChecked"].

(** [pd.to_datetime(c, format=fmt).dt.date] of a cell that converts. *)
Definition to_date (to_datetime : string -> Cell -> result Cell) (fmt : string) (c : Cell)
  : Cell :=
  match to_datetime fmt c with
  | Ok (DateTime t) => Date (dt_date t)
  | _ => NaN
  end.

Definition region_keys : list string := ["continent"; "country"; "province"; "date"].

(** The range checks of the [date] constructor. *)
Definition valid_date (d : date) : bool :=
  (1 <=? year d) && (year d <=? 9999) && (1 <=? month d) && (month d <=? 12)
  && (1 <=? day d) && (day d <=? days_in_month (year d) (month d)).

(** The staging key and the URL of a day of the JHU series. *)
Definition jhu_staging_key (folder : string) (d : date) : string :=
  folder +:+ "jhu-" +:+ strftime_mdY d +:+ ".csv".

Definition jhu_url (baseURL : string) (d : date) : string :=
  baseURL +:+ strftime_mdY d +:+ ".csv".

(** The days from [first] to [last]. *)
Definition in_range (first last d : date) : Prop :=
  valid_date d = true /\ date_leb first d = true /\ date_leb d last = true.

(** A web that serves the three-era example for 22 January 2020 only. *)
Definition fetch_example (url : string) : result DataFrame :=
  if String.eqb url "https://example.org/reports/01-22-2020.csv" then Ok jhu_example
  else Raise (NotFound url).

(** * Part V: what the program does *)

(** ** County counts of the New York Times *)

(** C9: [processNyTimesCounty] returns the frame it is given, unchanged. *)
Theorem processNyTimesCounty_identity (df : DataFrame) : processNyTimesCounty df = df.
Proof. reflexivity. Qed.

(** ** Results and frames *)

Lemma bind_Ok {A B : Type} (m : result A) (k : A -> result B) (b : B) :
  (x ← m; k x) = Ok b -> exists a, m = Ok a /\ k a = Ok b.
Proof. destruct m as [a|e]; [eauto | discriminate]. Qed.

Lemma fmap_Ok {A B : Type} (f : A -> B) (m : result A) (b : B) :
  f <$> m = Ok b -> exists a, m = Ok a /\ b = f a.
Proof. destruct m as [a|e]; [|discriminate]. intros [= <-]. eauto. Qed.

Ltac bind_inv H :=
  let a := fresh "a" in
  let E := fresh "E" in
  apply bind_Ok in H as (a & E & H).

Lemma traverse_Forall2 {A B : Type} (f : A -> result B) (xs : list A) (ys : list B) :
  traverse f xs = Ok ys -> Forall2 (fun x y => f x = Ok y) xs ys.
Proof.
  revert ys. induction xs as [|x xs IH]; intros ys H; simpl in H.
  - injection H as <-. constructor.
  - bind_inv H. bind_inv H. injection H as <-. constructor; auto.
Qed.

Lemma Forall2_traverse {A B : Type} (f : A -> result B) (xs : list A) (ys : list B) :
  Forall2 (fun x y => f x = Ok y) xs ys -> traverse f xs = Ok ys.
Proof.
  induction 1 as [|x y xs ys Hxy _ IH]; simpl; [done|].
  rewrite Hxy. simpl. rewrite IH. done.
Qed.

Lemma cell_insert (r : Row) (l l' : string) (v : Cell) :
  cell (<[l := v]> r) l' = if decide (l = l') then v else cell r l'.
Proof.
  unfold cell. case_decide as E.
  - subst. by rewrite lookup_insert_eq.
  - by rewrite lookup_insert_ne.
Qed.

Lemma cell_delete (r : Row) (l l' : string) :
  cell (delete l r) l' = if decide (l = l') then NaN else cell r l'.
Proof.
  unfold cell. case_decide as E.
  - subst. by rewrite lookup_delete_eq.
  - by rewrite lookup_delete_ne.
Qed.

Lemma Forall2_zip_with_upd (l : string) (P : Row -> Cell -> Prop) rs vs :
  Forall2 P rs vs ->
  Forall2 (upd l P) rs (zip_with (fun (r : Row) c => <[l := c]> r) rs vs).
Proof. induction 1; simpl; constructor; auto. by eexists. Qed.

Lemma Forall2_compose {A B C : Type} (R : A -> B -> Prop) (S : B -> C -> Prop)
    (T : A -> C -> Prop) xs ys zs :
  (forall x y z, R x y -> S y z -> T x z) ->
  Forall2 R xs ys -> Forall2 S ys zs -> Forall2 T xs zs.
Proof.
  intros HT H. revert zs. induction H; intros zs Hz; inversion Hz; subst;
    constructor; eauto.
Qed.

Lemma Forall2_fmap_self {A B : Type} (f : A -> B) (xs : list A) :
  Forall2 (fun x y => y = f x) xs (f <$> xs).
Proof. induction xs; simpl; constructor; auto. Qed.

Lemma apply_rows_upd (g : Series -> result Cell) df c l :
  apply_rows g df = Ok c ->
  Forall2 (upd l (fun r v => g (mkSeries (columns df) r) = Ok v))
          (rows df) (rows (setitem df l c)).
Proof.
  intros H. apply traverse_Forall2 in H. simpl.
  by apply Forall2_zip_with_upd.
Qed.

Lemma getattr_Ok df n c :
  getattr df n = Ok c -> n ∈ columns df /\ c = (fun r => cell r n) <$> rows df.
Proof. unfold getattr. case_decide; [|discriminate]. by intros [= <-]. Qed.

Lemma getcol_Ok df n c :
  getcol df n = Ok c -> n ∈ columns df /\ c = (fun r => cell r n) <$> rows df.
Proof. unfold getcol. case_decide; [|discriminate]. by intros [= <-]. Qed.

Lemma fillna_column_upd df n df' :
  fillna_column df n = Ok df' ->
  Forall2 (upd n (fun r v => v = fillna0 (cell r n))) (rows df) (rows df').
Proof.
  unfold fillna_column. intros H. bind_inv H. injection H as <-.
  apply getattr_Ok in E as [_ ->]. simpl.
  apply Forall2_zip_with_upd. rewrite <- list_fmap_compose.
  apply (Forall2_fmap_self (fun r => fillna0 (cell r n))).
Qed.

Lemma astype_category_upd df n df' :
  astype_category df n = Ok df' ->
  Forall2 (upd n (fun r v => v = cell r n)) (rows df) (rows df').
Proof.
  unfold astype_category. intros H. bind_inv H. injection H as <-.
  apply getcol_Ok in E as [_ ->]. simpl.
  apply Forall2_zip_with_upd, (Forall2_fmap_self (fun r => cell r n)).
Qed.

Lemma upd_same_keeps ls n r r' :
  upd n (fun r v => v = cell r n) r r' -> keeps ls r r'.
Proof.
  intros (v & -> & ->). apply Forall_forall. intros l _.
  rewrite cell_insert. case_decide; by subst.
Qed.

Lemma keeps_refl ls r : keeps ls r r.
Proof. by apply Forall_forall. Qed.

Lemma keeps_trans ls r1 r2 r3 : keeps ls r1 r2 -> keeps ls r2 r3 -> keeps ls r1 r3.
Proof.
  unfold keeps. rewrite !Forall_forall. intros H1 H2 l Hl.
  by rewrite H2, H1.
Qed.

Lemma Forall2_keeps_refl ls rs : Forall2 (keeps ls) rs rs.
Proof. induction rs; constructor; auto using keeps_refl. Qed.

Lemma Forall2_keeps_trans ls a b c :
  Forall2 (keeps ls) a b -> Forall2 (keeps ls) b c -> Forall2 (keeps ls) a c.
Proof. apply Forall2_compose, keeps_trans. Qed.

Lemma foldM_astype_category_keeps ls cols df df' :
  foldM astype_category df cols = Ok df' ->
  Forall2 (keeps ls) (rows df) (rows df').
Proof.
  revert df. induction cols as [|c cols IH]; intros df H; simpl in H.
  - injection H as <-. apply Forall2_keeps_refl.
  - bind_inv H. eapply Forall2_keeps_trans; [|by apply IH].
    eapply Forall2_impl; [by apply astype_category_upd|].
    intros r r'. apply upd_same_keeps.
Qed.

Lemma try_drop_keeps ls df col :
  col ∉ ls -> Forall2 (keeps ls) (rows df) (rows (try_drop df col)).
Proof.
  intros Hcol. unfold try_drop, drop_columns.
  destruct (filter _ [col]); simpl; [|apply Forall2_keeps_refl].
  eapply Forall2_impl; [apply (Forall2_fmap_self (fun r : Row => delete col r))|].
  intros r r' ->. apply Forall_forall. intros l Hl.
  rewrite cell_delete. case_decide; [by subst|done].
Qed.

Lemma foldl_try_drop_keeps ls cols df :
  Forall (fun c => c ∉ ls) cols ->
  Forall2 (keeps ls) (rows df) (rows (foldl try_drop df cols)).
Proof.
  revert df. induction cols as [|c cols IH]; intros df Hc; simpl.
  - apply Forall2_keeps_refl.
  - inversion Hc; subst. eapply Forall2_keeps_trans; [by apply try_drop_keeps|].
    by apply IH.
Qed.

Lemma rename_column_keeps ls df old new :
  old ∉ ls -> new ∉ ls ->
  Forall2 (keeps ls) (rows df) (rows (rename_column df old new)).
Proof.
  intros Ho Hn. unfold rename_column. case_decide; [|apply Forall2_keeps_refl].
  simpl. eapply Forall2_impl;
    [apply (Forall2_fmap_self (fun r : Row => <[new := cell r old]> (delete old r)))|].
  intros r r' ->. apply Forall_forall. intros l Hl.
  rewrite cell_insert, cell_delete. repeat case_decide; by subst.
Qed.

Lemma boolean_index_elem_of df (f : Cell -> bool) (n : string) (r : Row) :
  r ∈ rows (boolean_index df (f <$> ((fun r => cell r n) <$> rows df))) ->
  r ∈ rows df /\ f (cell r n) = true.
Proof.
  simpl. generalize (rows df). intros rs.
  rewrite <- list_fmap_compose.
  induction rs as [|x rs IH]; simpl; [by intros ?%elem_of_nil|].
  rewrite filter_cons. simpl. case_decide as E; simpl.
  - rewrite elem_of_cons. intros [->|H]; [split; [left|done]|].
    destruct (IH H). split; [by right|done].
  - intros H. destruct (IH H). split; [by right|done].
Qed.

Lemma boolean_index_rows df (f : Cell -> bool) (n : string) :
  rows (boolean_index df (f <$> ((fun r => cell r n) <$> rows df)))
  = filter (fun r => f (cell r n) = true) (rows df).
Proof.
  simpl. generalize (rows df). intros rs. rewrite <- list_fmap_compose.
  induction rs as [|x rs IH]; [done|].
  cbn [fmap list_fmap zip zip_with]. rewrite !filter_cons. cbn [snd compose].
  destruct (f (cell x n)) eqn:E.
  - rewrite !decide_True by done. cbn [fmap list_fmap fst]. f_equal. exact IH.
  - rewrite !decide_False by done. exact IH.
Qed.

Lemma series_dt_date_Ok col dates :
  series_dt_date col = Ok dates ->
  is_datetime64 col = true /\ dates = date_part <$> col.
Proof.
  unfold series_dt_date. destruct (is_datetime64 col); [|discriminate].
  by intros [= <-].
Qed.

Lemma getitem_Ok row l v : getitem row l = Ok v -> v = cell (values row) l.
Proof. unfold getitem. case_decide; [|discriminate]. by intros [= <-]. Qed.

Lemma coalesce_text_Ok a b row v :
  coalesce_text a b row = Ok v ->
  v = text_or (cell (values row) a) (cell (values row) b).
Proof.
  unfold coalesce_text. intros H. bind_inv H. apply getitem_Ok in E as ->.
  unfold text_or. destruct (cell (values row) a) eqn:Ea;
    apply getitem_Ok in H; congruence.
Qed.

Lemma coalesce_coord_Ok a b row v :
  coalesce_coord a b row = Ok v ->
  v = nonzero_or (cell (values row) a) (cell (values row) b).
Proof.
  unfold coalesce_coord. intros H. bind_inv H. apply getitem_Ok in E as ->.
  unfold nonzero_or. destruct (ne_zero _); by apply getitem_Ok in H.
Qed.

(** Decide a closed proposition by evaluation. *)
Ltac not_in_list :=
  match goal with |- ?P => apply (bool_decide_unpack P); vm_compute; exact I end.

(** Destruct the facts and updates in the context, and read cells off
    inserts and deletes. *)
Ltac cells :=
  cbv beta in *;
  repeat match goal with
         | H : facts _ _ _ |- _ =>
             unfold facts in H; rewrite ?Forall_cons, ?Forall_nil in H;
             simpl in H; decompose [and] H; clear H
         | H : keeps _ _ _ |- _ =>
             unfold keeps in H; rewrite ?Forall_cons, ?Forall_nil in H;
             decompose [and] H; clear H
         | H : upd _ _ _ _ |- _ =>
             let v := fresh "v" in
             let Hv := fresh "Hv" in
             destruct H as (v & Hv & ->)
         | H : coalesce_text _ _ _ = Ok _ |- _ => apply coalesce_text_Ok in H; simpl in H
         | H : coalesce_coord _ _ _ = Ok _ |- _ => apply coalesce_coord_Ok in H; simpl in H
         end;
  subst;
  unfold facts, keeps; rewrite ?Forall_cons, ?Forall_nil; simpl;
  rewrite ?cell_insert, ?cell_delete; simpl.

(** One more stage: from the facts [I] before it and what the stage [S]
    does to a row, the facts [I'] after it. *)
Ltac stage Inv R I' :=
  let N := fresh "Inv" in
  match type of Inv with
  | Forall2 _ ?a _ =>
      match type of R with
      | Forall2 _ _ ?c =>
          assert (N : Forall2 (facts I') a c);
          [ eapply Forall2_compose; [|exact Inv|exact R];
            let x := fresh "x" in let y := fresh "y" in let z := fresh "z" in
            let Hxy := fresh "Hxy" in let Hyz := fresh "Hyz" in
            intros x y z Hxy Hyz; cells; intuition congruence
          | clear Inv R; rename N into Inv ]
      end
  end.

Lemma processJHUProvinceState_rows df out :
  processJHUProvinceState df = Ok out ->
  exists pre,
    Forall2 jhu_row (rows df) (rows pre)
    /\ rows out = filter (fun r => not_china r = true) (rows pre).
Proof.
  unfold processJHUProvinceState. intros H.
  assert (Inv : Forall2 (facts [orig "Lat"; orig "Latitude"; orig "Long_"; orig "Longitude";
                                orig "Country/Region"; orig "Country_Region"])
                        (rows df) (rows (rename_column df "Admin2" "US_County"))).
  { eapply Forall2_impl;
      [apply (rename_column_keeps ["Lat"; "Latitude"; "Long_"; "Longitude";
                                   "Country/Region"; "Country_Region"]); not_in_list|].
    intros r r' Hk. cells. tauto. }
  set (df0 := rename_column df "Admin2" "US_County") in *.
  bind_inv H. apply (apply_rows_upd _ _ _ "LastUpdate") in E as R.
  set (df1 := setitem df0 "LastUpdate" a) in *.
  stage Inv R [orig "Lat"; orig "Latitude"; orig "Long_"; orig "Longitude";
               orig "Country/Region"; orig "Country_Region"].
  bind_inv H. apply (apply_rows_upd _ _ _ "CountryRegion") in E0 as R.
  set (df2 := setitem df1 "CountryRegion" a0) in *.
  stage Inv R [orig "Lat"; orig "Latitude"; orig "Long_"; orig "Longitude"; country].
  bind_inv H. apply (apply_rows_upd _ _ _ "StateProvince") in E1 as R.
  set (df3 := setitem df2 "StateProvince" a1) in *.
  stage Inv R [orig "Lat"; orig "Latitude"; orig "Long_"; orig "Longitude"; country].
  bind_inv H. apply fillna_column_upd in E2 as R.
  stage Inv R [filled "Lat"; orig "Latitude"; orig "Long_"; orig "Longitude"; country].
  bind_inv H. apply fillna_column_upd in E3 as R.
  stage Inv R [filled "Lat"; filled "Latitude"; orig "Long_"; orig "Longitude"; country].
  bind_inv H. apply fillna_column_upd in E4 as R.
  stage Inv R [filled "Lat"; filled "Latitude"; filled "Long_"; orig "Longitude"; country].
  bind_inv H. apply fillna_column_upd in E5 as R.
  stage Inv R [filled "Lat"; filled "Latitude"; filled "Long_"; filled "Longitude"; country].
  bind_inv H. apply (apply_rows_upd _ _ _ "Latitude") in E6 as R.
  set (df8 := setitem a5 "Latitude" a6) in *.
  stage Inv R [merged "Latitude" "Lat" "Latitude"; filled "Long_"; filled "Longitude"; country].
  bind_inv H. apply (apply_rows_upd _ _ _ "Longitude") in E7 as R.
  set (df9 := setitem df8 "Longitude" a7) in *.
  stage Inv R [merged "Latitude" "Lat" "Latitude"; merged "Longitude" "Long_" "Longitude"; country].
  bind_inv H. apply (apply_rows_upd _ _ _ "LastUpdateDatetime") in E8 as R.
  set (df10 := setitem df9 "LastUpdateDatetime" a8) in *.
  stage Inv R [merged "Latitude" "Lat" "Latitude"; merged "Longitude" "Long_" "Longitude"; country].
  bind_inv H. bind_inv H.
  assert (R : Forall2 (upd "LastUpdateDate" (fun _ _ => True))
                      (rows df10) (rows (setitem df10 "LastUpdateDate" a10))).
  { apply Forall2_zip_with_upd. apply getattr_Ok in E9 as [_ ->].
    apply series_dt_date_Ok in E10 as [_ ->].
    apply Forall2_true; [done|]. by rewrite !length_fmap. }
  set (df11 := setitem df10 "LastUpdateDate" a10) in *.
  stage Inv R [merged "Latitude" "Lat" "Latitude"; merged "Longitude" "Long_" "Longitude"; country].
  match type of H with context [foldl try_drop df11 ?cols] =>
    assert (R : Forall2 (keeps ["Latitude"; "Longitude"; "CountryRegion"])
                        (rows df11) (rows (foldl try_drop df11 cols)))
      by (apply foldl_try_drop_keeps; not_in_list);
    set (df12 := foldl try_drop df11 cols) in *
  end.
  stage Inv R [merged "Latitude" "Lat" "Latitude"; merged "Longitude" "Long_" "Longitude"; country].
  bind_inv H.
  apply (foldM_astype_category_keeps ["Latitude"; "Longitude"; "CountryRegion"]) in E11 as R.
  stage Inv R [merged "Latitude" "Lat" "Latitude"; merged "Longitude" "Long_" "Longitude"; country].
  bind_inv H. injection H as <-. apply getattr_Ok in E12 as [_ ->].
  exists a11. split; [exact Inv|].
  apply (boolean_index_rows a11 (fun x => negb (isin ["China"; "Mainland China"] x))).
Qed.

Lemma ne_zero_false c : ne_zero c = false <-> c = Num 0%Qc.
Proof.
  destruct c; simpl; split; try discriminate.
  - intros H%negb_false_iff%Qeq_bool_eq. f_equal. by apply Qc_is_canon.
  - by intros [= ->].
Qed.

Lemma nonzero_or_zero_l x y : x = Num 0%Qc -> nonzero_or x y = y.
Proof. by intros ->. Qed.

Lemma nonzero_or_nonzero_l x y : x <> Num 0%Qc -> nonzero_or x y = x.
Proof.
  intros Hx. unfold nonzero_or. destruct (ne_zero x) eqn:E; [done|].
  by apply ne_zero_false in E.
Qed.

Lemma nonzero_or_zero_r x y : y = Num 0%Qc -> nonzero_or x y = x.
Proof.
  intros ->. unfold nonzero_or. destruct (ne_zero x) eqn:E; [done|].
  by apply ne_zero_false in E.
Qed.

Lemma fillna0_nonzero c : fillna0 c <> Num 0%Qc -> fillna0 c = c.
Proof. by destruct c. Qed.

Lemma jhu_row_cells r0 r' :
  jhu_row r0 r' ->
  cell r' "Latitude" = nonzero_or (fillna0 (cell r0 "Lat")) (fillna0 (cell r0 "Latitude"))
  /\ cell r' "Longitude" = nonzero_or (fillna0 (cell r0 "Long_")) (fillna0 (cell r0 "Longitude"))
  /\ cell r' "CountryRegion" = text_or (cell r0 "Country/Region") (cell r0 "Country_Region").
Proof.
  unfold jhu_row, facts. rewrite !Forall_cons. simpl. tauto.
Qed.

(** The rows of the output against the rows of the input that are kept,
    place by place. *)
Lemma processJHUProvinceState_kept df out :
  processJHUProvinceState df = Ok out ->
  Forall2 jhu_row (filter (fun r0 => kept_by_jhu r0 = true) (rows df)) (rows out).
Proof.
  intros (pre & Inv & ->)%processJHUProvinceState_rows.
  apply (Forall2_filter _ (fun r0 => kept_by_jhu r0 = true) (fun r => not_china r = true));
    [|exact Inv].
  intros x y (_ & _ & Hc)%jhu_row_cells. unfold kept_by_jhu, not_china. by rewrite Hc.
Qed.

(** C6: no row of the output of [processJHUProvinceState] has the coalesced
    country/region [China] or [Mainland China], whatever the input. *)
Theorem processJHUProvinceState_excludes_China (df out : DataFrame) :
  processJHUProvinceState df = Ok out ->
  Forall (fun r' =>
            cell r' "CountryRegion" <> Str "China"
            /\ cell r' "CountryRegion" <> Str "Mainland China"
            /\ exists r0, r0 ∈ rows df
                 /\ cell r' "CountryRegion"
                    = text_or (cell r0 "Country/Region") (cell r0 "Country_Region"))
         (rows out).
Proof.
  intros H. apply processJHUProvinceState_kept in H.
  apply Forall_forall. intros r' [i Hi]%list_elem_of_lookup.
  destruct (Forall2_lookup_r _ _ _ _ _ H Hi) as (r0 & Hr0 & Hrow).
  apply jhu_row_cells in Hrow as (_ & _ & Hc).
  apply list_elem_of_lookup_2, list_elem_of_filter in Hr0 as [Hkept Hr0].
  unfold kept_by_jhu in Hkept. rewrite <- Hc in Hkept.
  repeat split.
  - intros E. rewrite E in Hkept. discriminate.
  - intros E. rewrite E in Hkept. discriminate.
  - eauto.
Qed.

Lemma processJHUProvinceState_excludes_China_witness :
  Forall (fun r' =>
            cell r' "CountryRegion" <> Str "China"
            /\ cell r' "CountryRegion" <> Str "Mainland China"
            /\ exists r0, r0 ∈ rows jhu_example
                 /\ cell r' "CountryRegion"
                    = text_or (cell r0 "Country/Region") (cell r0 "Country_Region"))
         (rows (get_ok (processJHUProvinceState jhu_example)))
  /\ length (rows (get_ok (processJHUProvinceState jhu_example))) = 3%nat.
Proof.
  split.
  - apply (processJHUProvinceState_excludes_China jhu_example). vm_compute. reflexivity.
  - vm_compute. reflexivity.
Defined.

(** C8: the rows of the output of [processJHUProvinceState] are, place by
    place, the rows of the input that are kept (those whose country/region
    is not China), and in each of them a coordinate is taken from the two
    naming eras of its own input row after a missing value has been replaced
    by zero: when one era is zero the output is the other one, so a zero
    beside 40.7 gives 40.7 and two zeros give zero. *)
Theorem coordinates_take_the_nonzero_era (df out : DataFrame) :
  processJHUProvinceState df = Ok out ->
  Forall2 (fun r0 r' =>
             let lat := fillna0 (cell r0 "Lat") in
             let latitude := fillna0 (cell r0 "Latitude") in
             let long := fillna0 (cell r0 "Long_") in
             let longitude := fillna0 (cell r0 "Longitude") in
             (lat = Num 0%Qc -> cell r' "Latitude" = latitude)
             /\ (latitude = Num 0%Qc -> cell r' "Latitude" = lat)
             /\ (long = Num 0%Qc -> cell r' "Longitude" = longitude)
             /\ (longitude = Num 0%Qc -> cell r' "Longitude" = long))
          (filter (fun r0 => kept_by_jhu r0 = true) (rows df)) (rows out).
Proof.
  intros H. apply processJHUProvinceState_kept in H.
  eapply Forall2_impl; [exact H|]. simpl.
  intros r0 r' (Hlat & Hlong & _)%jhu_row_cells. rewrite Hlat, Hlong.
  auto using nonzero_or_zero_l, nonzero_or_zero_r.
Qed.

Lemma coordinates_take_the_nonzero_era_witness :
  Forall2 (fun r0 r' =>
             let lat := fillna0 (cell r0 "Lat") in
             let latitude := fillna0 (cell r0 "Latitude") in
             let long := fillna0 (cell r0 "Long_") in
             let longitude := fillna0 (cell r0 "Longitude") in
             (lat = Num 0%Qc -> cell r' "Latitude" = latitude)
             /\ (latitude = Num 0%Qc -> cell r' "Latitude" = lat)
             /\ (long = Num 0%Qc -> cell r' "Longitude" = longitude)
             /\ (longitude = Num 0%Qc -> cell r' "Longitude" = long))
          (filter (fun r0 => kept_by_jhu r0 = true) (rows jhu_example))
          (rows (get_ok (processJHUProvinceState jhu_example)))
  /\ (fun r0 => (cell r0 "Lat", cell r0 "Latitude", cell r0 "Long_", cell r0 "Longitude"))
       <$> filter (fun r0 => kept_by_jhu r0 = true) (rows jhu_example)
     = [(Num (Q2Qc (407 # 10)), num 41, num (-74), num (-73));
        (num 0, Num (Q2Qc (407 # 10)), NaN, num (-85));
        (NaN, NaN, NaN, NaN)]
  /\ (fun r' => (cell r' "Latitude", cell r' "Longitude"))
       <$> rows (get_ok (processJHUProvinceState jhu_example))
     = [(Num (Q2Qc (407 # 10)), num (-74)); (Num (Q2Qc (407 # 10)), num (-85));
        (num 0, num 0)].
Proof.
  split; [|split].
  - apply (coordinates_take_the_nonzero_era jhu_example). vm_compute. reflexivity.
  - vm_compute. reflexivity.
  - vm_compute. reflexivity.
Defined.

(** C10: the rows of the output are, place by place, the rows of the input
    that are kept, and in each of them the newer era wins when both eras of
    its own input row carry a non-zero value: the output [Latitude] is [Lat]
    and the output [Longitude] is [Long_] whenever these are not zero, and
    the older [Latitude] / [Longitude] are used only when [Lat] / [Long_] is
    zero. *)
Theorem newer_era_coordinate_wins (df out : DataFrame) :
  processJHUProvinceState df = Ok out ->
  Forall2 (fun r0 r' =>
             (fillna0 (cell r0 "Lat") <> Num 0%Qc -> cell r' "Latitude" = cell r0 "Lat")
             /\ (fillna0 (cell r0 "Lat") = Num 0%Qc ->
                 cell r' "Latitude" = fillna0 (cell r0 "Latitude"))
             /\ (fillna0 (cell r0 "Long_") <> Num 0%Qc -> cell r' "Longitude" = cell r0 "Long_")
             /\ (fillna0 (cell r0 "Long_") = Num 0%Qc ->
                 cell r' "Longitude" = fillna0 (cell r0 "Longitude")))
          (filter (fun r0 => kept_by_jhu r0 = true) (rows df)) (rows out).
Proof.
  intros H. apply processJHUProvinceState_kept in H.
  eapply Forall2_impl; [exact H|]. simpl.
  intros r0 r' (Hlat & Hlong & _)%jhu_row_cells. rewrite Hlat, Hlong. repeat split.
  - intros Hn. rewrite nonzero_or_nonzero_l by done. by apply fillna0_nonzero.
  - apply nonzero_or_zero_l.
  - intros Hn. rewrite nonzero_or_nonzero_l by done. by apply fillna0_nonzero.
  - apply nonzero_or_zero_l.
Qed.

Lemma newer_era_coordinate_wins_witness :
  Forall2 (fun r0 r' =>
             (fillna0 (cell r0 "Lat") <> Num 0%Qc -> cell r' "Latitude" = cell r0 "Lat")
             /\ (fillna0 (cell r0 "Lat") = Num 0%Qc ->
                 cell r' "Latitude" = fillna0 (cell r0 "Latitude"))
             /\ (fillna0 (cell r0 "Long_") <> Num 0%Qc -> cell r' "Longitude" = cell r0 "Long_")
             /\ (fillna0 (cell r0 "Long_") = Num 0%Qc ->
                 cell r' "Longitude" = fillna0 (cell r0 "Longitude")))
          (filter (fun r0 => kept_by_jhu r0 = true) (rows jhu_example))
          (rows (get_ok (processJHUProvinceState jhu_example)))
  /\ (filter (fun r0 => kept_by_jhu r0 = true) (rows jhu_example) !! 0%nat
        ≫= fun r0 => Some (cell r0 "Lat", cell r0 "Latitude", cell r0 "Long_", cell r0 "Longitude"))
     = Some (Num (Q2Qc (407 # 10)), num 41, num (-74), num (-73))
  /\ (rows (get_ok (processJHUProvinceState jhu_example)) !! 0%nat
        ≫= fun r' => Some (cell r' "Latitude", cell r' "Longitude"))
     = Some (Num (Q2Qc (407 # 10)), num (-74)).
Proof.
  split; [|split].
  - apply (newer_era_coordinate_wins jhu_example). vm_compute. reflexivity.
  - vm_compute. reflexivity.
  - vm_compute. reflexivity.
Defined.

(** ** State and country historical counts *)

Lemma result_bind_Ok {A B : Type} (a : A) (k : A -> result B) : (x ← Ok a; k x) = k a.
Proof. reflexivity. Qed.

Lemma astype_category_columns df n df' :
  astype_category df n = Ok df' -> columns df' = columns df.
Proof. unfold astype_category. intros H. bind_inv H. by injection H as <-. Qed.

Lemma drop_columns_present df labels :
  Forall (fun l => l ∈ columns df) labels ->
  drop_columns df labels
  = Ok {| columns := filter (fun c => c ∉ labels) (columns df);
          rows := (fun r : Row => foldr delete r labels) <$> rows df;
          categories := foldr delete (categories df) labels |}.
Proof.
  intros H. unfold drop_columns.
  assert (E : filter (fun l => l ∉ columns df) labels = []).
  { induction H as [|l ls Hl _ IH]; [done|].
    rewrite filter_cons. case_decide; [done|]. exact IH. }
  by rewrite E.
Qed.

Lemma cell_foldr_delete (r : Row) labels l :
  l ∉ labels -> cell (foldr delete r labels) l = cell r l.
Proof.
  induction labels as [|x xs IH]; simpl; [done|].
  intros [Hx Hxs]%not_elem_of_cons. rewrite cell_delete.
  case_decide; [congruence|auto].
Qed.

Lemma to_date_column_Ok to_datetime fmt col :
  Forall (converts to_datetime fmt) col ->
  exists dates, to_date_column to_datetime fmt col = Ok dates /\ length dates = length col.
Proof.
  intros H. unfold to_date_column.
  assert (exists ts, traverse (to_datetime fmt) col = Ok ts
                     /\ Forall (fun t => t = NaN \/ exists x, t = DateTime x) ts
                     /\ length ts = length col) as (ts & -> & Hts & Hlen).
  { induction H as [|c cs Hc _ (ts & IH & Hts & Hlen)]; simpl; [by exists []|].
    rewrite IH. destruct Hc as [->|[t ->]]; simpl; eexists; split; try done;
      split; simpl; try congruence; constructor; eauto. }
  simpl. rewrite <- Hlen. clear Hlen H.
  induction Hts as [|t ts Ht _ (ds & IH & Hlen)]; simpl; [by exists []|].
  rewrite IH. destruct Ht as [->|[x ->]]; simpl; eexists; split; try done;
    simpl; congruence.
Qed.

(** C7, as the code has it: the country-level historical transform needs
    all five columns it drops.  On an input that lacks one of them,
    [states] for one, [drop] raises a [KeyError] that lists the missing
    ones; on an input that has [hash], [posNeg], [fips], [dateChecked] and
    [states], and a [date] column that converts, it succeeds, none of the
    five is left, and the other columns keep their cells.  The layout
    without [states] is the one of the state-level transform, which drops
    the other four only and succeeds whether [states] is there or not. *)
Theorem CountryHistorical_requires_states
    (to_datetime : string -> Cell -> result Cell) (df : DataFrame) :
  (forall l, l ∈ country_colsToDrop -> l ∉ columns df ->
     l ∈ missing_labels df country_colsToDrop
     /\ processCovidTrackingCountryHistorical to_datetime df
        = Raise (KeyError (missing_labels df country_colsToDrop)))
  /\ (Forall (fun l => l ∈ columns df) country_colsToDrop ->
      "date" ∈ columns df ->
      Forall (fun r => converts to_datetime "%Y%m%d" (cell r "date")) (rows df) ->
      exists out,
        processCovidTrackingCountryHistorical to_datetime df = Ok out
        /\ columns out = filter (fun c => c ∉ country_colsToDrop) (columns df)
        /\ Forall (fun l => l ∉ columns out) country_colsToDrop
        /\ Forall2 (fun r r' => forall l, l ∉ country_colsToDrop -> l <> "date" ->
                                          cell r' l = cell r l)
                   (rows df) (rows out))
  /\ (Forall (fun l => l ∈ columns df) state_colsToDrop ->
      "date" ∈ columns df -> "state" ∈ columns df ->
      Forall (fun r => converts to_datetime "%Y%m%d" (cell r "date")) (rows df) ->
      exists out,
        processCovidTrackingStateHistorical to_datetime df = Ok out
        /\ columns out = filter (fun c => c ∉ state_colsToDrop) (columns df)).
Proof.
  split; [|split].
  - intros l Hl Hc.
    assert (Hin : l ∈ missing_labels df country_colsToDrop)
      by (apply list_elem_of_filter; auto).
    split; [exact Hin|].
    unfold processCovidTrackingCountryHistorical, drop_columns.
    change (filter (fun l => l ∉ columns df)
                   ["hash"; "posNeg"; "fips"; "dateChecked"; "states"])
      with (missing_labels df country_colsToDrop).
    destruct (missing_labels df country_colsToDrop); [|done].
    by apply elem_of_nil in Hin.
  - unfold processCovidTrackingCountryHistorical.
    intros Hall Hdate Hconv.
    fold country_colsToDrop. rewrite (drop_columns_present _ _ Hall), result_bind_Ok.
    set (df1 := mkFrame _ _ _).
    assert (Hd1 : "date" ∈ columns df1).
    { simpl. apply list_elem_of_filter. split; [not_in_list|done]. }
    unfold getattr. rewrite decide_True by done. rewrite result_bind_Ok.
    destruct (to_date_column_Ok to_datetime "%Y%m%d" ((fun r => cell r "date") <$> rows df1))
      as (dates & -> & Hlen).
    { simpl. rewrite <- list_fmap_compose. apply Forall_fmap.
      eapply Forall_impl; [exact Hconv|]. intros r Hr.
      unfold compose. rewrite !cell_delete. exact Hr. }
    rewrite result_bind_Ok. cbn [foldM].
    destruct (astype_category (setitem df1 "date" dates) "date") as [out|e] eqn:Eas.
    2:{ unfold astype_category, getcol in Eas. rewrite decide_True in Eas; [discriminate|].
        simpl. rewrite decide_True by exact Hd1. exact Hd1. }
    rewrite result_bind_Ok. exists out. split; [done|].
    assert (Hcols : columns out = filter (fun c => c ∉ country_colsToDrop) (columns df)).
    { apply astype_category_columns in Eas as ->. simpl.
      by rewrite decide_True by exact Hd1. }
    split; [exact Hcols|]. split.
    + rewrite Hcols. apply Forall_forall. intros l Hl Hin.
      apply list_elem_of_filter in Hin as [Hn _]. done.
    + apply astype_category_upd in Eas.
      set (Rel := fun r r' : Row =>
                    forall l, l ∉ country_colsToDrop -> l <> "date" -> cell r' l = cell r l).
      assert (Htrans : forall x y z, Rel x y -> Rel y z -> Rel x z).
      { intros x y z Hxy Hyz l Hl Hd. by rewrite Hyz, Hxy. }
      assert (Hupd : forall P x y, upd "date" P x y -> Rel x y).
      { intros P x y (v & _ & ->) l Hl Hd. by rewrite cell_insert, decide_False. }
      eapply Forall2_compose; [exact Htrans| |].
      * eapply Forall2_impl;
          [apply (Forall2_fmap_self (fun r : Row => foldr delete r country_colsToDrop))|].
        intros r r' -> l Hl Hd. by apply cell_foldr_delete.
      * eapply Forall2_compose; [exact Htrans| |].
        -- eapply Forall2_impl; [|apply Hupd].
           apply (Forall2_zip_with_upd "date" (fun _ _ => True)).
           apply Forall2_true; [done|]. rewrite Hlen. subst df1. simpl.
           by rewrite !length_fmap.
        -- eapply Forall2_impl; [exact Eas|apply Hupd].
  - unfold processCovidTrackingStateHistorical.
    intros Hall Hdate Hstate Hconv.
    fold state_colsToDrop. rewrite (drop_columns_present _ _ Hall), result_bind_Ok.
    set (df1 := mkFrame _ _ _).
    assert (Hd1 : "date" ∈ columns df1).
    { simpl. apply list_elem_of_filter. split; [not_in_list|done]. }
    assert (Hs1 : "state" ∈ columns df1).
    { simpl. apply list_elem_of_filter. split; [not_in_list|done]. }
    unfold getattr. rewrite decide_True by done. rewrite result_bind_Ok.
    destruct (to_date_column_Ok to_datetime "%Y%m%d" ((fun r => cell r "date") <$> rows df1))
      as (dates & -> & Hlen).
    { simpl. rewrite <- list_fmap_compose. apply Forall_fmap.
      eapply Forall_impl; [exact Hconv|]. intros r Hr.
      unfold compose. rewrite !cell_delete. exact Hr. }
    rewrite result_bind_Ok. cbn [foldM].
    destruct (astype_category (setitem df1 "date" dates) "date") as [df2|e] eqn:E2.
    2:{ unfold astype_category, getcol in E2. rewrite decide_True in E2; [discriminate|].
        simpl. rewrite decide_True by exact Hd1. exact Hd1. }
    rewrite result_bind_Ok.
    assert (HC2 : columns df2 = columns df1).
    { apply astype_category_columns in E2 as ->. simpl.
      by rewrite decide_True by exact Hd1. }
    destruct (astype_category df2 "state") as [out|e] eqn:E3.
    2:{ unfold astype_category, getcol in E3. rewrite decide_True in E3; [discriminate|].
        by rewrite HC2. }
    rewrite result_bind_Ok. exists out. split; [done|].
    apply astype_category_columns in E3 as ->. by rewrite HC2.
Qed.

Lemma CountryHistorical_requires_states_witness :
  ("states" ∈ missing_labels states_daily country_colsToDrop
   /\ processCovidTrackingCountryHistorical to_datetime_model states_daily
      = Raise (KeyError (missing_labels states_daily country_colsToDrop)))
  /\ (exists out,
        processCovidTrackingCountryHistorical to_datetime_model us_daily = Ok out
        /\ columns out = ["date"; "positive"]
        /\ Forall (fun l => l ∉ columns out) country_colsToDrop)
  /\ (exists out,
        processCovidTrackingStateHistorical to_datetime_model states_daily = Ok out
        /\ columns out = ["date"; "state"; "positive"]).
Proof.
  split; [|split].
  - apply (proj1 (CountryHistorical_requires_states to_datetime_model states_daily)).
    + not_in_list.
    + not_in_list.
  - destruct (proj1 (proj2 (CountryHistorical_requires_states to_datetime_model us_daily)))
      as (out & Hout & Hcols & Hnone & _).
    + not_in_list.
    + not_in_list.
    + apply Forall_cons_2; [|apply Forall_nil_2].
      right. eexists. vm_compute. reflexivity.
    + exists out. split; [exact Hout|]. split; [|exact Hnone].
      rewrite Hcols. vm_compute. reflexivity.
  - destruct (proj2 (proj2 (CountryHistorical_requires_states to_datetime_model states_daily)))
      as (out & Hout & Hcols).
    + not_in_list.
    + not_in_list.
    + not_in_list.
    + apply Forall_cons_2; [|apply Forall_nil_2].
      right. eexists. vm_compute. reflexivity.
    + exists out. split; [exact Hout|]. rewrite Hcols. vm_compute. reflexivity.
Defined.

(** C7 as stated in the specification fails: on the state-level layout,
    which has the four tracking columns but no [states], the country-level
    transform raises instead of returning a frame. *)
Lemma CountryHistorical_without_states_raises :
  ("states" ∉ columns states_daily)
  /\ Forall (fun l => l ∈ columns states_daily) ["hash"; "posNeg"; "fips"; "dateChecked"]
  /\ processCovidTrackingCountryHistorical to_datetime_model states_daily
     = Raise (KeyError ["states"])
  /\ ~ exists out, processCovidTrackingCountryHistorical to_datetime_model states_daily = Ok out.
Proof.
  split; [not_in_list|]. split; [not_in_list|].
  assert (E : processCovidTrackingCountryHistorical to_datetime_model states_daily
              = Raise (KeyError ["states"])) by (vm_compute; reflexivity).
  split; [exact E|]. intros [out H]. rewrite E in H. discriminate.
Qed.

(** The state-level transform is the one that takes that layout. *)
Lemma StateHistorical_without_states :
  columns (get_ok (processCovidTrackingStateHistorical to_datetime_model states_daily))
  = ["date"; "state"; "positive"].
Proof. vm_compute. reflexivity. Qed.

(** ** The last-update parser *)

Lemma digit_val_digit_char v : 0 <= v <= 9 -> digit_val (digit_char v) = Some v.
Proof.
  intros H. assert (v = 0 \/ v = 1 \/ v = 2 \/ v = 3 \/ v = 4 \/ v = 5 \/ v = 6
                    \/ v = 7 \/ v = 8 \/ v = 9) as Hv by lia.
  repeat destruct Hv as [->|Hv]; try subst v; reflexivity.
Qed.

Lemma is_digit_digit_char v : 0 <= v <= 9 -> is_digit (digit_char v) = true.
Proof. intros H. unfold is_digit. by rewrite digit_val_digit_char. Qed.

Lemma is_digit_true c : is_digit c = true <-> exists v, digit_val c = Some v.
Proof.
  unfold is_digit. destruct (digit_val c); split; eauto; try discriminate.
  intros [? ?]. discriminate.
Qed.

Lemma digit_not_space c : is_digit c = true -> is_space c = false.
Proof.
  unfold is_digit, digit_val, is_space.
  destruct (_ && _) eqn:E; [|discriminate]. intros _.
  apply andb_true_iff in E as [?%Z.leb_le ?%Z.leb_le].
  apply orb_false_iff. split; apply andb_false_iff.
  - right. apply Z.leb_gt. lia.
  - right. apply Z.leb_gt. lia.
Qed.

(** *** The shape patterns on digit runs *)

Lemma rejects_digit_false p c s :
  rejects_digit p -> is_digit c = true -> re_match_from p (c :: s) = false.
Proof.
  destruct p as [|[lo hi|c'] p]; simpl; [|done|].
  - intros _ Hc. destruct s; [|done].
    apply Ascii.eqb_neq. intros ->. discriminate.
  - intros Hc' Hc. apply andb_false_iff. left. apply Ascii.eqb_neq.
    intros ->. unfold is_digit in Hc. by rewrite Hc' in Hc.
Qed.

Lemma existsb_seq_single (F : nat -> bool) (L lo n : nat) :
  (forall k, k <> L -> F k = false) ->
  existsb F (seq lo n) = (lo <=? L)%nat && (L <? lo + n)%nat && F L.
Proof.
  intros HF. apply eq_true_iff_eq. rewrite existsb_exists, !andb_true_iff.
  rewrite Nat.leb_le, Nat.ltb_lt. split.
  - intros (k & Hk%in_seq & HFk).
    destruct (decide (k = L)) as [->|Hne]; [done|].
    rewrite HF in HFk by done. discriminate.
  - intros [[? ?] ?]. exists L. split; [apply in_seq; lia|done].
Qed.

Lemma forallb_Forall_true {A : Type} (f : A -> bool) (l : list A) :
  Forall (fun x => f x = true) l -> forallb f l = true.
Proof. induction 1 as [|x l Hx _ IH]; simpl; [done|]. by rewrite Hx, IH. Qed.

Lemma re_digits lo hi p ds rest :
  Forall (fun c => is_digit c = true) ds -> no_digit_next rest -> rejects_digit p ->
  re_match_from (Digits lo hi :: p) (ds ++ rest)
  = (lo <=? length ds)%nat && (length ds <=? hi)%nat && re_match_from p rest.
Proof.
  intros Hds Hrest Hp. cbn [re_match_from].
  rewrite (existsb_seq_single _ (length ds)).
  - rewrite take_app_length, drop_app_length, Nat.eqb_refl.
    rewrite (forallb_Forall_true _ _ Hds).
    simpl.
    destruct (lo <=? length ds)%nat eqn:E1; simpl; [|done].
    apply Nat.leb_le in E1. f_equal.
    apply eq_true_iff_eq. rewrite Nat.ltb_lt, Nat.leb_le. lia.
  - intros k Hk. destruct (decide (k < length ds)%nat) as [Hlt|Hge].
    + (* the pattern would have to go on at a digit *)
      destruct (drop k ds) as [|c cs] eqn:Ed.
      { apply (f_equal length) in Ed. rewrite length_drop in Ed. simpl in Ed. lia. }
      rewrite drop_app_le by lia. rewrite Ed. simpl.
      rewrite rejects_digit_false; [by rewrite andb_false_r|done|].
      pose proof (Forall_drop _ k _ Hds) as Hd. rewrite Ed in Hd.
      by inversion Hd.
    + (* the run would have to go past the last digit *)
      destruct rest as [|c rest].
      * rewrite app_nil_r, take_ge by lia.
        assert ((length ds =? k)%nat = false) as -> by (apply Nat.eqb_neq; lia). done.
      * simpl in Hrest. rewrite take_app_ge by lia.
        destruct (k - length ds)%nat as [|j] eqn:Ej; [lia|]. simpl.
        rewrite forallb_app. simpl. unfold is_digit at 2. rewrite Hrest. simpl.
        by rewrite !andb_false_r.
Qed.

Lemma re_digits_end lo hi ds :
  Forall (fun c => is_digit c = true) ds ->
  re_match_from [Digits lo hi] ds = (lo <=? length ds)%nat && (length ds <=? hi)%nat.
Proof.
  intros Hds. rewrite <- (app_nil_r ds) at 1. rewrite re_digits; try done.
  simpl. by rewrite andb_true_r.
Qed.

Lemma re_chr c p c' s :
  re_match_from (Chr c :: p) (c' :: s) = Ascii.eqb c c' && re_match_from p s.
Proof. reflexivity. Qed.

(** *** The directives on a written field *)

Lemma match_classes_app_le ks ds rest acc :
  (length ks <= length ds)%nat ->
  match_classes ks (ds ++ rest) acc = with_rest rest <$> match_classes ks ds acc.
Proof.
  revert ds acc. induction ks as [|k ks IH]; intros ds acc Hlen; [done|].
  destruct ds as [|c ds]; simpl in *; [lia|].
  destruct (in_class k c); [|done]. apply IH. lia.
Qed.

Lemma match_classes_short ks ds rest acc :
  Forall is_CDigit ks -> (length ds < length ks)%nat -> no_digit_next rest ->
  match_classes ks (ds ++ rest) acc = None.
Proof.
  intros Hks. revert ds acc. induction Hks as [|k ks Hk _ IH]; intros ds acc Hlen Hrest;
    simpl in *; [lia|].
  destruct ds as [|c ds]; simpl in *.
  - destruct rest as [|c rest]; [done|]. simpl in Hrest.
    destruct k; [|done]. simpl. by rewrite Hrest.
  - destruct (in_class k c); [|done]. apply IH; [lia|done].
Qed.

Lemma match_classes_text ks ds rest :
  Forall is_CDigit (tail ks) -> ds <> [] -> no_digit_next rest ->
  match_classes ks (ds ++ rest) 0 = with_rest rest <$> alt_on ks ds.
Proof.
  intros Hks Hds Hrest. unfold alt_on.
  destruct (length ks <=? length ds)%nat eqn:E.
  - apply match_classes_app_le. by apply Nat.leb_le.
  - apply Nat.leb_gt in E. destruct ks as [|k ks]; [simpl in E; lia|].
    destruct ds as [|c ds]; [done|]. simpl in *.
    destruct (in_class k c); [|done].
    apply match_classes_short; [done|lia|done].
Qed.

Lemma alternatives_tail d : Forall (fun ks => Forall is_CDigit (tail ks)) (alternatives d).
Proof. destruct d; simpl; repeat constructor. Qed.

Lemma strptime_field d n ds fmt rest f r :
  is_field d -> ds <> [] -> no_digit_next rest ->
  first_alt d ds = Some (n, []) ->
  strptime_from fmt rest (set_field d n f) = Some r ->
  strptime_from (d :: fmt) (ds ++ rest) f = Some r.
Proof.
  intros Hd Hds Hrest Hfirst Hk.
  assert (first_some (fun ks => match match_classes ks (ds ++ rest) 0 with
                                | Some (v, s') => strptime_from fmt s' (set_field d v f)
                                | None => None
                                end) (alternatives d) = Some r) as Hgoal.
  { unfold first_alt in Hfirst. pose proof (alternatives_tail d) as Htl.
    induction Htl as [|ks alts Hks _ IH]; simpl in *; [discriminate|].
    rewrite match_classes_text by done.
    destruct (alt_on ks ds) as [[v l]|]; simpl.
    - injection Hfirst as -> ->. simpl. by rewrite Hk.
    - by apply IH. }
  destruct d; try done.
Qed.

Lemma strptime_lit c fmt s f :
  strptime_from (Dlit c :: fmt) (c :: s) f = strptime_from fmt s f.
Proof. simpl. by rewrite Ascii.eqb_refl. Qed.

Lemma strptime_space fmt c s f :
  is_digit c = true ->
  strptime_from (Dspace :: fmt) (" "%char :: c :: s) f = strptime_from fmt (c :: s) f.
Proof.
  intros Hc. cbn [strptime_from space_run]. rewrite (digit_not_space c Hc).
  change (is_space " ") with true. cbn. by destruct (strptime_from _ _ _).
Qed.

Lemma forallb_range (P : Z -> bool) (lo hi : Z) :
  forallb P (seqZ lo (hi - lo + 1)) = true -> forall n, lo <= n <= hi -> P n = true.
Proof.
  intros H n Hn. rewrite forallb_forall in H. apply H.
  apply list_elem_of_In, elem_of_seqZ. lia.
Qed.

Lemma first_alt_padded d lo hi :
  forallb (fun n => bool_decide (first_alt d (two_digits n) = Some (n, [])))
          (seqZ lo (hi - lo + 1)) = true ->
  forall n, lo <= n <= hi -> first_alt d (two_digits n) = Some (n, []).
Proof.
  intros H n Hn. apply (forallb_range _ _ _ H) in Hn. by apply bool_decide_eq_true in Hn.
Qed.

Lemma first_alt_bare d lo :
  forallb (fun n => bool_decide (first_alt d [digit_char n] = Some (n, [])))
          (seqZ lo (9 - lo + 1)) = true ->
  forall n, lo <= n <= 9 -> first_alt d [digit_char n] = Some (n, []).
Proof.
  intros H n Hn. apply (forallb_range _ _ _ H) in Hn. by apply bool_decide_eq_true in Hn.
Qed.

Lemma first_alt_writes d lo hi n ds :
  forallb (fun n => bool_decide (first_alt d (two_digits n) = Some (n, [])))
          (seqZ lo (hi - lo + 1)) = true ->
  forallb (fun n => bool_decide (first_alt d [digit_char n] = Some (n, [])))
          (seqZ lo (9 - lo + 1)) = true ->
  lo <= n <= hi -> writes n ds -> first_alt d ds = Some (n, []).
Proof.
  intros H2 H1 Hn [|Hlt].
  - by apply (first_alt_padded d lo hi).
  - apply (first_alt_bare d lo); [done|lia].
Qed.

Lemma first_alt_month n ds : writes n ds -> 1 <= n <= 12 -> first_alt Dm ds = Some (n, []).
Proof. intros Hw Hn. revert Hn Hw. apply first_alt_writes; vm_compute; reflexivity. Qed.

Lemma first_alt_day n ds : writes n ds -> 1 <= n <= 31 -> first_alt Dd ds = Some (n, []).
Proof. intros Hw Hn. revert Hn Hw. apply first_alt_writes; vm_compute; reflexivity. Qed.

Lemma first_alt_hour n ds : writes n ds -> 0 <= n <= 23 -> first_alt DH ds = Some (n, []).
Proof. intros Hw Hn. revert Hn Hw. apply first_alt_writes; vm_compute; reflexivity. Qed.

Lemma first_alt_minute n ds : writes n ds -> 0 <= n <= 59 -> first_alt DM ds = Some (n, []).
Proof. intros Hw Hn. revert Hn Hw. apply first_alt_writes; vm_compute; reflexivity. Qed.

Lemma first_alt_second n ds : writes n ds -> 0 <= n <= 59 -> first_alt DS ds = Some (n, []).
Proof. intros Hw Hn. revert Hn Hw. apply first_alt_writes; vm_compute; reflexivity. Qed.

Lemma first_alt_year2 n : 0 <= n <= 99 -> first_alt Dy (two_digits n) = Some (n, []).
Proof. apply first_alt_padded; vm_compute; reflexivity. Qed.

Lemma first_alt_year4 n : 1 <= n <= 9999 -> first_alt DY (four_digits n) = Some (n, []).
Proof.
  intros Hn.
  assert (forallb (fun n => bool_decide (first_alt DY (four_digits n) = Some (n, [])))
                  (seqZ 1 (9999 - 1 + 1)) = true) as H by (vm_compute; reflexivity).
  apply (forallb_range _ _ _ H) in Hn. by apply bool_decide_eq_true in Hn.
Qed.

Lemma writes_run n ds : 0 <= n <= 99 -> writes n ds -> run 1 2 ds.
Proof.
  intros Hn [|Hlt]; split; simpl; try lia;
    repeat constructor; apply is_digit_digit_char;
    Z.div_mod_to_equations; lia.
Qed.

Lemma two_digits_run n : 0 <= n <= 99 -> run 2 2 (two_digits n).
Proof.
  intros Hn. split; simpl; [|lia].
  repeat constructor; apply is_digit_digit_char; Z.div_mod_to_equations; lia.
Qed.

Lemma four_digits_run n : 0 <= n <= 9999 -> run 4 4 (four_digits n).
Proof.
  intros Hn. split; simpl; [|lia].
  repeat constructor; apply is_digit_digit_char; Z.div_mod_to_equations; lia.
Qed.

Lemma run_cons lo hi ds :
  run lo hi ds -> (1 <= lo)%nat -> exists c cs, ds = c :: cs /\ is_digit c = true.
Proof.
  intros [Hd Hl] Hlo. destruct ds as [|c cs]; [simpl in Hl; lia|].
  exists c, cs. split; [done|]. by inversion Hd.
Qed.

Lemma run_nonempty lo hi ds : run lo hi ds -> (1 <= lo)%nat -> ds <> [].
Proof. intros [_ Hl] Hlo ->. simpl in Hl. lia. Qed.

Lemma range_leb (lo hi n : nat) :
  (lo <=? n)%nat && (n <=? hi)%nat = bool_decide (lo <= n <= hi)%nat.
Proof.
  apply eq_true_iff_eq. rewrite andb_true_iff, !Nat.leb_le, bool_decide_eq_true. done.
Qed.

Lemma valid_datetime_bounds t :
  valid_datetime t = true ->
  1 <= year (dt_date t) <= 9999 /\ 1 <= month (dt_date t) <= 12
  /\ 1 <= day (dt_date t) <= 31 /\ 0 <= hour t <= 23
  /\ 0 <= minute t <= 59 /\ 0 <= second t <= 59.
Proof.
  unfold valid_datetime. rewrite !andb_true_iff, !Z.leb_le.
  intros [[[[[[[[[[[? ?] ?] ?] ?] Hd] ?] ?] ?] ?] ?] ?].
  assert (days_in_month (year (dt_date t)) (month (dt_date t)) <= 31).
  { unfold days_in_month. repeat destruct (_ =? _); simpl; try lia.
    all: destruct (is_leap _); lia. }
  lia.
Qed.

(** One step of a pattern over a run of digits or a literal. *)
Ltac re_step :=
  first [ rewrite re_digits
            by first [ eapply run_digits; eassumption | exact I | exact eq_refl | assumption ]
        | rewrite re_digits_end by (eapply run_digits; eassumption)
        | rewrite re_chr ].

Ltac lengths :=
  repeat match goal with
         | R : run _ _ _ |- _ => apply run_length in R
         end;
  lia.

Ltac shape reg :=
  unfold reg, text_slash, text_dash; repeat re_step; rewrite ?range_leb;
  repeat match goal with
         | |- context [bool_decide ?P] =>
             first [ rewrite (bool_decide_eq_true_2 P) by lengths
                   | rewrite (bool_decide_eq_false_2 P) by lengths ]
         end;
  try reflexivity.

Lemma reg_mmddyyHHMM_slash2 m d y2 H M :
  run 1 2 m -> run 1 2 d -> run 2 2 y2 -> run 1 2 H -> run 1 2 M ->
  re_match_from reg_mmddyyHHMM (text_slash m d y2 H M) = true.
Proof. intros. shape reg_mmddyyHHMM. Qed.

Lemma reg_mmddyyHHMM_slash4 m d y4 H M :
  run 1 2 m -> run 1 2 d -> run 4 4 y4 ->
  re_match_from reg_mmddyyHHMM (text_slash m d y4 H M) = false.
Proof. intros. shape reg_mmddyyHHMM. Qed.

Lemma reg_mmddyyyyHHMM_slash4 m d y4 H M :
  run 1 2 m -> run 1 2 d -> run 4 4 y4 -> run 1 2 H -> run 1 2 M ->
  re_match_from reg_mmddyyyyHHMM (text_slash m d y4 H M) = true.
Proof. intros. shape reg_mmddyyyyHHMM. Qed.

Lemma reg_mmddyyHHMM_dash sep y4 m d H M S :
  run 4 4 y4 -> digit_val sep = None ->
  re_match_from reg_mmddyyHHMM (text_dash sep y4 m d H M S) = false.
Proof. intros. shape reg_mmddyyHHMM. Qed.

Lemma reg_mmddyyyyHHMM_dash sep y4 m d H M S :
  run 4 4 y4 -> digit_val sep = None ->
  re_match_from reg_mmddyyyyHHMM (text_dash sep y4 m d H M S) = false.
Proof. intros. shape reg_mmddyyyyHHMM. Qed.

Lemma reg_yyyymmddTHHMMSS_dashT y4 m d H M S :
  run 4 4 y4 -> run 1 2 m -> run 1 2 d -> run 1 2 H -> run 1 2 M -> run 1 2 S ->
  re_match_from reg_yyyymmddTHHMMSS (text_dash "T" y4 m d H M S) = true.
Proof. intros. shape reg_yyyymmddTHHMMSS. Qed.

Lemma reg_yyyymmddTHHMMSS_dash_space y4 m d H M S :
  run 4 4 y4 -> run 1 2 m -> run 1 2 d ->
  re_match_from reg_yyyymmddTHHMMSS (text_dash " " y4 m d H M S) = false.
Proof. intros. shape reg_yyyymmddTHHMMSS. Qed.

Lemma reg_yyyy_mm_dd_HHMMSS_dash_space y4 m d H M S :
  run 4 4 y4 -> run 1 2 m -> run 1 2 d -> run 1 2 H -> run 1 2 M -> run 1 2 S ->
  re_match_from reg_yyyy_mm_dd_HHMMSS (text_dash " " y4 m d H M S) = true.
Proof. intros. shape reg_yyyy_mm_dd_HHMMSS. Qed.

Lemma strptime_space_run fmt ds rest f :
  run 1 2 ds ->
  strptime_from (Dspace :: fmt) (" "%char :: ds ++ rest) f = strptime_from fmt (ds ++ rest) f.
Proof.
  intros R. destruct (run_cons _ _ _ R) as (c & cs & -> & Hc); [lia|].
  by apply strptime_space.
Qed.

(** One directive of a format over the field it reads. *)
Ltac field_step lem :=
  eapply strptime_field;
  [ exact I
  | eapply run_nonempty; [eassumption | lia]
  | first [ exact I | exact eq_refl ]
  | first [ eapply lem; [eassumption | lia] | apply lem; lia ]
  | ].

(** The digit runs behind the fields of a calendar date-time. *)
Ltac runs :=
  repeat match goal with
         | W : writes ?n ?ds |- _ =>
             lazymatch goal with
             | _ : run 1 2 ds |- _ => fail
             | _ => pose proof (writes_run n ds ltac:(lia) W)
             end
         end.

Lemma strptime_mmddyyHHMM t yy m d H M :
  valid_datetime t = true ->
  0 <= yy <= 99 -> year (dt_date t) = century yy -> second t = 0 ->
  writes (month (dt_date t)) m -> writes (day (dt_date t)) d ->
  writes (hour t) H -> writes (minute t) M ->
  strptime_from (parse_format (chars mmddyyHHMM)) (text_slash m d (two_digits yy) H M)
                default_fields
  = Some (fields_of t, []).
Proof.
  intros (By & Bm & Bd & BH & BM & BS)%valid_datetime_bounds Hyy Hy Hs Wm Wd WH WM.
  runs. pose proof (two_digits_run yy Hyy) as Ry.
  change (parse_format (chars mmddyyHHMM))
    with [Dm; Dlit "/"; Dd; Dlit "/"; Dy; Dspace; DH; Dlit ":"; DM].
  unfold text_slash, fields_of.
  field_step first_alt_month. rewrite strptime_lit.
  field_step first_alt_day. rewrite strptime_lit.
  field_step first_alt_year2.
  rewrite strptime_space_run by assumption.
  field_step first_alt_hour. rewrite strptime_lit.
  rewrite <- (app_nil_r M). field_step first_alt_minute.
  rewrite Hy, Hs. reflexivity.
Qed.

Lemma strptime_mmddyyyyHHMM t m d H M :
  valid_datetime t = true -> second t = 0 ->
  writes (month (dt_date t)) m -> writes (day (dt_date t)) d ->
  writes (hour t) H -> writes (minute t) M ->
  strptime_from (parse_format (chars mmddyyyyHHMM))
                (text_slash m d (four_digits (year (dt_date t))) H M) default_fields
  = Some (fields_of t, []).
Proof.
  intros (By & Bm & Bd & BH & BM & BS)%valid_datetime_bounds Hs Wm Wd WH WM.
  runs. pose proof (four_digits_run (year (dt_date t)) ltac:(lia)) as Ry.
  change (parse_format (chars mmddyyyyHHMM))
    with [Dm; Dlit "/"; Dd; Dlit "/"; DY; Dspace; DH; Dlit ":"; DM].
  unfold text_slash, fields_of.
  field_step first_alt_month. rewrite strptime_lit.
  field_step first_alt_day. rewrite strptime_lit.
  field_step first_alt_year4.
  rewrite strptime_space_run by assumption.
  field_step first_alt_hour. rewrite strptime_lit.
  rewrite <- (app_nil_r M). field_step first_alt_minute.
  rewrite Hs. reflexivity.
Qed.

Lemma strptime_yyyymmddTHHMMSS t m d H M S :
  valid_datetime t = true ->
  writes (month (dt_date t)) m -> writes (day (dt_date t)) d ->
  writes (hour t) H -> writes (minute t) M -> writes (second t) S ->
  strptime_from (parse_format (chars yyyymmddTHHMMSS))
                (text_dash "T" (four_digits (year (dt_date t))) m d H M S) default_fields
  = Some (fields_of t, []).
Proof.
  intros (By & Bm & Bd & BH & BM & BS)%valid_datetime_bounds Wm Wd WH WM WS.
  runs. pose proof (four_digits_run (year (dt_date t)) ltac:(lia)) as Ry.
  change (parse_format (chars yyyymmddTHHMMSS))
    with [DY; Dlit "-"; Dm; Dlit "-"; Dd; Dlit "T"; DH; Dlit ":"; DM; Dlit ":"; DS].
  unfold text_dash, fields_of.
  field_step first_alt_year4. rewrite strptime_lit.
  field_step first_alt_month. rewrite strptime_lit.
  field_step first_alt_day. rewrite strptime_lit.
  field_step first_alt_hour. rewrite strptime_lit.
  field_step first_alt_minute. rewrite strptime_lit.
  rewrite <- (app_nil_r S). field_step first_alt_second.
  reflexivity.
Qed.

Lemma strptime_yyyy_mm_dd_HHMMSS t m d H M S :
  valid_datetime t = true ->
  writes (month (dt_date t)) m -> writes (day (dt_date t)) d ->
  writes (hour t) H -> writes (minute t) M -> writes (second t) S ->
  strptime_from (parse_format (chars yyyy_mm_dd_HHMMSS))
                (text_dash " " (four_digits (year (dt_date t))) m d H M S) default_fields
  = Some (fields_of t, []).
Proof.
  intros (By & Bm & Bd & BH & BM & BS)%valid_datetime_bounds Wm Wd WH WM WS.
  runs. pose proof (four_digits_run (year (dt_date t)) ltac:(lia)) as Ry.
  change (parse_format (chars yyyy_mm_dd_HHMMSS))
    with [DY; Dlit "-"; Dm; Dlit "-"; Dd; Dspace; DH; Dlit ":"; DM; Dlit ":"; DS].
  unfold text_dash, fields_of.
  field_step first_alt_year4. rewrite strptime_lit.
  field_step first_alt_month. rewrite strptime_lit.
  field_step first_alt_day.
  rewrite strptime_space_run by assumption.
  field_step first_alt_hour. rewrite strptime_lit.
  field_step first_alt_minute. rewrite strptime_lit.
  rewrite <- (app_nil_r S). field_step first_alt_second.
  reflexivity.
Qed.

Lemma strptime_Ok s fmt f :
  strptime_from (parse_format (chars fmt)) (chars s) default_fields = Some (f, []) ->
  valid_datetime (datetime_of_fields f) = true ->
  strptime s fmt = Ok (datetime_of_fields f).
Proof. unfold strptime. by intros -> ->. Qed.

Lemma strptime_raises s fmt e : strptime s fmt = Raise e -> e = ValueError.
Proof.
  unfold strptime. destruct (strptime_from _ _ _) as [[f [|c l]]|]; try by intros [= <-].
  destruct (valid_datetime _); [discriminate|]. by intros [= <-].
Qed.

Lemma strptime_valid s fmt t : strptime s fmt = Ok t -> valid_datetime t = true.
Proof.
  unfold strptime. destruct (strptime_from _ _ _) as [[f [|c l]]|]; try discriminate.
  destruct (valid_datetime _) eqn:E; [|discriminate]. by intros [= <-].
Qed.

Lemma convertLastUpdate_text row s :
  has_text row "LastUpdate" s ->
  convertLastUpdate row =
    if re_match reg_mmddyyHHMM s then Some <$> strptime s mmddyyHHMM
    else if re_match reg_mmddyyyyHHMM s then Some <$> strptime s mmddyyyyHHMM
    else if re_match reg_yyyymmddTHHMMSS s then Some <$> strptime s yyyymmddTHHMMSS
    else if re_match reg_yyyy_mm_dd_HHMMSS s then Some <$> strptime s yyyy_mm_dd_HHMMSS
    else Ok None.
Proof.
  intros [Hi Hv]. unfold convertLastUpdate, series_getattr.
  rewrite decide_True by done. unfold cell. rewrite Hv. reflexivity.
Qed.

Lemma fields_of_datetime t : datetime_of_fields (fields_of t) = t.
Proof. by destruct t as [[? ? ?] ? ? ?]. Qed.

(** X25: What [convertLastUpdate] returns.  A text that writes a calendar
    date-time in one of the four shapes parses to exactly that date-time; a
    text that matches none of the four patterns gives [None]; a text that
    matches a pattern gives a calendar date-time or raises [ValueError],
    never [None]. *)
Theorem convertLastUpdate_parses (row : Series) (s : string) :
  has_text row "LastUpdate" s ->
  (forall t, valid_datetime t = true -> written t (chars s) ->
             convertLastUpdate row = Ok (Some t))
  /\ (matches_a_shape s = false -> convertLastUpdate row = Ok None)
  /\ (matches_a_shape s = true ->
      (exists t, convertLastUpdate row = Ok (Some t) /\ valid_datetime t = true)
      \/ convertLastUpdate row = Raise ValueError).
Proof.
  intros Hrow. rewrite (convertLastUpdate_text row s Hrow). unfold re_match.
  split; [|split].
  - intros t Hvalid Hw.
    pose proof (valid_datetime_bounds t Hvalid) as (By & Bm & Bd & BH & BM & BS).
    assert (Hres : forall fmt,
               strptime_from (parse_format (chars fmt)) (chars s) default_fields
               = Some (fields_of t, []) ->
               Some <$> strptime s fmt = Ok (Some t)).
    { intros fmt Hf. rewrite (strptime_Ok _ _ _ Hf); rewrite fields_of_datetime; done. }
    pose proof (four_digits_run (year (dt_date t)) ltac:(lia)) as Ry4.
    remember (chars s) as txt eqn:Htxt.
    destruct Hw as [yy m d H M Hyy Hy Hs Wm Wd WH WM | m d H M Hs Wm Wd WH WM
                   | m d H M S Wm Wd WH WM WS | m d H M S Wm Wd WH WM WS]; runs.
    + pose proof (two_digits_run yy Hyy) as Ry2.
      rewrite reg_mmddyyHHMM_slash2 by assumption.
      apply Hres. by apply strptime_mmddyyHHMM.
    + rewrite reg_mmddyyHHMM_slash4, reg_mmddyyyyHHMM_slash4 by assumption.
      apply Hres. by apply strptime_mmddyyyyHHMM.
    + rewrite reg_mmddyyHHMM_dash, reg_mmddyyyyHHMM_dash by (assumption || reflexivity).
      rewrite reg_yyyymmddTHHMMSS_dashT by assumption.
      apply Hres. by apply strptime_yyyymmddTHHMMSS.
    + rewrite reg_mmddyyHHMM_dash, reg_mmddyyyyHHMM_dash by (assumption || reflexivity).
      rewrite reg_yyyymmddTHHMMSS_dash_space, reg_yyyy_mm_dd_HHMMSS_dash_space by assumption.
      apply Hres. by apply strptime_yyyy_mm_dd_HHMMSS.
  - unfold matches_a_shape, re_match. rewrite !orb_false_iff.
    intros [[[-> ->] ->] ->]. reflexivity.
  - unfold matches_a_shape, re_match. intros Hm.
    assert (Hcase : forall fmt,
               (exists t, Some <$> strptime s fmt = Ok (Some t) /\ valid_datetime t = true)
               \/ Some <$> strptime s fmt = Raise ValueError).
    { intros fmt. destruct (strptime s fmt) as [t|e] eqn:E.
      - left. exists t. split; [done|]. by apply strptime_valid in E.
      - right. apply strptime_raises in E as ->. done. }
    repeat (destruct (re_match_from _ _); [apply Hcase|]). discriminate.
Qed.

(** ** Regional aggregate counts, country level *)

Lemma traverse_total {A B : Type} (f : A -> result B) (h : A -> B) (l : list A) :
  (forall x, f x = Ok (h x)) -> traverse f l = Ok (h <$> l).
Proof. intros H. induction l as [|x l IH]; simpl; [done|]. by rewrite H, IH. Qed.

Lemma select_columns_present df labels :
  Forall (fun l => l ∈ columns df) labels ->
  select_columns df labels
  = Ok {| columns := labels;
          rows := (fun r : Row => filter (fun kv => kv.1 ∈ labels) r) <$> rows df;
          categories := filter (fun kv => kv.1 ∈ labels) (categories df) |}.
Proof.
  intros H. unfold select_columns.
  assert (E : filter (fun l => l ∉ columns df) labels = []).
  { induction H as [|l ls Hl _ IH]; [done|].
    rewrite filter_cons. case_decide; [done|]. exact IH. }
  by rewrite E.
Qed.

Lemma cell_filter_labels (r : Row) (labels : list string) (l : string) :
  cell (filter (fun kv => kv.1 ∈ labels) r) l = if decide (l ∈ labels) then cell r l else NaN.
Proof.
  unfold cell. rewrite map_lookup_filter. case_decide as E.
  - destruct (r !! l) as [c|] eqn:Er; simpl; [|done].
    by rewrite option_guard_True.
  - destruct (r !! l) as [c|] eqn:Er; simpl; [|done].
    by rewrite option_guard_False.
Qed.

Lemma zip_with_bind {A B C D : Type} (f : B -> C -> D) (a : A -> list B) (b : A -> list C)
    (l : list A) :
  (forall x, length (a x) = length (b x)) ->
  zip_with f (l ≫= a) (l ≫= b) = l ≫= (fun x => zip_with f (a x) (b x)).
Proof.
  intros H. induction l as [|x l IH]; [done|].
  rewrite !bind_cons, zip_with_app by apply H. by rewrite IH.
Qed.

Lemma zip_with_const_r {A B C : Type} (f : A -> B -> C) (l : list A) (k : B) :
  zip_with f l ((fun _ => k) <$> l) = (fun x => f x k) <$> l.
Proof. induction l; simpl; [done|]. by f_equal. Qed.

Lemma chooseLatestRow_Ok g :
  "updateTime" ∈ columns g ->
  exists res, chooseLatestRow g = Ok res /\ rows res = latest (rows g)
              /\ columns res = columns g /\ categories res = categories g.
Proof.
  intros H. unfold chooseLatestRow, getattr. rewrite decide_True by done.
  rewrite result_bind_Ok. eexists. split; [reflexivity|].
  split; [|done]. apply boolean_index_rows.
Qed.

Lemma rows_latest_frame g : rows (latest_frame g) = latest (rows g).
Proof. apply boolean_index_rows. Qed.

Lemma country_tail (group_keys : bool) (p : DataFrame) :
  "date" ∈ columns p -> "updateTime" ∈ columns p ->
  Forall (fun l => l ∈ columns p) country_counts ->
  (group_keys = true
   \/ exists k, k ∈ observed_keys ["date"] p
                /\ length (latest (group_rows ["date"] k (rows p)))
                   <> length (group_rows ["date"] k (rows p))) ->
  exists out,
    (x ← groupby_apply group_keys ["date"] chooseLatestRow p;
     x ← indexed_select x country_counts;
     df ← reset_index x;
     select_columns df ("date" :: country_counts)) = Ok out
    /\ columns out = "date" :: country_counts
    /\ rows out = observed_keys ["date"] p ≫=
                  (fun k => country_row k <$> latest (group_rows ["date"] k (rows p))).
Proof.
  intros Hdate Hut Hcounts Hkeyed.
  unfold groupby_apply, missing_labels.
  assert (filter (fun l => l ∉ columns p) ["date"] = []) as ->.
  { rewrite filter_cons. by rewrite decide_False by (by intros ?). }
  set (mk := fun k : list Cell =>
               mkFrame (columns p) (group_rows ["date"] k (rows p)) (categories p)).
  rewrite (traverse_total _ (fun k => (k, mk k, latest_frame (mk k)))).
  2:{ intros k. cbn zeta. fold (mk k).
      unfold chooseLatestRow, getattr. rewrite decide_True by done. reflexivity. }
  rewrite result_bind_Ok. cbn zeta.
  set (parts := (fun k => (k, mk k, latest_frame (mk k))) <$> observed_keys ["date"] p).
  assert (Hmut : group_keys
                 || existsb (fun q => negb (length (rows q.2) =? length (rows q.1.2))%nat) parts
                 = true).
  { destruct Hkeyed as [->|(k & Hk & Hlen)]; [done|]. apply orb_true_iff. right.
    apply existsb_exists. exists (k, mk k, latest_frame (mk k)). split.
    - apply list_elem_of_In. unfold parts. apply list_elem_of_fmap. eauto.
    - cbn [fst snd]. rewrite rows_latest_frame. apply negb_true_iff, Nat.eqb_neq.
      exact Hlen. }
  rewrite Hmut. rewrite result_bind_Ok.
  unfold indexed_select. cbn [frame index_names index_keys].
  rewrite select_columns_present by done. rewrite !result_bind_Ok.
  unfold reset_index. cbn [frame index_names index_keys columns rows categories].
  assert (filter (fun n => n ∈ country_counts) ["date"] = []) as -> by reflexivity.
  rewrite result_bind_Ok.
  rewrite select_columns_present.
  2:{ cbn [columns]. not_in_list. }
  eexists. split; [reflexivity|]. split; [reflexivity|].
  cbn [rows]. unfold parts. clear parts Hmut Hkeyed.
  generalize (observed_keys ["date"] p). intros ks.
  induction ks as [|k ks IH]; [done|].
  rewrite fmap_cons, !bind_cons, fmap_app, zip_with_app, fmap_app.
  2:{ cbn [fst snd]. by rewrite !length_fmap. }
  f_equal; [|exact IH]. cbn [fst snd].
  rewrite zip_with_fmap_l, zip_with_const_r, <- list_fmap_compose, rows_latest_frame.
  reflexivity.
Qed.

(** *** Maxima of text columns *)

Lemma cell_leb_text_total a b : is_text a -> is_text b -> cell_leb a b = true \/ cell_leb b a = true.
Proof. intros [s ->] [t ->]. simpl. apply String.leb_total. Qed.

Lemma cell_leb_text_trans a b c :
  is_text a -> is_text b -> is_text c ->
  cell_leb a b = true -> cell_leb b c = true -> cell_leb a c = true.
Proof.
  intros [s ->] [t ->] [u ->]. simpl. intros H1 H2.
  apply Is_true_true. apply Is_true_true in H1, H2.
  exact (transitivity (R := String.le) H1 H2).
Qed.

Lemma cell_leb_text_refl a : is_text a -> cell_leb a a = true.
Proof. intros Ha. by destruct (cell_leb_text_total a a Ha Ha). Qed.

Lemma series_max_text l :
  Forall is_text l -> l <> [] ->
  series_max l ∈ l /\ Forall (fun c => cell_leb c (series_max l) = true) l.
Proof.
  induction 1 as [|c l Hc Hl IH]; [done|]. intros _.
  destruct l as [|c' l'].
  { simpl. destruct Hc as [s ->]. simpl. split; [left|].
    constructor; [|constructor]. apply (cell_leb_text_refl (Str s)). by eexists. }
  destruct IH as [Hin Hle]; [done|].
  change (series_max (c :: c' :: l')) with (cell_max c (series_max (c' :: l'))).
  set (m := series_max (c' :: l')) in *.
  assert (Hm : is_text m) by (by apply (proj1 (Forall_forall _ _) Hl)).
  destruct Hc as [s ->]. destruct Hm as [t Hm]. rewrite Hm in *.
  unfold cell_max. destruct (cell_leb (Str s) (Str t)) eqn:E.
  - split; [by right|]. by constructor.
  - assert (cell_leb (Str t) (Str s) = true) as Hts.
    { destruct (cell_leb_text_total (Str s) (Str t)); [by eexists|by eexists|congruence|done]. }
    split; [left|]. constructor; [apply cell_leb_text_refl; by eexists|].
    apply Forall_forall. intros x Hx.
    apply (cell_leb_text_trans x (Str t) (Str s)); [|by eexists|by eexists| |done].
    + by apply (proj1 (Forall_forall _ _) Hl).
    + by apply (proj1 (Forall_forall _ _) Hle).
Qed.

Lemma filter_none {A B : Type} `{EqDecision B} (f : A -> B) (l : list A) (b : B) :
  b ∉ f <$> l -> filter (fun x => f x = b) l = [].
Proof.
  induction l as [|x l IH]; [done|].
  rewrite fmap_cons, not_elem_of_cons. intros [Hx Hl].
  rewrite filter_cons, decide_False by done. by apply IH.
Qed.

Lemma filter_unique {A B : Type} `{EqDecision B} (f : A -> B) (l : list A) (r : A) :
  NoDup (f <$> l) -> r ∈ l -> filter (fun x => f x = f r) l = [r].
Proof.
  induction l as [|x l IH]; [by intros _ ?%elem_of_nil|].
  rewrite fmap_cons, NoDup_cons. intros [Hx Hnd] [->|Hr]%elem_of_cons.
  - rewrite filter_cons, decide_True by done. f_equal. by apply filter_none.
  - rewrite filter_cons, decide_False; [by apply IH|].
    intros E. apply Hx. rewrite E. by apply list_elem_of_fmap_2.
Qed.

Lemma latest_unique (g : list Row) :
  Forall (fun r => is_text (cell r "updateTime")) g -> g <> [] ->
  NoDup ((fun r => cell r "updateTime") <$> g) ->
  exists r, latest g = [r] /\ r ∈ g
            /\ Forall (fun r2 => cell_leb (cell r2 "updateTime") (cell r "updateTime") = true) g.
Proof.
  intros Htext Hne Hnd.
  destruct (series_max_text ((fun r => cell r "updateTime") <$> g)) as [Hin Hle].
  { by apply Forall_fmap. }
  { by destruct g. }
  apply list_elem_of_fmap in Hin as (r & Hr & Hrg).
  exists r. split; [|split; [done|]].
  - unfold latest. rewrite Hr. rewrite <- (filter_unique (fun r => cell r "updateTime") g r) by done.
    apply list_filter_iff. intros x. rewrite andb_true_iff, negb_true_iff, bool_decide_eq_true.
    split; [tauto|]. intros E. split; [|done].
    rewrite E. assert (is_text (cell r "updateTime")) as [s ->]; [|done].
    by apply (proj1 (Forall_forall _ _) Htext).
  - rewrite Forall_fmap in Hle. by rewrite <- Hr.
Qed.

(** *** Group keys *)

Lemma observed_keys_NoDup keys df : NoDup (observed_keys keys df).
Proof.
  unfold observed_keys. rewrite merge_sort_Permutation. apply NoDup_remove_dups.
Qed.

Lemma elem_of_observed_keys keys df k :
  k ∈ observed_keys keys df <-> has_nan k = false /\ exists r, r ∈ rows df /\ k = key_of keys r.
Proof.
  unfold observed_keys. rewrite merge_sort_Permutation, elem_of_remove_dups.
  rewrite list_elem_of_filter, list_elem_of_fmap. split.
  - intros [Hk (r & -> & Hr)]. split; [exact Hk|]. by exists r.
  - intros [Hk (r & Hr & ->)]. split; [exact Hk|]. by exists r.
Qed.

Lemma length_filter_two {A : Type} (P : A -> Prop) `{forall x, Decision (P x)}
    (l : list A) (i j : nat) (a b : A) :
  i <> j -> l !! i = Some a -> l !! j = Some b -> P a -> P b ->
  (2 <= length (filter P l))%nat.
Proof.
  revert i j. induction l as [|x l IH]; intros i j Hij Hi Hj Pa Pb; [done|].
  rewrite filter_cons. destruct i as [|i], j as [|j]; simplify_eq/=.
  - rewrite decide_True by done. simpl.
    assert (b ∈ filter P l) as Hb.
    { apply list_elem_of_filter. split; [done|]. by eapply list_elem_of_lookup_2. }
    destruct (filter P l); [by apply elem_of_nil in Hb|simpl; lia].
  - rewrite decide_True by done. simpl.
    assert (a ∈ filter P l) as Hb.
    { apply list_elem_of_filter. split; [done|]. by eapply list_elem_of_lookup_2. }
    destruct (filter P l); [by apply elem_of_nil in Hb|simpl; lia].
  - assert (2 <= length (filter P l))%nat by (eapply (IH i j); eauto).
    case_decide; simpl; lia.
Qed.

Lemma rename_column_columns df old new :
  columns (rename_column df old new) = rename_label old new <$> columns df.
Proof.
  unfold rename_column. case_decide as E; [done|].
  induction (columns df) as [|c cs IH]; [done|].
  rewrite not_elem_of_cons in E. destruct E as [E1 E2].
  rewrite fmap_cons. unfold rename_label at 1. rewrite decide_False by done.
  f_equal. by apply IH.
Qed.

Lemma rename_column_upd df old new :
  old ∈ columns df ->
  Forall2 (fun r r' => r' = <[new := cell r old]> (delete old r))
          (rows df) (rows (rename_column df old new)).
Proof.
  intros H. unfold rename_column. rewrite decide_True by done. simpl.
  apply (Forall2_fmap_self (fun r : Row => <[new := cell r old]> (delete old r))).
Qed.

Lemma traverse_total_Forall {A B : Type} (f : A -> result B) (h : A -> B) (l : list A) :
  Forall (fun x => f x = Ok (h x)) l -> traverse f l = Ok (h <$> l).
Proof. induction 1 as [|x l Hx _ IH]; simpl; [done|]. by rewrite Hx, IH. Qed.

Lemma astype_category_Ok df col :
  col ∈ columns df ->
  exists df', astype_category df col = Ok df' /\ columns df' = columns df
              /\ Forall2 (keeps (columns df)) (rows df) (rows df').
Proof.
  intros H. destruct (astype_category df col) as [df'|e] eqn:E.
  - exists df'. split; [done|]. split; [by apply astype_category_columns in E|].
    eapply Forall2_impl; [by apply astype_category_upd|]. apply upd_same_keeps.
  - unfold astype_category, getcol in E. rewrite decide_True in E by done. discriminate.
Qed.

Ltac in_list := not_in_list.

Section Country.
Variable to_datetime : string -> Cell -> result Cell.
Variable group_keys : bool.

(** The frame that reaches [groupby]: the renamed counts, the timestamp
    and the derived date of every input row. *)
Lemma country_prepare df :
  Forall (fun l => l ∈ columns df) country_colsToKeep ->
  Forall (has_timestamp to_datetime) (rows df) ->
  exists p,
    processDxyCovid19Country to_datetime group_keys df
    = (x ← groupby_apply group_keys ["date"] chooseLatestRow p;
       x ← indexed_select x country_counts;
       df ← reset_index x;
       select_columns df ("date" :: country_counts))
    /\ columns p = country_counts ++ ["updateTime"; "date"]
    /\ Forall2 (facts (country_prepared to_datetime)) (rows df) (rows p).
Proof.
  intros Hcols Hts. unfold processDxyCovid19Country.
  fold country_colsToKeep. rewrite (select_columns_present _ _ Hcols), result_bind_Ok.
  set (d0 := mkFrame _ _ _).
  assert (R0 : Forall2 (facts [orig "confirmedCount"; orig "suspectedCount";
                               orig "curedCount"; orig "deadCount";
                               orig "seriousCount"; orig "updateTime"])
                       (rows df) (rows d0)).
  { eapply Forall2_impl;
      [apply (Forall2_fmap_self
                (fun r : Row => filter (fun kv => kv.1 ∈ country_colsToKeep) r))|].
    intros r r' ->. unfold facts. simpl. repeat constructor; simpl;
      rewrite cell_filter_labels; by rewrite decide_True by in_list. }
  cbn zeta.
  set (d1 := rename_column d0 "confirmedCount" "confirmed").
  set (d2 := rename_column d1 "suspectedCount" "suspected").
  set (d3 := rename_column d2 "curedCount" "recovered").
  set (d4 := rename_column d3 "deadCount" "death").
  set (d5 := rename_column d4 "seriousCount" "serious").
  assert (C5 : columns d5 = country_counts ++ ["updateTime"]).
  { unfold d5, d4, d3, d2, d1. rewrite !rename_column_columns. reflexivity. }
  assert (R5 : Forall2 (facts [("confirmed", fun r0 => cell r0 "confirmedCount");
                               ("suspected", fun r0 => cell r0 "suspectedCount");
                               ("recovered", fun r0 => cell r0 "curedCount");
                               ("death", fun r0 => cell r0 "deadCount");
                               ("serious", fun r0 => cell r0 "seriousCount");
                               ("updateTime", fun r0 => cell r0 "updateTime")])
                       (rows df) (rows d5)).
  { assert (U1 := rename_column_upd d0 "confirmedCount" "confirmed" ltac:(in_list)).
    assert (U2 := rename_column_upd d1 "suspectedCount" "suspected"
                    ltac:(unfold d1; rewrite !rename_column_columns; in_list)).
    assert (U3 := rename_column_upd d2 "curedCount" "recovered"
                    ltac:(unfold d2, d1; rewrite !rename_column_columns; in_list)).
    assert (U4 := rename_column_upd d3 "deadCount" "death"
                    ltac:(unfold d3, d2, d1; rewrite !rename_column_columns; in_list)).
    assert (U5 := rename_column_upd d4 "seriousCount" "serious"
                    ltac:(unfold d4, d3, d2, d1; rewrite !rename_column_columns; in_list)).
    fold d1 in U1. fold d2 in U2. fold d3 in U3. fold d4 in U4. fold d5 in U5.
    stage R0 U1 [("confirmed", fun r0 : Row => cell r0 "confirmedCount");
                 orig "suspectedCount"; orig "curedCount"; orig "deadCount";
                 orig "seriousCount"; orig "updateTime"].
    stage R0 U2 [("confirmed", fun r0 : Row => cell r0 "confirmedCount");
                 ("suspected", fun r0 : Row => cell r0 "suspectedCount");
                 orig "curedCount"; orig "deadCount";
                 orig "seriousCount"; orig "updateTime"].
    stage R0 U3 [("confirmed", fun r0 : Row => cell r0 "confirmedCount");
                 ("suspected", fun r0 : Row => cell r0 "suspectedCount");
                 ("recovered", fun r0 : Row => cell r0 "curedCount");
                 orig "deadCount"; orig "seriousCount"; orig "updateTime"].
    stage R0 U4 [("confirmed", fun r0 : Row => cell r0 "confirmedCount");
                 ("suspected", fun r0 : Row => cell r0 "suspectedCount");
                 ("recovered", fun r0 : Row => cell r0 "curedCount");
                 ("death", fun r0 : Row => cell r0 "deadCount");
                 orig "seriousCount"; orig "updateTime"].
    stage R0 U5 [("confirmed", fun r0 : Row => cell r0 "confirmedCount");
                 ("suspected", fun r0 : Row => cell r0 "suspectedCount");
                 ("recovered", fun r0 : Row => cell r0 "curedCount");
                 ("death", fun r0 : Row => cell r0 "deadCount");
                 ("serious", fun r0 : Row => cell r0 "seriousCount");
                 orig "updateTime"].
    exact R0. }
  clearbody d5. clear d1 d2 d3 d4.
  unfold getattr. rewrite decide_True by (rewrite C5; in_list). rewrite result_bind_Ok.
  set (h := fun c => match to_datetime "%Y-%m-%d %H:%M:%S" c with
                     | Ok (DateTime t) => Date (dt_date t)
                     | _ => NaN
                     end).
  assert (Hdates : to_date_column to_datetime "%Y-%m-%d %H:%M:%S"
                     ((fun r => cell r "updateTime") <$> rows d5)
                   = Ok (h <$> ((fun r => cell r "updateTime") <$> rows d5))).
  { unfold to_date_column.
    assert (Hall : Forall (fun c => exists t, to_datetime "%Y-%m-%d %H:%M:%S" c
                                              = Ok (DateTime t))
                          ((fun r => cell r "updateTime") <$> rows d5)).
    { apply Forall_fmap. apply Forall_forall. intros r' Hr'.
      apply list_elem_of_lookup in Hr' as [i Hi].
      destruct (Forall2_lookup_r _ _ _ _ _ R5 Hi) as (r0 & Hr0 & F).
      apply list_elem_of_lookup_2 in Hr0.
      destruct (proj1 (Forall_forall _ _) Hts r0 Hr0) as (_ & t & Ht).
      exists t. simpl. cells. intuition congruence. }
    set (h1 := fun c => match to_datetime "%Y-%m-%d %H:%M:%S" c with
                        | Ok v => v
                        | Raise _ => NaN
                        end).
    rewrite (traverse_total_Forall _ h1).
    2:{ eapply Forall_impl; [exact Hall|]. intros c [t Ht]. unfold h1. by rewrite Ht. }
    rewrite result_bind_Ok.
    rewrite (traverse_total_Forall _ (fun c => match c with
                                               | DateTime t => Date (dt_date t)
                                               | _ => NaN
                                               end)).
    2:{ apply Forall_fmap. eapply Forall_impl; [exact Hall|]. intros c [t Ht].
        unfold h1. simpl. by rewrite Ht. }
    f_equal. rewrite <- list_fmap_compose. apply list_fmap_ext.
    intros i c Hc. unfold h, h1. simpl.
    destruct (to_datetime _ c) as [[]|]; done. }
  rewrite Hdates, result_bind_Ok. cbn zeta.
  set (d6 := setitem d5 "date" _).
  assert (C6 : columns d6 = country_counts ++ ["updateTime"; "date"]).
  { unfold d6. simpl. rewrite C5. reflexivity. }
  assert (R6 : Forall2 (facts (country_prepared to_datetime)) (rows df) (rows d6)).
  { eapply Forall2_compose; [|exact R5|].
    2:{ unfold d6. simpl. rewrite <- list_fmap_compose.
        apply (Forall2_zip_with_upd "date" (fun r c => c = h (cell r "updateTime"))).
        apply (Forall2_fmap_self (fun r => h (cell r "updateTime"))). }
    intros r0 r1 r' F U. unfold country_prepared, date_of. cells.
    fold (h (cell r0 "updateTime")). rewrite H4. tauto. }
  clearbody d6. clear Hdates.
  cbn [foldM].
  destruct (astype_category_Ok d6 "updateTime") as (d7 & -> & C7 & R7);
    [rewrite C6; in_list|].
  rewrite result_bind_Ok.
  destruct (astype_category_Ok d7 "date") as (d8 & -> & C8 & R8);
    [rewrite C7, C6; in_list|].
  rewrite !result_bind_Ok.
  exists d8. split; [reflexivity|]. split; [by rewrite C8, C7|].
  eapply Forall2_compose; [|exact R6|].
  2:{ eapply Forall2_compose; [|exact R7|exact R8].
      intros x y z Hxy Hyz. rewrite C7 in Hyz. exact (keeps_trans _ _ _ _ Hxy Hyz). }
  rewrite C6. simpl. intros r0 r1 r' F K. unfold country_prepared in *. cells.
  intuition congruence.
Qed.

End Country.

Lemma Forall2_bind_singletons {K A B : Type} (G : K -> list A) (F : K -> A -> B)
    (Q : K -> A -> Prop) (ks : list K) :
  Forall (fun k => exists r, G k = [r] /\ Q k r) ks ->
  Forall2 (fun k r' => exists r, G k = [r] /\ Q k r /\ r' = F k r)
          ks (ks ≫= fun k => F k <$> G k).
Proof.
  induction 1 as [|k ks (r & Hr & HQ) _ IH]; [constructor|].
  rewrite bind_cons, Hr. simpl. constructor; [|exact IH]. eauto.
Qed.

Lemma cell_country_row c r l :
  cell (country_row [c] r) l
  = if decide (l = "date") then c
    else if decide (l ∈ country_counts) then cell r l else NaN.
Proof.
  unfold country_row, bind_cells. simpl.
  rewrite cell_filter_labels, cell_insert, cell_filter_labels.
  destruct (decide (l = "date")) as [->|Hne].
  - rewrite decide_True by (by left). by rewrite decide_True.
  - rewrite (decide_False (P := "date" = l)) by done.
    destruct (decide (l ∈ country_counts)) as [Hl|Hl].
    + by rewrite decide_True by (by right).
    + rewrite decide_False; [done|].
      intros [?|?]%elem_of_cons; done.
Qed.

(** The row kept for a date is the one whose [updateTime] is the greatest
    as text: [max()] runs on the ordered categorical of the texts. *)
Lemma processDxyCovid19Country_greatest_text
    (to_datetime : string -> Cell -> result Cell) (group_keys : bool) (df : DataFrame) :
  Forall (fun l => l ∈ columns df) country_colsToKeep ->
  Forall (has_timestamp to_datetime) (rows df) ->
  NoDup ((fun r => cell r "updateTime") <$> rows df) ->
  (exists i j r1 r2, i <> j /\ rows df !! i = Some r1 /\ rows df !! j = Some r2
                     /\ date_of to_datetime r1 = date_of to_datetime r2) ->
  exists out,
    processDxyCovid19Country to_datetime group_keys df = Ok out
    /\ columns out = "date" :: country_counts
    /\ NoDup ((fun r' => cell r' "date") <$> rows out)
    /\ (forall r0, r0 ∈ rows df ->
                   date_of to_datetime r0 ∈ (fun r' => cell r' "date") <$> rows out)
    /\ Forall (fun r' =>
                 exists r0, r0 ∈ rows df
                   /\ cell r' "date" = date_of to_datetime r0
                   /\ same_counts r0 r'
                   /\ Forall (fun r2 =>
                                date_of to_datetime r2 = date_of to_datetime r0 ->
                                cell_leb (cell r2 "updateTime") (cell r0 "updateTime") = true)
                             (rows df))
              (rows out).
Proof.
  intros Hcols Hts Hnd (i & j & r1 & r2 & Hij & Hi & Hj & Hsame).
  destruct (country_prepare to_datetime group_keys df Hcols Hts) as (p & -> & Cp & Rp).
  (* the rows that reach the group-by, against the input rows *)
  assert (Hrow : forall n r0 r, rows df !! n = Some r0 -> rows p !! n = Some r ->
             cell r "updateTime" = cell r0 "updateTime"
             /\ cell r "date" = date_of to_datetime r0
             /\ is_nan (cell r "date") = false
             /\ is_text (cell r "updateTime")
             /\ cell r "confirmed" = cell r0 "confirmedCount"
             /\ cell r "suspected" = cell r0 "suspectedCount"
             /\ cell r "recovered" = cell r0 "curedCount"
             /\ cell r "death" = cell r0 "deadCount"
             /\ cell r "serious" = cell r0 "seriousCount").
  { intros n r0 r Hr0 Hr. pose proof (Forall2_lookup_lr _ _ _ _ _ _ Rp Hr0 Hr) as F.
    apply list_elem_of_lookup_2 in Hr0.
    destruct (proj1 (Forall_forall _ _) Hts r0 Hr0) as (Htext & t & Ht).
    unfold country_prepared in F. cells.
    repeat match goal with H : cell r _ = _ |- _ => rewrite H end.
    unfold date_of. rewrite Ht. simpl. tauto. }
  assert (Hlen : length (rows df) = length (rows p)) by (by eapply Forall2_length).
  assert (Hpre : forall r, r ∈ rows p -> exists n r0, rows df !! n = Some r0 /\ rows p !! n = Some r).
  { intros r [n Hn]%list_elem_of_lookup.
    destruct (Forall2_lookup_r _ _ _ _ _ Rp Hn) as (r0 & Hr0 & _). eauto. }
  assert (Himg : forall n r0, rows df !! n = Some r0 -> exists r, rows p !! n = Some r).
  { intros n r0 Hn. destruct (Forall2_lookup_l _ _ _ _ _ Rp Hn) as (r & Hr & _). eauto. }
  assert (Hut : (fun r => cell r "updateTime") <$> rows p
                = (fun r => cell r "updateTime") <$> rows df).
  { apply list_eq. intros n. rewrite !list_lookup_fmap.
    destruct (rows df !! n) as [r0|] eqn:E0.
    - destruct (Himg n r0 E0) as [r Er]. rewrite Er. simpl. f_equal.
      by apply (Hrow n r0 r).
    - apply lookup_ge_None in E0. rewrite lookup_ge_None_2 by lia. done. }
  (* one kept row in every group *)
  assert (Hgroup : Forall (fun k => exists r,
                     latest (group_rows ["date"] k (rows p)) = [r]
                     /\ (r ∈ rows p /\ k = [cell r "date"]
                         /\ Forall (fun r2 => key_of ["date"] r2 = k ->
                                      cell_leb (cell r2 "updateTime") (cell r "updateTime") = true)
                                   (rows p)))
                   (observed_keys ["date"] p)).
  { apply Forall_forall. intros k (Hnan & rk & Hrk & ->)%elem_of_observed_keys.
    destruct (latest_unique (group_rows ["date"] (key_of ["date"] rk) (rows p)))
      as (r & Hl & Hr & Hmax).
    - apply Forall_forall. intros x [_ Hx]%list_elem_of_filter.
      destruct (Hpre x Hx) as (n & x0 & Hx0 & Hxn). by apply (Hrow n x0 x).
    - intros E. assert (rk ∈ group_rows ["date"] (key_of ["date"] rk) (rows p)) as Hin
        by (by apply list_elem_of_filter).
      rewrite E in Hin. by apply elem_of_nil in Hin.
    - rewrite <- Hut in Hnd.
      eapply sublist_NoDup; [exact Hnd|]. apply fmap_sublist, sublist_filter.
    - exists r. split; [done|]. apply list_elem_of_filter in Hr as [Hkey Hr].
      split; [done|]. split; [by rewrite <- Hkey|].
      apply Forall_forall. intros x Hx Hk.
      apply (proj1 (Forall_forall _ _) Hmax). by apply list_elem_of_filter. }
  (* some group loses a row *)
  destruct (Himg i r1 Hi) as [p1 Hp1]. destruct (Himg j r2 Hj) as [p2 Hp2].
  destruct (Hrow i r1 p1 Hi Hp1) as (_ & Hd1 & Hn1 & _).
  destruct (Hrow j r2 p2 Hj Hp2) as (_ & Hd2 & _).
  destruct (country_tail group_keys p) as (out & -> & Cout & Rout).
  { rewrite Cp. in_list. }
  { rewrite Cp. in_list. }
  { rewrite Cp. in_list. }
  { right. exists [cell p1 "date"].
    assert (Hk : [cell p1 "date"] ∈ observed_keys ["date"] p).
    { apply elem_of_observed_keys. split; [simpl; by rewrite Hn1|].
      exists p1. split; [by eapply list_elem_of_lookup_2|done]. }
    split; [done|].
    destruct (proj1 (Forall_forall _ _) Hgroup _ Hk) as (r & -> & _). simpl.
    pose proof (length_filter_two (fun r => key_of ["date"] r = [cell p1 "date"])
                  (rows p) i j p1 p2 Hij Hp1 Hp2) as Hge.
    unfold group_rows. intros E. rewrite <- E in Hge.
    assert (2 <= 1)%nat; [apply Hge|lia].
    - done.
    - simpl. by rewrite Hd1, Hd2, Hsame. }
  exists out. split; [done|]. split; [done|].
  pose proof (Forall2_bind_singletons
                (fun k => latest (group_rows ["date"] k (rows p))) country_row _ _ Hgroup)
    as F2.
  cbv beta in F2. rewrite <- Rout in F2.
  assert (Hkeys : observed_keys ["date"] p
                  = (fun c => [c]) <$> ((fun r' => cell r' "date") <$> rows out)).
  { rewrite <- list_fmap_compose. apply list_eq. intros n. rewrite list_lookup_fmap.
    destruct (observed_keys ["date"] p !! n) as [k|] eqn:Ek.
    - destruct (Forall2_lookup_l _ _ _ _ _ F2 Ek) as (r' & -> & r & _ & (_ & -> & _) & ->).
      simpl. by rewrite cell_country_row, decide_True.
    - apply lookup_ge_None in Ek. apply Forall2_length in F2.
      rewrite lookup_ge_None_2 by lia. done. }
  split; [|split].
  - apply (NoDup_fmap_1 (fun c : Cell => [c])). rewrite <- Hkeys.
    apply observed_keys_NoDup.
  - intros r0 [n Hn]%list_elem_of_lookup. destruct (Himg n r0 Hn) as [r Hr].
    destruct (Hrow n r0 r Hn Hr) as (_ & Hd & Hnan & _).
    assert (Hk : [cell r "date"] ∈ observed_keys ["date"] p).
    { apply elem_of_observed_keys. split; [simpl; by rewrite Hnan|].
      exists r. split; [by eapply list_elem_of_lookup_2|done]. }
    rewrite Hkeys in Hk. apply list_elem_of_fmap in Hk as (c & [= <-] & Hc).
    by rewrite <- Hd.
  - apply Forall_forall. intros r' [n Hn]%list_elem_of_lookup.
    destruct (Forall2_lookup_r _ _ _ _ _ F2 Hn) as (k & Hk & r & _ & (Hr & -> & Hmax) & ->).
    destruct (Hpre r Hr) as (m & r0 & Hr0 & Hrm).
    destruct (Hrow m r0 r Hr0 Hrm) as (Hu & Hd & _ & _ & H1 & H2 & H3 & H4 & H5).
    exists r0. split; [by eapply list_elem_of_lookup_2|].
    split; [by rewrite cell_country_row, decide_True|]. split.
    + unfold same_counts. rewrite !cell_country_row. simpl.
      rewrite H1, H2, H3, H4, H5. tauto.
    + apply Forall_forall. intros x0 [q Hq]%list_elem_of_lookup Hdx.
      destruct (Himg q x0 Hq) as [x Hx].
      destruct (Hrow q x0 x Hq Hx) as (Hux & Hdx' & _).
      rewrite <- Hux, <- Hu. apply (proj1 (Forall_forall _ _) Hmax).
      * by eapply list_elem_of_lookup_2.
      * simpl. by rewrite Hdx', Hd, Hdx.
Qed.

Lemma Ok_inj {A : Type} (a b : A) : Ok a = Ok b -> a = b.
Proof. by intros [= ->]. Qed.

(** *** Timestamps with leading zeros, in string order *)

Lemma N_of_digit_char v : 0 <= v <= 9 -> N_of_ascii (digit_char v) = Z.to_N (48 + v).
Proof.
  intros Hv. unfold digit_char. apply N_ascii_embedding. lia.
Qed.

Lemma compare_digit_char u v :
  0 <= u <= 9 -> 0 <= v <= 9 -> Ascii.compare (digit_char u) (digit_char v) = (u ?= v).
Proof.
  intros Hu Hv. unfold Ascii.compare. rewrite !N_of_digit_char by done.
  rewrite Z2N.inj_compare by lia. apply Z.add_compare_mono_l.
Qed.

Lemma compare_same c s1 s2 :
  String.compare (String c s1) (String c s2) = String.compare s1 s2.
Proof.
  cbn [String.compare]. unfold Ascii.compare. by rewrite N.compare_refl.
Qed.

Lemma compare_two_digits a b s1 s2 :
  0 <= a <= 99 -> 0 <= b <= 99 ->
  String.compare (String (digit_char (a / 10)) (String (digit_char (a mod 10)) s1))
                 (String (digit_char (b / 10)) (String (digit_char (b mod 10)) s2))
  = match a ?= b with Eq => String.compare s1 s2 | ne => ne end.
Proof.
  intros Ha Hb.
  pose proof (Z.div_mod a 10 ltac:(lia)). pose proof (Z.mod_pos_bound a 10 ltac:(lia)).
  pose proof (Z.div_mod b 10 ltac:(lia)). pose proof (Z.mod_pos_bound b 10 ltac:(lia)).
  cbn [String.compare]. rewrite !compare_digit_char by lia.
  destruct (Z.compare_spec (a / 10) (b / 10)), (Z.compare_spec (a mod 10) (b mod 10)),
    (Z.compare_spec a b); try reflexivity; exfalso; lia.
Qed.

Lemma compare_four_digits a b s1 s2 :
  0 <= a <= 9999 -> 0 <= b <= 9999 ->
  String.compare
    (String (digit_char (a / 1000)) (String (digit_char (a / 100 mod 10))
       (String (digit_char (a / 10 mod 10)) (String (digit_char (a mod 10)) s1))))
    (String (digit_char (b / 1000)) (String (digit_char (b / 100 mod 10))
       (String (digit_char (b / 10 mod 10)) (String (digit_char (b mod 10)) s2))))
  = match a ?= b with Eq => String.compare s1 s2 | ne => ne end.
Proof.
  intros Ha Hb.
  assert (Hd : forall n, 0 <= n <= 9999 ->
             n = 1000 * (n / 1000) + 100 * (n / 100 mod 10) + 10 * (n / 10 mod 10) + n mod 10
             /\ 0 <= n / 1000 <= 9 /\ 0 <= n / 100 mod 10 <= 9
             /\ 0 <= n / 10 mod 10 <= 9 /\ 0 <= n mod 10 <= 9).
  { intros n Hn. 
    pose proof (Z.div_mod n 10 ltac:(lia)). pose proof (Z.mod_pos_bound n 10 ltac:(lia)).
    pose proof (Z.div_mod (n / 10) 10 ltac:(lia)).
    pose proof (Z.mod_pos_bound (n / 10) 10 ltac:(lia)).
    pose proof (Z.div_mod (n / 100) 10 ltac:(lia)).
    pose proof (Z.mod_pos_bound (n / 100) 10 ltac:(lia)).
    assert (n / 10 / 10 = n / 100) by (rewrite Z.div_div by lia; reflexivity).
    assert (n / 100 / 10 = n / 1000) by (rewrite Z.div_div by lia; reflexivity).
    lia. }
  destruct (Hd a Ha) as (Ea & ? & ? & ? & ?). destruct (Hd b Hb) as (Eb & ? & ? & ? & ?).
  clear Hd. cbn [String.compare]. rewrite !compare_digit_char by lia.
  destruct (Z.compare_spec (a / 1000) (b / 1000)),
    (Z.compare_spec (a / 100 mod 10) (b / 100 mod 10)),
    (Z.compare_spec (a / 10 mod 10) (b / 10 mod 10)),
    (Z.compare_spec (a mod 10) (b mod 10)),
    (Z.compare_spec a b); try reflexivity; exfalso; lia.
Qed.

Lemma lex_leb_cons x y a b :
  lex_leb (x :: a) (y :: b)
  = match x ?= y with Lt => true | Eq => lex_leb a b | Gt => false end.
Proof.
  cbn [lex_leb]. destruct (Z.compare_spec x y) as [->| |].
  - by rewrite Z.ltb_irrefl, Z.eqb_refl.
  - by rewrite (proj2 (Z.ltb_lt x y)).
  - rewrite (proj2 (Z.ltb_ge x y)) by lia. rewrite (proj2 (Z.eqb_neq x y)) by lia. done.
Qed.

(** On timestamps written with leading zeros the order of the texts is the
    order of the date-times. *)
Lemma strftime_YmdHMS_leb t1 t2 :
  valid_datetime t1 = true -> valid_datetime t2 = true ->
  String.leb (strftime_YmdHMS t1) (strftime_YmdHMS t2) = datetime_leb t1 t2.
Proof.
  intros (? & ? & ? & ? & ? & ?)%valid_datetime_bounds
         (? & ? & ? & ? & ? & ?)%valid_datetime_bounds.
  unfold String.leb, datetime_leb, strftime_YmdHMS, text_dash, four_digits, two_digits.
  cbn [app string_of_list_ascii].
  rewrite compare_four_digits, compare_same by lia.
  rewrite compare_two_digits, compare_same by lia.
  rewrite compare_two_digits, compare_same by lia.
  rewrite compare_two_digits, compare_same by lia.
  rewrite compare_two_digits, compare_same by lia.
  rewrite compare_two_digits by lia.
  rewrite !lex_leb_cons. cbn [String.compare lex_leb].
  repeat (match goal with |- context [?x ?= ?y] => destruct (x ?= y) end; try reflexivity).
Qed.

Lemma padded_has_timestamp to_datetime r :
  padded_timestamp to_datetime r -> has_timestamp to_datetime r.
Proof.
  intros (t & _ & Htext & Ht). split; [by eexists|by exists t].
Qed.

Lemma padded_timestamp_leb to_datetime r1 r2 :
  padded_timestamp to_datetime r1 -> padded_timestamp to_datetime r2 ->
  cell_leb (timestamp_of to_datetime r1) (timestamp_of to_datetime r2)
  = cell_leb (cell r1 "updateTime") (cell r2 "updateTime").
Proof.
  intros (t1 & V1 & E1 & T1) (t2 & V2 & E2 & T2).
  unfold timestamp_of. rewrite T1, T2, E1, E2. cbn [cell_leb].
  symmetry. by apply strftime_YmdHMS_leb.
Qed.

(** C2, as the code has it: on an input whose timestamps are written with
    their leading zeros, in which rows share a date but no two rows share a
    timestamp, [processDxyCovid19Country] returns exactly one row for each
    date, and it carries the counts of the input row with the latest
    timestamp of that date. *)
Theorem processDxyCovid19Country_latest_per_date
    (to_datetime : string -> Cell -> result Cell) (group_keys : bool) (df : DataFrame) :
  Forall (fun l => l ∈ columns df) country_colsToKeep ->
  Forall (padded_timestamp to_datetime) (rows df) ->
  NoDup ((fun r => cell r "updateTime") <$> rows df) ->
  (exists i j r1 r2, i <> j /\ rows df !! i = Some r1 /\ rows df !! j = Some r2
                     /\ date_of to_datetime r1 = date_of to_datetime r2) ->
  exists out,
    processDxyCovid19Country to_datetime group_keys df = Ok out
    /\ columns out = "date" :: country_counts
    /\ latest_per_date to_datetime df out.
Proof.
  intros Hcols Hpad Hnd Hshare.
  destruct (processDxyCovid19Country_greatest_text to_datetime group_keys df)
    as (out & E & HC & Hnd' & Hall & Hmax); [done| |done|done|].
  { eapply Forall_impl; [exact Hpad|]. apply padded_has_timestamp. }
  exists out. split; [exact E|]. split; [exact HC|].
  split; [exact Hnd'|]. split; [exact Hall|].
  eapply Forall_impl; [exact Hmax|]. cbv beta.
  intros r' (r0 & Hr0 & Hd & Hc & Hle). exists r0.
  split; [done|]. split; [done|]. split; [done|].
  apply Forall_forall. intros r2 Hr2 Hsame.
  rewrite padded_timestamp_leb by (by apply (proj1 (Forall_forall _ _) Hpad)).
  by apply (proj1 (Forall_forall _ _) Hle).
Qed.

Lemma processDxyCovid19Country_latest_per_date_witness :
  exists out,
    processDxyCovid19Country to_datetime_model false dxy_overall = Ok out
    /\ (fun r' => (cell r' "date", cell r' "confirmed")) <$> rows out
       = [(Date (mkDate 2020 2 28), num 5); (Date (mkDate 2020 3 1), num 15)]
    /\ latest_per_date to_datetime_model dxy_overall out.
Proof.
  destruct (processDxyCovid19Country_latest_per_date to_datetime_model false dxy_overall)
    as (out & Hout & _ & Hlatest).
  - not_in_list.
  - apply Forall_cons_2;
      [exists (mkDateTime (mkDate 2020 3 1) 8 0 0); repeat split; vm_compute; reflexivity|].
    apply Forall_cons_2;
      [exists (mkDateTime (mkDate 2020 3 1) 20 0 0); repeat split; vm_compute; reflexivity|].
    apply Forall_cons_2;
      [exists (mkDateTime (mkDate 2020 2 28) 20 0 0); repeat split; vm_compute; reflexivity|].
    apply Forall_nil_2.
  - not_in_list.
  - exists 0%nat, 1%nat. do 2 eexists. split; [lia|].
    split; [reflexivity|]. split; [reflexivity|]. vm_compute. reflexivity.
  - assert (E : processDxyCovid19Country to_datetime_model false dxy_overall
                = Ok (get_ok (processDxyCovid19Country to_datetime_model false dxy_overall)))
      by (vm_compute; reflexivity).
    rewrite E in Hout. apply Ok_inj in Hout. subst out.
    eexists. split; [exact E|]. split; [vm_compute; reflexivity|exact Hlatest].
Defined.

(** C2 as stated in the specification fails: the maximum is taken on the
    text of [updateTime].  Of two snapshots of 1 March 2020, at 8:00:00 and
    at 20:00:00, the first written without the leading zero of its hour, the
    row that is kept is the one of 8:00:00, whose text is the greater one;
    its counts are not those of the latest timestamp. *)
Lemma processDxyCovid19Country_keeps_an_earlier_row :
  timestamp_of to_datetime_model <$> rows dxy_unpadded
  = [DateTime (mkDateTime (mkDate 2020 3 1) 8 0 0);
     DateTime (mkDateTime (mkDate 2020 3 1) 20 0 0)]
  /\ date_of to_datetime_model <$> rows dxy_unpadded
     = [Date (mkDate 2020 3 1); Date (mkDate 2020 3 1)]
  /\ (fun r => cell r "confirmedCount") <$> rows dxy_unpadded = [num 10; num 15]
  /\ forall group_keys : bool,
       exists out,
         processDxyCovid19Country to_datetime_model group_keys dxy_unpadded = Ok out
         /\ (fun r' => (cell r' "date", cell r' "confirmed")) <$> rows out
            = [(Date (mkDate 2020 3 1), num 10)]
         /\ ~ latest_per_date to_datetime_model dxy_unpadded out.
Proof.
  split; [vm_compute; reflexivity|]. split; [vm_compute; reflexivity|].
  split; [vm_compute; reflexivity|].
  intros group_keys.
  exists (get_ok (processDxyCovid19Country to_datetime_model group_keys dxy_unpadded)).
  split; [by destruct group_keys; vm_compute|].
  split; [by destruct group_keys; vm_compute|].
  intros (_ & _ & HF).
  assert (Hrow : exists r', rows (get_ok (processDxyCovid19Country to_datetime_model
                                           group_keys dxy_unpadded)) = [r']
                            /\ cell r' "confirmed" = num 10).
  { destruct group_keys; eexists; split; vm_compute; reflexivity. }
  destruct Hrow as (r' & Er & Hc). rewrite Er in HF.
  apply Forall_inv in HF as (r0 & Hin & _ & (Hconf & _) & Hmax).
  rewrite Hc in Hconf.
  assert (Hlate : forall r2, r2 ∈ rows dxy_unpadded ->
            date_of to_datetime_model r2 = date_of to_datetime_model r0 ->
            cell_leb (timestamp_of to_datetime_model r2)
                     (timestamp_of to_datetime_model r0) = true)
    by (intros r2 H2; by apply (proj1 (Forall_forall _ _) Hmax)).
  clear Hmax Er Hc r'.
  unfold dxy_unpadded in Hin. cbn [rows] in Hin.
  apply elem_of_cons in Hin as [->|Hin].
  - specialize (Hlate (dxy_overall_row "2020-03-01 20:00:00" 15)).
    assert (Hf : cell_leb (timestamp_of to_datetime_model (dxy_overall_row "2020-03-01 20:00:00" 15))
                          (timestamp_of to_datetime_model (dxy_overall_row "2020-03-01 8:00:00" 10))
                 = false) by (vm_compute; reflexivity).
    rewrite Hlate in Hf; [discriminate| |vm_compute; reflexivity].
    unfold dxy_unpadded. cbn [rows]. apply elem_of_cons. right. apply elem_of_cons. by left.
  - apply elem_of_cons in Hin as [->|Hin]; [|by apply elem_of_nil in Hin].
    assert (Hf : cell (dxy_overall_row "2020-03-01 20:00:00" 15) "confirmedCount" = num 15)
      by (vm_compute; reflexivity).
    rewrite Hf in Hconf. vm_compute in Hconf. discriminate.
Qed.

(** ** Regional aggregate counts, province level *)

Lemma cell_max_NaN_r c : cell_max c NaN = c.
Proof. by destruct c. Qed.

Lemma running_max_alone c : running_max c [] = c.
Proof. unfold running_max. destruct c; done. Qed.

Lemma cell_foldr_insert_same (r : Row) (cols : list string) (l : string) :
  cell (foldr (fun c acc => <[c := cell r c]> acc) r cols) l = cell r l.
Proof.
  induction cols as [|c cols IH]; simpl; [done|].
  rewrite cell_insert. case_decide; by subst.
Qed.

(** Over groups of one row the running maximum changes no cell: this is
    the case of the last step of [processDxyCovid19Region], whose groups
    are keyed by the date as well. *)
Lemma cummax_rows_distinct_keys keys cols seen rs :
  Forall (fun r => has_nan (key_of keys r) = false) rs ->
  NoDup (key_of keys <$> (seen ++ rs)) ->
  Forall2 (fun r r' => forall l, cell r' l = cell r l) rs (cummax_rows keys cols seen rs).
Proof.
  intros Hnan. revert seen. induction Hnan as [|r rs Hr _ IH]; intros seen Hnd; simpl.
  - constructor.
  - constructor.
    + intros l. rewrite Hr.
      assert (group_rows keys (key_of keys r) seen = []) as ->.
      { unfold group_rows. apply (filter_none (key_of keys)).
        rewrite fmap_app, fmap_cons in Hnd. apply NoDup_app in Hnd as (_ & Hd & _).
        intros Hin. apply (Hd _ Hin). by left. }
      simpl. erewrite (foldr_ext _ (fun c acc => <[c := cell r c]> acc)); try done.
      * apply cell_foldr_insert_same.
      * intros c acc. by rewrite running_max_alone.
    + apply IH. by rewrite <- (assoc_L (++)).
Qed.

(** The province-level transform on the three days of the example. *)
Lemma region_example (observed : bool) :
  processDxyCovid19Region to_datetime_model observed dxy_area
  = Ok (get_ok (processDxyCovid19Region to_datetime_model observed dxy_area)).
Proof. destruct observed; vm_compute; reflexivity. Qed.

Lemma region_example_rows (observed : bool) :
  (fun r => (cell r "province", cell r "date", cell r "province_confirmedCount"))
    <$> rows (get_ok (processDxyCovid19Region to_datetime_model observed dxy_area))
  = [(Str "Hubei", Date (mkDate 2020 3 1), num 100);
     (Str "Hubei", Date (mkDate 2020 3 2), num 80);
     (Str "Hubei", Date (mkDate 2020 3 3), num 120)].
Proof. destruct observed; vm_compute; reflexivity. Qed.

Lemma not_sorted_example : ~ Sorted cell_le [num 100; num 80; num 120].
Proof.
  intros S. inversion S as [|? ? _ H]. inversion H as [|? ? Hle].
  vm_compute in Hle. exact Hle.
Qed.

Lemma region_example_counts (observed : bool) :
  (fun r => cell r "province_confirmedCount")
    <$> rows (get_ok (processDxyCovid19Region to_datetime_model observed dxy_area))
  = [num 100; num 80; num 120].
Proof. destruct observed; vm_compute; reflexivity. Qed.

(** C1 fails on the code at this input: for the province that reports 100,
    80 and 120 on three consecutive days [processDxyCovid19Region] returns
    the three rows with 100, 80 and 120, for either default of [observed];
    the count of the second day is below that of the first, so the series
    of the province is not non-decreasing in date order. *)
Theorem processDxyCovid19Region_keeps_decrease (observed : bool) :
  exists out,
    processDxyCovid19Region to_datetime_model observed dxy_area = Ok out
    /\ (fun r => (cell r "province", cell r "date", cell r "province_confirmedCount"))
         <$> rows out
       = [(Str "Hubei", Date (mkDate 2020 3 1), num 100);
          (Str "Hubei", Date (mkDate 2020 3 2), num 80);
          (Str "Hubei", Date (mkDate 2020 3 3), num 120)]
    /\ ~ Sorted cell_le ((fun r => cell r "province_confirmedCount") <$> rows out).
Proof.
  exists (get_ok (processDxyCovid19Region to_datetime_model observed dxy_area)).
  split; [apply region_example|]. split; [apply region_example_rows|].
  rewrite region_example_counts. apply not_sorted_example.
Qed.

(** ** Storage and the processing run *)

Lemma getFilename_NyTimes :
  getFilename "NyTimes"
    "https://raw.githubusercontent.com/nytimes/covid-19-data/master/us-counties.csv" "County"
  = Ok "nytimes-County-us-counties.csv".
Proof. vm_compute. reflexivity. Qed.

Ltac io :=
  unfold io_bind, lift, download_as_string, upload_from_string, print, try_except, io_ret;
  cbn [bucket stdout fst snd].

Section RunFacts.
Variable to_datetime : string -> Cell -> result Cell.
Variable group_keys : bool.
Variable observed : bool.
Variable read_csv : string -> result DataFrame.
Variable to_csv : DataFrame -> string.
Variable str_exn : exn -> string.
Variable today : string.
Variable days : list string.

Abbreviation getStagingBlob := (getStagingBlob_andArchiveCurrentTarget read_csv str_exn today).
Abbreviation run_key := (process_key to_datetime group_keys observed read_csv to_csv str_exn today).
Abbreviation run_source := (process to_datetime group_keys observed read_csv to_csv str_exn today days).

(** The staging object is missing: the read raises and nothing is written. *)
Lemma getStagingBlob_staging_missing staging target archive filename w :
  is_Some (csv_stem (chars filename)) ->
  bucket w !! (staging +:+ filename) = None ->
  getStagingBlob staging target archive filename true true w
  = (Raise (NotFound (staging +:+ filename)), w).
Proof.
  intros [stem Hstem] Hmiss. unfold getStagingBlob_andArchiveCurrentTarget.
  rewrite Hstem. io. by rewrite Hmiss.
Qed.

(** No target yet: the archival is skipped and logged. *)
Lemma getStagingBlob_no_target staging target archive filename stem raw df w :
  csv_stem (chars filename) = Some stem ->
  bucket w !! (staging +:+ filename) = Some raw -> read_csv raw = Ok df ->
  bucket w !! (target +:+ filename) = None ->
  getStagingBlob staging target archive filename true true w
  = (Ok (df, target +:+ filename),
     mkWorld (bucket w)
             (stdout w ++ ["Retrieved file from staging: " +:+ filename]
                       ++ [skipped_line filename]
                       ++ ["ERROR: " +:+ str_exn (NotFound (target +:+ filename))])).
Proof.
  intros Hstem Hraw Hdf Hmiss. unfold getStagingBlob_andArchiveCurrentTarget.
  rewrite Hstem. io. rewrite Hraw. cbn [bucket stdout]. rewrite Hdf.
  cbn [bucket stdout]. rewrite Hmiss. cbn [bucket stdout].
  by rewrite <- !(assoc_L (++)).
Qed.

(** A target exists: it is copied to the archive key. *)
Lemma getStagingBlob_archives staging target archive filename stem raw df old w :
  csv_stem (chars filename) = Some stem ->
  bucket w !! (staging +:+ filename) = Some raw -> read_csv raw = Ok df ->
  bucket w !! (target +:+ filename) = Some old ->
  getStagingBlob staging target archive filename true true w
  = (Ok (df, target +:+ filename),
     mkWorld (<[archive_key archive (string_of_list_ascii stem) today := old]> (bucket w))
             (stdout w ++ ["Retrieved file from staging: " +:+ filename]
                       ++ ["Target file archived: " +:+ filename +:+ " > "
                           +:+ (string_of_list_ascii stem +:+ "-" +:+ today +:+ ".csv")])).
Proof.
  intros Hstem Hraw Hdf Hold. unfold getStagingBlob_andArchiveCurrentTarget.
  rewrite Hstem. io. rewrite Hraw. cbn [bucket stdout]. rewrite Hdf.
  cbn [bucket stdout]. rewrite Hold. cbn [bucket stdout].
  by rewrite <- !(assoc_L (++)).
Qed.

(** One day of the JHU series without a staging object: the day is
    skipped, the frame is unchanged and nothing is written. *)
Lemma append_day_missing staging df day w :
  bucket w !! (staging +:+ lower "JHU" +:+ "-" +:+ day +:+ ".csv") = None ->
  exists lines,
    append_day read_csv str_exn staging "JHU" df day w
    = (Ok df, mkWorld (bucket w) (stdout w ++ lines))
    /\ ("Empty file: " +:+ day) ∈ lines.
Proof.
  intros Hmiss. unfold append_day. io. rewrite Hmiss. cbn [bucket stdout String.length Nat.eqb].
  eexists. split.
  - rewrite <- !(assoc_L (++)). reflexivity.
  - rewrite !elem_of_app, !list_elem_of_singleton. tauto.
Qed.

(** C4: the publisher step for one dataset.  Without a previous target the
    archival is skipped with a log line and only the target key is
    written; with a previous target the archive key holds, after the
    publish, what the target key held before.  In both cases the new
    canonical CSV is at the target key. *)
Theorem publisher_archives_then_publishes
    (source staging target archive key url filename : string) (stem : list ascii)
    (raw : string) (df df' : DataFrame) (f : DataFrame -> result DataFrame) (w : World) :
  getFilename source url key = Ok filename ->
  csv_stem (chars filename) = Some stem ->
  bucket w !! (staging +:+ filename) = Some raw ->
  read_csv raw = Ok df ->
  transform_of to_datetime group_keys observed source key = Ok f ->
  f df = Ok df' ->
  archive_key archive (string_of_list_ascii stem) today <> target +:+ filename ->
  let r := run_key source staging target archive (key, url) w in
  r.1 = Ok tt
  /\ bucket r.2 !! (target +:+ filename) = Some (to_csv df')
  /\ match bucket w !! (target +:+ filename) with
     | None =>
         bucket r.2 = <[target +:+ filename := to_csv df']> (bucket w)
         /\ skipped_line filename ∈ stdout r.2
     | Some old =>
         bucket r.2 !! archive_key archive (string_of_list_ascii stem) today = Some old
     end.
Proof.
  intros Hname Hstem Hraw Hdf Hf Hdf' Hne r.
  assert (E : forall w1 : World,
             getStagingBlob staging target archive filename true true w
             = (Ok (df, target +:+ filename), w1) ->
             r = (Ok tt,
                  mkWorld (<[target +:+ filename := to_csv df']> (bucket w1))
                          ((stdout w1 ++ ["Finish processing data: " +:+ filename])
                           ++ ["Pushed file to Target: " +:+ filename]))).
  { intros w1 Hw1. unfold r, process_key. cbn [fst snd].
    unfold io_bind at 1. unfold lift at 1. rewrite Hname.
    unfold io_bind at 1. rewrite Hw1. cbn [fst snd]. io. by rewrite Hf, Hdf'. }
  destruct (bucket w !! (target +:+ filename)) as [old|] eqn:Ht.
  - rewrite (E _ (getStagingBlob_archives _ _ _ _ _ _ _ _ _ Hstem Hraw Hdf Ht)).
    cbn [bucket stdout fst snd].
    split; [done|]. split; [by rewrite lookup_insert_eq|].
    rewrite lookup_insert_ne by done. by rewrite lookup_insert_eq.
  - rewrite (E _ (getStagingBlob_no_target _ _ _ _ _ _ _ _ Hstem Hraw Hdf Ht)).
    cbn [bucket stdout fst snd].
    split; [done|]. split; [by rewrite lookup_insert_eq|]. split; [done|].
    rewrite !elem_of_app, !list_elem_of_singleton. tauto.
Qed.

(** C3 fails on the code at this input: with no staging object for the
    county-level dataset, processing that source raises [NotFound], and so
    does the run over all sources; nothing is published. *)
Theorem missing_staging_aborts_the_run (staging target archive : string) :
  let key := staging +:+ "nytimes-County-us-counties.csv" in
  run_source "NyTimes" staging target archive (mkWorld ∅ [])
  = (Raise (NotFound key), mkWorld ∅ ["Processing NyTimes"])
  /\ processData to_datetime group_keys observed read_csv to_csv str_exn today days
       staging target archive (mkWorld ∅ [])
     = (Raise (NotFound key), mkWorld ∅ ["Processing NyTimes"]).
Proof.
  assert (E : run_source "NyTimes" staging target archive (mkWorld ∅ [])
              = (Raise (NotFound (staging +:+ "nytimes-County-us-counties.csv")),
                 mkWorld ∅ ["Processing NyTimes"])).
  { unfold process. cbn [String.eqb Ascii.eqb Bool.eqb].
    unfold io_bind at 1. unfold print at 1. cbn [bucket stdout app].
    change (assoc "NyTimes" sources)
      with (Some [("County", "https://raw.githubusercontent.com/nytimes/covid-19-data/master/us-counties.csv")]).
    cbn [for_each]. unfold io_bind at 1. unfold process_key. cbn [fst snd].
    unfold io_bind at 1. unfold lift at 1. rewrite getFilename_NyTimes.
    unfold io_bind at 1.
    rewrite getStagingBlob_staging_missing; [done| |apply lookup_empty].
    vm_compute. eauto. }
  split; [exact E|].
  unfold processData. change sources with (("NyTimes", [("County", "https://raw.githubusercontent.com/nytimes/covid-19-data/master/us-counties.csv")]) :: tail sources).
  cbn [for_each fst]. unfold io_bind at 1. by rewrite E.
Qed.

End RunFacts.

Lemma publisher_archives_then_publishes_witness :
  let run w :=
    process_key to_datetime_model false false read_header write_header show_exn "20200401"
      "NyTimes" "staging/" "target/" "archive/"
      ("County", "https://raw.githubusercontent.com/nytimes/covid-19-data/master/us-counties.csv")
      w in
  ((run (staged_world [("target/" +:+ county_file, "date,county,cases")])).1 = Ok tt
   /\ bucket (run (staged_world [("target/" +:+ county_file, "date,county,cases")])).2
      !! "archive/nytimes-County-us-counties-20200401.csv" = Some "date,county,cases"
   /\ bucket (run (staged_world [("target/" +:+ county_file, "date,county,cases")])).2
      !! ("target/" +:+ county_file) = Some "date,county,state,fips,cases,deaths")
  /\ ((run (staged_world [])).1 = Ok tt
      /\ bucket (run (staged_world [])).2
         !! "archive/nytimes-County-us-counties-20200401.csv" = None
      /\ bucket (run (staged_world [])).2
         !! ("target/" +:+ county_file) = Some "date,county,state,fips,cases,deaths").
Proof.
  intros run. split.
  - destruct (publisher_archives_then_publishes to_datetime_model false false
                read_header write_header show_exn "20200401"
                "NyTimes" "staging/" "target/" "archive/" "County"
                "https://raw.githubusercontent.com/nytimes/covid-19-data/master/us-counties.csv"
                county_file (chars "nytimes-County-us-counties")
                "date,county,state,fips,cases,deaths"
                (mkFrame ["date,county,state,fips,cases,deaths"] [] ∅)
                (mkFrame ["date,county,state,fips,cases,deaths"] [] ∅)
                (fun df => Ok (processNyTimesCounty df))
                (staged_world [("target/" +:+ county_file, "date,county,cases")]))
      as (H1 & H2 & H3); try (vm_compute; reflexivity).
    + vm_compute. discriminate.
    + split; [exact H1|]. split; [exact H3|exact H2].
  - destruct (publisher_archives_then_publishes to_datetime_model false false
                read_header write_header show_exn "20200401"
                "NyTimes" "staging/" "target/" "archive/" "County"
                "https://raw.githubusercontent.com/nytimes/covid-19-data/master/us-counties.csv"
                county_file (chars "nytimes-County-us-counties")
                "date,county,state,fips,cases,deaths"
                (mkFrame ["date,county,state,fips,cases,deaths"] [] ∅)
                (mkFrame ["date,county,state,fips,cases,deaths"] [] ∅)
                (fun df => Ok (processNyTimesCounty df))
                (staged_world []))
      as (H1 & H2 & H3); try (vm_compute; reflexivity).
    + vm_compute. discriminate.
    + split; [exact H1|]. split; [|exact H2].
      change (bucket (staged_world []) !! ("target/" +:+ county_file)) with (@None string) in H3.
      destruct H3 as [H3 _]. unfold run. rewrite H3. vm_compute. reflexivity.
Defined.

(** ** The last-update parser on examples *)

Lemma convertLastUpdate_parses_witness :
  convertLastUpdate (last_update "1/22/20 17:00")
  = Ok (Some (mkDateTime (mkDate 2020 1 22) 17 0 0))
  /\ convertLastUpdate (last_update "2020-03-22 23:45:00")
     = Ok (Some (mkDateTime (mkDate 2020 3 22) 23 45 0))
  /\ convertLastUpdate (last_update "yesterday") = Ok None
  /\ ((exists t, convertLastUpdate (last_update "2/30/20 10:00") = Ok (Some t)
                 /\ valid_datetime t = true)
      \/ convertLastUpdate (last_update "2/30/20 10:00") = Raise ValueError).
Proof.
  assert (Hrow : forall s, has_text (last_update s) "LastUpdate" s).
  { intros s. split; [left|]. apply lookup_singleton_eq. }
  split; [|split; [|split]].
  - apply (proj1 (convertLastUpdate_parses _ "1/22/20 17:00" (Hrow _))); [vm_compute; reflexivity|].
    assert (E : chars "1/22/20 17:00"
                = text_slash (chars "1") (chars "22") (two_digits 20) (chars "17") (chars "00"))
      by (vm_compute; reflexivity).
    rewrite E.
    apply (written_mdy2 (mkDateTime (mkDate 2020 1 22) 17 0 0) 20
             (chars "1") (chars "22") (chars "17") (chars "00"));
      try (vm_compute; done); first [ apply writes_padded | apply writes_bare; simpl; lia ].
  - apply (proj1 (convertLastUpdate_parses _ "2020-03-22 23:45:00" (Hrow _))); [vm_compute; reflexivity|].
    assert (E : chars "2020-03-22 23:45:00"
                = text_dash " " (four_digits 2020) (chars "03") (chars "22") (chars "23")
                            (chars "45") (chars "00")) by (vm_compute; reflexivity).
    rewrite E.
    apply (written_iso (mkDateTime (mkDate 2020 3 22) 23 45 0)
             (chars "03") (chars "22") (chars "23") (chars "45") (chars "00"));
      apply writes_padded.
  - apply (proj1 (proj2 (convertLastUpdate_parses _ "yesterday" (Hrow _)))).
    vm_compute. reflexivity.
  - apply (proj2 (proj2 (convertLastUpdate_parses _ "2/30/20 10:00" (Hrow _)))).
    vm_compute. reflexivity.
Defined.

(** C5: [convertLastUpdate] raises on a text that has the shape of a
    date-time and writes none.  A text that matches none of the four
    patterns gives [None], but [2/30/20 10:00] and [13/45/20 25:61] match
    the first pattern, and the [ValueError] of [strptime] is not caught:
    the parser returns neither a date-time nor [None], and
    [processJHUProvinceState] fails on a frame that holds one such row. *)
Theorem convertLastUpdate_raises_on_a_shaped_text :
  convertLastUpdate (last_update "yesterday") = Ok None
  /\ re_match reg_mmddyyHHMM "2/30/20 10:00" = true
  /\ convertLastUpdate (last_update "2/30/20 10:00") = Raise ValueError
  /\ re_match reg_mmddyyHHMM "13/45/20 25:61" = true
  /\ convertLastUpdate (last_update "13/45/20 25:61") = Raise ValueError
  /\ ~ (forall s, exists t, convertLastUpdate (last_update s) = Ok t)
  /\ processJHUProvinceState jhu_impossible_date = Raise ValueError.
Proof.
  assert (E : convertLastUpdate (last_update "2/30/20 10:00") = Raise ValueError)
    by (vm_compute; reflexivity).
  split; [vm_compute; reflexivity|].
  split; [vm_compute; reflexivity|]. split; [exact E|].
  split; [vm_compute; reflexivity|]. split; [vm_compute; reflexivity|].
  split; [|vm_compute; reflexivity].
  intros H. destruct (H "2/30/20 10:00") as [t Ht].
  rewrite E in Ht. discriminate.
Qed.

(** * Part VI: more of what the program does *)

(** ** File names *)

Lemma chars_app (a b : string) : chars (a +:+ b) = chars a ++ chars b.
Proof. unfold chars. induction a as [|c a IH]; simpl; [done|]. by rewrite IH. Qed.

Lemma string_of_chars (s : string) : string_of_list_ascii (chars s) = s.
Proof. apply string_of_list_ascii_of_string. Qed.

Lemma csv_stem_dot_csv (name : list ascii) :
  no_newline name -> csv_stem (name ++ chars ".csv") = Some name.
Proof.
  induction 1 as [|c name Hc _ IH]; [vm_compute; reflexivity|].
  change ((c :: name) ++ chars ".csv") with (c :: (name ++ chars ".csv")).
  cbn [csv_stem]. by rewrite Hc, IH.
Qed.

Lemma csv_basename_no_slash (s : list ascii) :
  Forall (fun c => c <> "/"%char) s -> csv_basename s = None.
Proof.
  induction 1 as [|c s Hc _ IH]; [done|]. cbn [csv_basename]. rewrite IH.
  destruct (is_newline c); (destruct (Ascii.eqb_spec c "/"); [done|reflexivity]).
Qed.

Lemma csv_stem_no_dot (s : list ascii) :
  Forall (fun c => c <> "."%char) s -> csv_stem s = None.
Proof.
  induction 1 as [|c s Hc _ IH]; [done|]. cbn [csv_stem]. rewrite IH.
  assert (at_dot_csv (c :: s) = false) as ->.
  { destruct s as [|? [|? [|? ?]]]; try reflexivity. cbn [at_dot_csv].
    destruct (Ascii.eqb_spec c "."); [done|reflexivity]. }
  by destruct (is_newline c).
Qed.

Lemma csv_basename_no_dot (s : list ascii) :
  Forall (fun c => c <> "."%char) s -> csv_basename s = None.
Proof.
  induction 1 as [|c s Hc Hs IH]; [done|]. cbn [csv_basename]. rewrite IH.
  rewrite (csv_stem_no_dot s Hs).
  destruct (is_newline c); by destruct (Ascii.eqb c "/").
Qed.

Lemma csv_basename_url (prefix name : list ascii) :
  no_newline prefix -> no_newline name -> Forall (fun c => c <> "/"%char) name ->
  csv_basename (prefix ++ "/"%char :: name ++ chars ".csv") = Some (name ++ chars ".csv").
Proof.
  intros Hp Hn Hs. induction Hp as [|c p Hc _ IH].
  - cbn [app csv_basename]. rewrite csv_basename_no_slash.
    + change (is_newline "/") with false. cbn [Ascii.eqb Bool.eqb andb].
      rewrite (csv_stem_dot_csv name Hn). simpl.
      by rewrite drop_app_length.
    + apply Forall_app. split; [exact Hs|]. vm_compute.
      repeat constructor; discriminate.
  - change ((c :: p) ++ "/"%char :: name ++ chars ".csv")
      with (c :: (p ++ "/"%char :: name ++ chars ".csv")).
    cbn [csv_basename]. by rewrite Hc, IH.
Qed.

(** X1: [getFilename] on a URL that ends in [/name.csv]: the lower-cased source
    key, the dataset key and the file name of the URL, joined by dashes. *)
Theorem getFilename_of_csv_url (key pre name desc : string) :
  no_newline (chars pre) -> no_newline (chars name) ->
  Forall (fun c => c <> "/"%char) (chars name) ->
  getFilename key (pre +:+ "/" +:+ name +:+ ".csv") desc
  = Ok (lower key +:+ (if String.eqb desc EmptyString then EmptyString else "-" +:+ desc)
        +:+ "-" +:+ name +:+ ".csv").
Proof.
  intros Hp Hn Hs. unfold getFilename.
  rewrite !chars_app. change (chars "/") with ["/"%char]. cbn [app].
  rewrite (csv_basename_url _ _ Hp Hn Hs).
  rewrite <- chars_app, string_of_chars. reflexivity.
Qed.

Lemma getFilename_of_csv_url_witness :
  getFilename "NyTimes"
    ("https://raw.githubusercontent.com/nytimes/covid-19-data/master" +:+ "/"
     +:+ "us-counties" +:+ ".csv") "County"
  = Ok "nytimes-County-us-counties.csv".
Proof.
  apply (getFilename_of_csv_url "NyTimes"
           "https://raw.githubusercontent.com/nytimes/covid-19-data/master"
           "us-counties" "County").
  - vm_compute. repeat constructor.
  - vm_compute. repeat constructor.
  - vm_compute. repeat constructor; discriminate.
Defined.

(** X2: A URL without a slash, or without a dot, has no file name: the match
    fails and [reg.group] raises. *)
Theorem getFilename_without_file (key url desc : string) :
  Forall (fun c => c <> "/"%char) (chars url) \/ Forall (fun c => c <> "."%char) (chars url) ->
  getFilename key url desc = Raise (AttributeError "group").
Proof.
  intros [H|H]; unfold getFilename.
  - by rewrite csv_basename_no_slash.
  - by rewrite csv_basename_no_dot.
Qed.

Lemma getFilename_without_file_witness :
  getFilename "JHU" "01-22-2020" "StartDate" = Raise (AttributeError "group").
Proof.
  apply getFilename_without_file. left. vm_compute. repeat constructor; discriminate.
Defined.

Section StoreFacts.
Variable to_datetime : string -> Cell -> result Cell.
Variable group_keys : bool.
Variable observed : bool.
Variable read_csv : string -> result DataFrame.
Variable to_csv : DataFrame -> string.
Variable str_exn : exn -> string.
Variable today : string.
Variable days : list string.

Abbreviation getStagingBlob := (getStagingBlob_andArchiveCurrentTarget read_csv str_exn today).

(** X3: A file name without [.csv]: the archive name cannot be formed, and the
  call raises before it reads or writes anything. *)
Theorem getStagingBlob_needs_csv_name staging target archive filename getStaging getTarget w :
csv_stem (chars filename) = None ->
getStagingBlob staging target archive filename getStaging getTarget w
= (Raise (AttributeError "group"), w).
Proof.
intros H. unfold getStagingBlob_andArchiveCurrentTarget. by rewrite H.
Qed.

(** X4: The only object [getStagingBlob_andArchiveCurrentTarget] ever writes is
  the archive copy: every other key, the staging and the target key among
  them, holds after the call what it held before, whether the call
  returns or raises. *)
Theorem getStagingBlob_writes_archive_only
  staging target archive filename getStaging getTarget w k :
(forall stem, csv_stem (chars filename) = Some stem ->
              k <> archive_key archive (string_of_list_ascii stem) today) ->
bucket (getStagingBlob staging target archive filename getStaging getTarget w).2 !! k
= bucket w !! k.
Proof.
intros Hk. unfold getStagingBlob_andArchiveCurrentTarget.
destruct (csv_stem (chars filename)) as [stem|] eqn:Hstem; [|reflexivity].
specialize (Hk stem eq_refl). unfold archive_key in Hk.
remember (bucket w !! k) as v eqn:Hv. io.
destruct getStaging, getTarget; io;
  repeat match goal with
         | |- context [bucket w !! ?x] => destruct (bucket w !! x) eqn:?; cbn [bucket stdout fst snd]
         | |- context [read_csv ?x] => destruct (read_csv x) eqn:?; cbn [bucket stdout fst snd]
         end;
  rewrite ?lookup_insert_ne by done; by subst.
Qed.

Lemma length_zero_iff (s : string) : (String.length s =? 0)%nat = true <-> s = EmptyString.
Proof. destruct s; simpl; split; congruence. Qed.

Lemma append_day_bucket staging source df day w :
bucket (append_day read_csv str_exn staging source df day w).2 = bucket w.
Proof.
unfold append_day. io.
destruct (bucket w !! _) as [s|]; cbn [bucket stdout fst snd String.length Nat.eqb];
  [|reflexivity].
destruct (String.length s =? 0)%nat; cbn [bucket stdout fst snd]; [reflexivity|].
destruct (read_csv s); reflexivity.
Qed.

Lemma append_days_bucket staging source df ds w :
bucket (append_days read_csv str_exn staging source df ds w).2 = bucket w.
Proof.
revert df w. induction ds as [|d ds IH]; intros df w; [reflexivity|].
cbn [append_days]. unfold io_bind at 1.
pose proof (append_day_bucket staging source df d w) as Hb.
destruct (append_day read_csv str_exn staging source df d w) as [[df'|e] w'];
  cbn [snd] in *; [|exact Hb].
by rewrite IH.
Qed.

(** X5: The loop over the days reads staging objects and writes none: the
  bucket is the same after it, whether it returns or raises. *)
Theorem append_days_reads_only staging source df ds w :
bucket (append_days read_csv str_exn staging source df ds w).2 = bucket w.
Proof. apply append_days_bucket. Qed.

Lemma append_day_staged staging source df day f w :
staged_day read_csv (bucket w) staging source day f ->
(append_day read_csv str_exn staging source df day w).1
= Ok (match f with Some t => df_append df t | None => df end).
Proof.
unfold staged_day, day_key, append_day. destruct f as [t|].
- intros (s & Hs & Hne & Ht). io. rewrite Hs. cbn [bucket stdout fst snd].
  destruct (String.length s =? 0)%nat eqn:El; [by apply length_zero_iff in El|].
  cbn [bucket stdout fst snd]. by rewrite Ht.
- intros [Hs|Hs]; io; by rewrite Hs.
Qed.

Lemma append_days_staged staging source df ds fs w :
Forall2 (staged_day read_csv (bucket w) staging source) ds fs ->
(append_days read_csv str_exn staging source df ds w).1
= Ok (foldl df_append df (omap id fs)).
Proof.
intros H. revert df w fs H. induction ds as [|d ds IH]; intros df w fs H.
- apply Forall2_nil_inv_l in H as ->. reflexivity.
- apply Forall2_cons_inv_l in H as (f & fs' & Hf & Hfs & ->).
  cbn [append_days]. unfold io_bind at 1.
  pose proof (append_day_staged staging source df d f w Hf) as Hd.
  pose proof (append_day_bucket staging source df d w) as Hb.
  destruct (append_day read_csv str_exn staging source df d w) as [r w'].
  cbn [fst snd] in *. subst r. rewrite (IH _ w' fs') by (by rewrite Hb).
  destruct f; reflexivity.
Qed.

(** X6: The combined frame of the JHU run: the frames of the days whose staging
  object exists and is not empty, appended in the order of the days; a
  day without an object, or with an empty one, is skipped. *)
Theorem append_days_combines staging source df ds fs w :
Forall2 (staged_day read_csv (bucket w) staging source) ds fs ->
(append_days read_csv str_exn staging source df ds w).1
= Ok (foldl df_append df (omap id fs)).
Proof. apply append_days_staged. Qed.

(** X7: A staged object that is not empty and that [read_csv] rejects is not
  skipped: the exception leaves the loop. *)
Theorem append_days_unreadable_day staging source df d ds s e w :
bucket w !! day_key staging source d = Some s ->
s <> EmptyString -> read_csv s = Raise e ->
(append_days read_csv str_exn staging source df (d :: ds) w).1 = Raise e.
Proof.
intros Hs Hne He. cbn [append_days]. unfold io_bind at 1.
assert (E : (append_day read_csv str_exn staging source df d w).1 = Raise e).
{ unfold append_day, day_key in *. io. rewrite Hs. cbn [bucket stdout fst snd].
  destruct (String.length s =? 0)%nat eqn:El; [by apply length_zero_iff in El|].
  cbn [bucket stdout fst snd]. by rewrite He. }
destruct (append_day read_csv str_exn staging source df d w) as [r w'].
cbn [fst] in E. by subst r.
Qed.

Abbreviation run_source := (process to_datetime group_keys observed read_csv to_csv str_exn today days).

Lemma staged_day_insert b staging source day f k v :
day_key staging source day <> k ->
staged_day read_csv b staging source day f ->
staged_day read_csv (<[k := v]> b) staging source day f.
Proof.
intros Hk. unfold staged_day. rewrite lookup_insert_ne by done. done.
Qed.

(** X8: The run of the JHU series.  The frames of the staged days are combined
  and transformed, and the result is published at the target key of
  [jhu-target.csv]; what the target key held before is copied to the
  archive key first; no other key is written, and no staging object named
  [jhu-target.csv] is read. *)
Theorem process_JHU_publishes staging target archive fs df' w :
Forall2 (staged_day read_csv (bucket w) staging "JHU") days fs ->
Forall (fun d => day_key staging "JHU" d <> archive_key archive "jhu-target" today) days ->
processJHUProvinceState (foldl df_append empty_frame (omap id fs)) = Ok df' ->
let r := run_source "JHU" staging target archive w in
r.1 = Ok tt
/\ bucket r.2
   = <[target +:+ "jhu-target.csv" := to_csv df']>
       (match bucket w !! (target +:+ "jhu-target.csv") with
        | Some old => <[archive_key archive "jhu-target" today := old]> (bucket w)
        | None => bucket w
        end).
Proof.
intros Hfs Hkeys Hdf' r.
set (b1 := match bucket w !! (target +:+ "jhu-target.csv") with
           | Some old => <[archive_key archive "jhu-target" today := old]> (bucket w)
           | None => bucket w
           end).
assert (Hfs1 : Forall2 (staged_day read_csv b1 staging "JHU") days fs).
{ subst b1. destruct (bucket w !! _); [|exact Hfs].
  apply Forall2_same_length_lookup. split; [by eapply Forall2_length|].
  intros i d f Hd Hf. apply staged_day_insert.
  - exact (proj1 (Forall_lookup _ _) Hkeys i d Hd).
  - exact (Forall2_lookup_lr _ _ _ _ _ _ Hfs Hd Hf). }
assert (exists out1,
           getStagingBlob staging target archive "jhu-target.csv" false true
             (mkWorld (bucket w) (stdout w ++ ["Processing " +:+ "JHU"]))
           = (Ok (empty_frame, target +:+ "jhu-target.csv"), mkWorld b1 out1))
  as (out1 & E1).
{ unfold getStagingBlob_andArchiveCurrentTarget.
  change (csv_stem (chars "jhu-target.csv")) with (Some (chars "jhu-target")).
  subst b1. io. destruct (bucket w !! _); cbn [bucket stdout fst snd]; eauto. }
pose proof (append_days_staged staging "JHU" empty_frame days fs (mkWorld b1 out1) Hfs1)
  as Ha.
pose proof (append_days_bucket staging "JHU" empty_frame days (mkWorld b1 out1)) as Hb.
destruct (append_days read_csv str_exn staging "JHU" empty_frame days (mkWorld b1 out1))
  as [ra wa] eqn:Ea.
cbn [fst snd bucket] in Ha, Hb. subst ra.
assert (E : r = (Ok tt,
                 mkWorld (<[target +:+ "jhu-target.csv" := to_csv df']> b1)
                         ((stdout wa ++ ["Finish processing data: jhu-target.csv"])
                          ++ ["Pushed file to Target: jhu-target.csv"]))).
{ subst r. unfold process. unfold io_bind at 1. unfold print at 1.
  cbn [String.eqb Ascii.eqb Bool.eqb andb].
  unfold io_bind at 1. rewrite E1. cbn [fst snd].
  unfold io_bind at 1. rewrite Ea.
  change (transform_of to_datetime group_keys observed "JHU" "ProvinceState")
    with (@Ok (DataFrame -> result DataFrame) processJHUProvinceState).
  io. rewrite Hdf'. cbn [bucket stdout fst snd]. by rewrite Hb. }
rewrite E. split; reflexivity.
Qed.
End StoreFacts.

Lemma getStagingBlob_needs_csv_name_witness :
  getStagingBlob_andArchiveCurrentTarget read_header show_exn "20200401"
    "staging/" "target/" "archive/" "01-22-2020" true true jhu_world
  = (Raise (AttributeError "group"), jhu_world).
Proof. apply getStagingBlob_needs_csv_name. vm_compute. reflexivity. Defined.

Lemma getStagingBlob_writes_archive_only_witness :
  bucket (getStagingBlob_andArchiveCurrentTarget read_header show_exn "20200401"
            "staging/" "target/" "archive/" "jhu-target.csv" false true jhu_world).2
    !! "target/jhu-target.csv"
  = Some "old".
Proof.
  rewrite (getStagingBlob_writes_archive_only read_header show_exn "20200401").
  - vm_compute. reflexivity.
  - intros stem H. vm_compute in H. injection H as <-. vm_compute. discriminate.
Defined.

Lemma append_days_combines_witness :
  (append_days read_jhu_example show_exn "staging/" "JHU" empty_frame
     ["01-22-2020"; "01-23-2020"] jhu_world).1
  = Ok (df_append empty_frame jhu_example).
Proof.
  apply (append_days_combines read_jhu_example show_exn "staging/" "JHU" empty_frame
           ["01-22-2020"; "01-23-2020"] [Some jhu_example; None] jhu_world).
  constructor; [|constructor; [|constructor]].
  - exists "Province/State,Country/Region". vm_compute. repeat split. discriminate.
  - vm_compute. by left.
Defined.

Lemma append_days_unreadable_day_witness :
  (append_days (fun _ => Raise ValueError) show_exn "staging/" "JHU" empty_frame
     ["01-22-2020"; "01-23-2020"] jhu_world).1
  = Raise ValueError.
Proof.
  apply (append_days_unreadable_day (fun _ => Raise ValueError) show_exn "staging/" "JHU"
           empty_frame "01-22-2020" ["01-23-2020"] "Province/State,Country/Region").
  - vm_compute. reflexivity.
  - discriminate.
  - reflexivity.
Defined.

Lemma process_JHU_publishes_witness :
  let r := process to_datetime_model false false read_jhu_example write_header show_exn
             "20200401" ["01-22-2020"; "01-23-2020"] "JHU" "staging/" "target/" "archive/"
             jhu_world in
  r.1 = Ok tt
  /\ bucket r.2
     = <["target/jhu-target.csv" :=
           write_header (get_ok (processJHUProvinceState (df_append empty_frame jhu_example)))]>
         (<["archive/jhu-target-20200401.csv" := "old"]> (bucket jhu_world)).
Proof.
  apply (process_JHU_publishes to_datetime_model false false read_jhu_example write_header
           show_exn "20200401" ["01-22-2020"; "01-23-2020"] "staging/" "target/" "archive/"
           [Some jhu_example; None]).
  - constructor; [|constructor; [|constructor]].
    + exists "Province/State,Country/Region". vm_compute. repeat split. discriminate.
    + vm_compute. by left.
  - repeat constructor; vm_compute; discriminate.
  - vm_compute. reflexivity.
Defined.

(** ** Province/state time series: the whole transform *)

Lemma untouched_refl T r : untouched T r r.
Proof. by intros l _. Qed.

Lemma untouched_trans T r1 r2 r3 : untouched T r1 r2 -> untouched T r2 r3 -> untouched T r1 r3.
Proof. intros H1 H2 l Hl. by rewrite H2, H1. Qed.

Lemma upd_untouched T l P r r' : l ∈ T -> upd l P r r' -> untouched T r r'.
Proof.
  intros Hl (v & _ & ->) x Hx. rewrite cell_insert. case_decide; [by subst|done].
Qed.

Lemma Forall2_untouched_step {A : Type} T (R : Row -> Row -> Prop) xs ys zs :
  (forall y z, R y z -> untouched T y z) ->
  Forall2 (untouched T) xs ys -> Forall2 R ys zs -> Forall2 (untouched T) xs zs.
Proof.
  intros HR. apply Forall2_compose. intros x y z Hxy Hyz.
  eapply untouched_trans; [exact Hxy|by apply HR].
Qed.

Lemma rename_column_untouched T df old new :
  old ∈ T -> new ∈ T -> Forall2 (untouched T) (rows df) (rows (rename_column df old new)).
Proof.
  intros Ho Hn. unfold rename_column. case_decide.
  - simpl. eapply Forall2_impl;
      [apply (Forall2_fmap_self (fun r : Row => <[new := cell r old]> (delete old r)))|].
    intros r r' -> l Hl. rewrite cell_insert, cell_delete.
    repeat case_decide; by subst.
  - induction (rows df); constructor; auto using untouched_refl.
Qed.

Lemma try_drop_untouched T df col :
  col ∈ T -> Forall2 (untouched T) (rows df) (rows (try_drop df col)).
Proof.
  intros Hcol. unfold try_drop, drop_columns.
  destruct (filter _ [col]); simpl.
  - eapply Forall2_impl; [apply (Forall2_fmap_self (fun r : Row => delete col r))|].
    intros r r' -> l Hl. rewrite cell_delete. case_decide; by subst.
  - induction (rows df); constructor; auto using untouched_refl.
Qed.

Lemma foldl_try_drop_untouched T cols df :
  Forall (fun c => c ∈ T) cols ->
  Forall2 (untouched T) (rows df) (rows (foldl try_drop df cols)).
Proof.
  revert df. induction cols as [|c cols IH]; intros df Hc; simpl.
  - induction (rows df); constructor; auto using untouched_refl.
  - inversion Hc; subst.
    eapply Forall2_compose; [apply untouched_trans|by apply try_drop_untouched|by apply IH].
Qed.

Lemma foldM_astype_category_same cols df df' :
  foldM astype_category df cols = Ok df' ->
  Forall2 (fun r r' => forall l, cell r' l = cell r l) (rows df) (rows df')
  /\ columns df' = columns df /\ Forall (fun c => c ∈ columns df) cols.
Proof.
  revert df. induction cols as [|c cols IH]; intros df H; simpl in H.
  - injection H as <-. split; [|done]. induction (rows df); constructor; auto.
  - bind_inv H. destruct (IH _ H) as (IH1 & IH2 & IH3).
    pose proof (astype_category_columns _ _ _ E) as Hc.
    pose proof (astype_category_upd _ _ _ E) as Hu.
    unfold astype_category in E. bind_inv E. apply getcol_Ok in E0 as [Hin _].
    split; [|split].
    + eapply Forall2_compose; [|exact Hu|exact IH1].
      intros x y z (v & -> & ->) Hyz l. rewrite Hyz, cell_insert.
      case_decide; by subst.
    + by rewrite IH2.
    + constructor; [done|]. by rewrite <- Hc.
Qed.

Lemma filter_all {A : Type} (P : A -> Prop) `{!forall x, Decision (P x)} (l : list A) :
  Forall P l -> filter P l = l.
Proof.
  induction 1 as [|x l Hx _ IH]; [done|]. by rewrite filter_cons_True, IH.
Qed.

Lemma columns_try_drop df col :
  columns (try_drop df col) = filter (fun c => c ∉ [col]) (columns df).
Proof.
  unfold try_drop, drop_columns. rewrite filter_cons, filter_nil.
  case_decide as Hc; simpl; [|done].
  symmetry. apply filter_all, Forall_forall. intros c Hin [->|H]%elem_of_cons; [done|].
  by apply elem_of_nil in H.
Qed.

Lemma columns_foldl_try_drop cols df :
  columns (foldl try_drop df cols) = filter (fun c => c ∉ cols) (columns df).
Proof.
  revert df. induction cols as [|c cols IH]; intros df; simpl.
  - symmetry. apply filter_all, Forall_forall. intros x _ H. by apply elem_of_nil in H.
  - rewrite IH, columns_try_drop, list_filter_filter. apply list_filter_iff.
    intros x. rewrite !not_elem_of_cons, elem_of_nil. tauto.
Qed.

Lemma fillna_column_columns df n df' :
  fillna_column df n = Ok df' -> n ∈ columns df /\ columns df' = columns df.
Proof.
  unfold fillna_column. intros H. bind_inv H. injection H as <-.
  apply getattr_Ok in E as [Hn _]. split; [done|]. simpl. by rewrite decide_True.
Qed.

Lemma convertLastUpdate_cell row t :
  convertLastUpdate row = Ok t ->
  convertLastUpdate (last_update_of (cell (values row) "LastUpdate")) = Ok t.
Proof.
  unfold convertLastUpdate, series_getattr. case_decide; [|discriminate].
  unfold last_update_of. cbn [index values]. rewrite decide_True by (by left).
  unfold cell at 2. by rewrite lookup_singleton_eq.
Qed.

Lemma parsed_of_row cols (r : Row) v :
  cell_of_datetime <$> convertLastUpdate (mkSeries cols r) = Ok v ->
  v = parsed (cell r "LastUpdate")
  /\ exists t, convertLastUpdate (last_update_of (cell r "LastUpdate")) = Ok t.
Proof.
  intros (t & Ht & ->)%fmap_Ok. apply convertLastUpdate_cell in Ht. simpl in Ht.
  unfold parsed. rewrite Ht. eauto.
Qed.

Lemma Forall2_Forall_left {A B : Type} (P : A -> Prop) (xs : list A) (ys : list B) :
  Forall2 (fun x _ => P x) xs ys -> Forall P xs.
Proof. induction 1; constructor; auto. Qed.

Lemma elem_of_add_col (cols : list string) l x : x ∈ add_col cols l <-> x ∈ cols \/ x = l.
Proof.
  unfold add_col. case_decide.
  - split; [by left|]. by intros [?| ->].
  - rewrite elem_of_app, list_elem_of_singleton. tauto.
Qed.

Lemma elem_of_rename_label old new (cols : list string) x :
  x ∈ rename_label old new <$> cols -> x = new \/ x ∈ cols.
Proof.
  intros (c & -> & Hc)%list_elem_of_fmap. unfold rename_label.
  case_decide; [by left|by right].
Qed.

Lemma apply_rows_coalesce_text_inv a b df c :
  apply_rows (coalesce_text a b) df = Ok c -> rows df <> [] -> a ∈ columns df.
Proof.
  unfold apply_rows. destruct (rows df) as [|r rs]; [done|]. intros H _.
  simpl in H. bind_inv H. clear H. unfold coalesce_text in E. bind_inv E. clear E.
  unfold getitem in E0. simpl in E0. by case_decide.
Qed.

(** The untouched cells across one more stage. *)
Ltac stageU InvU R :=
  let N := fresh "InvU" in
  match type of InvU with
  | Forall2 _ ?a _ =>
      match type of R with
      | Forall2 _ _ ?c =>
          assert (N : Forall2 (untouched jhu_touched) a c);
          [ eapply Forall2_compose; [apply untouched_trans|exact InvU|];
            eapply Forall2_impl; [exact R|];
            let y := fresh "y" in let z := fresh "z" in
            intros y z; apply upd_untouched; in_list
          | clear InvU; rename N into InvU ]
      end
  end.

Lemma processJHUProvinceState_inv df out :
  processJHUProvinceState df = Ok out ->
  exists pre,
    Forall2 (fun r0 r => facts (jhu_cells df) r0 r /\ untouched jhu_touched r0 r)
            (rows df) (rows pre)
    /\ Forall (fun r0 => exists t,
                 convertLastUpdate (last_update_of (last_update_text r0)) = Ok t) (rows df)
    /\ columns out = jhu_columns df
    /\ Forall (fun c => c ∈ columns out) jhu_colsCategory
    /\ rows out = filter (fun r => not_china r = true) (rows pre)
    /\ Forall (fun c => c ∈ columns df) ["Lat"; "Latitude"; "Long_"; "Longitude"]
    /\ (rows df <> [] ->
        Forall (fun c => c ∈ columns df) ["Last Update"; "Country/Region"; "Province/State"]).
Proof.
  unfold processJHUProvinceState. intros H.
  assert (Inv : Forall2 (facts [orig "Lat"; orig "Latitude"; orig "Long_"; orig "Longitude";
                                orig "Country/Region"; orig "Country_Region";
                                orig "Province/State"; orig "Province_State";
                                orig "Last Update"; orig "Last_Update"; county df])
                        (rows df) (rows (rename_column df "Admin2" "US_County"))).
  { unfold rename_column, county, county_of. case_decide.
    - simpl. eapply Forall2_impl;
        [apply (Forall2_fmap_self (fun r : Row => <["US_County" := cell r "Admin2"]> (delete "Admin2" r)))|].
      intros r r' ->. cells. tauto.
    - apply Forall2_same_length_lookup. split; [done|].
      intros i x y Hx Hy. assert (x = y) as -> by congruence. cells. tauto. }
  assert (InvU : Forall2 (untouched jhu_touched)
                         (rows df) (rows (rename_column df "Admin2" "US_County")))
    by (apply rename_column_untouched; in_list).
  pose proof (rename_column_columns df "Admin2" "US_County") as HC.
  set (df0 := rename_column df "Admin2" "US_County") in *.
  pose proof (Forall2_length _ _ _ InvU) as Hlen0.
  bind_inv H. apply (apply_rows_upd _ _ _ "LastUpdate") in E as R.
  set (df1 := setitem df0 "LastUpdate" a) in *.
  pose proof (Forall2_length _ _ _ R) as Hlen1.
  stageU InvU R.
  stage Inv R [orig "Lat"; orig "Latitude"; orig "Long_"; orig "Longitude";
               orig "Country/Region"; orig "Country_Region";
               orig "Province/State"; orig "Province_State"; county df; last_text].
  bind_inv H. apply (apply_rows_upd _ _ _ "CountryRegion") in E0 as R.
  set (df2 := setitem df1 "CountryRegion" a0) in *.
  pose proof (Forall2_length _ _ _ R) as Hlen2.
  stageU InvU R.
  stage Inv R [orig "Lat"; orig "Latitude"; orig "Long_"; orig "Longitude"; country;
               orig "Province/State"; orig "Province_State"; county df; last_text].
  bind_inv H. apply (apply_rows_upd _ _ _ "StateProvince") in E1 as R.
  set (df3 := setitem df2 "StateProvince" a1) in *.
  stageU InvU R.
  stage Inv R [orig "Lat"; orig "Latitude"; orig "Long_"; orig "Longitude"; country;
               state; county df; last_text].
  assert (HC3 : columns df3
                = add_col (add_col (add_col (rename_label "Admin2" "US_County" <$> columns df)
                                            "LastUpdate") "CountryRegion") "StateProvince").
  { subst df3 df2 df1. simpl. rewrite HC. reflexivity. }
  assert (Htext : rows df <> [] ->
            Forall (fun c => c ∈ columns df) ["Last Update"; "Country/Region"; "Province/State"]).
  { intros Hne.
    assert (Hne0 : rows df0 <> []).
    { intros E0'. rewrite E0' in Hlen0. destruct (rows df); [done|discriminate]. }
    assert (Hne1 : rows df1 <> []).
    { intros E'. rewrite E' in Hlen1. destruct (rows df0); [done|discriminate]. }
    assert (Hne2 : rows df2 <> []).
    { intros E'. rewrite E' in Hlen2. destruct (rows df1); [done|discriminate]. }
    apply apply_rows_coalesce_text_inv in E; [|exact Hne0].
    apply apply_rows_coalesce_text_inv in E0; [|exact Hne1].
    apply apply_rows_coalesce_text_inv in E1; [|exact Hne2].
    subst df2 df1. cbn [columns setitem] in E0, E1. fold (add_col (columns df0) "LastUpdate") in *.
    fold (add_col (add_col (columns df0) "LastUpdate") "CountryRegion") in E1.
    rewrite HC in E, E0, E1.
    apply elem_of_add_col in E0 as [E0|?]; [|discriminate].
    apply elem_of_add_col in E1 as [E1|?]; [|discriminate].
    apply elem_of_add_col in E1 as [E1|?]; [|discriminate].
    apply elem_of_rename_label in E as [?|?]; [discriminate|].
    apply elem_of_rename_label in E0 as [?|?]; [discriminate|].
    apply elem_of_rename_label in E1 as [?|?]; [discriminate|].
    repeat constructor; assumption. }
  clearbody df3. clear HC E E0 E1 Hlen0 Hlen1 Hlen2.
  bind_inv H. apply fillna_column_columns in E as HC4. apply fillna_column_upd in E as R.
  stageU InvU R.
  stage Inv R [filled "Lat"; orig "Latitude"; orig "Long_"; orig "Longitude"; country;
               state; county df; last_text].
  bind_inv H. apply fillna_column_columns in E0 as HC5. apply fillna_column_upd in E0 as R.
  stageU InvU R.
  stage Inv R [filled "Lat"; filled "Latitude"; orig "Long_"; orig "Longitude"; country;
               state; county df; last_text].
  bind_inv H. apply fillna_column_columns in E1 as HC6. apply fillna_column_upd in E1 as R.
  stageU InvU R.
  stage Inv R [filled "Lat"; filled "Latitude"; filled "Long_"; orig "Longitude"; country;
               state; county df; last_text].
  bind_inv H. apply fillna_column_columns in E2 as HC7. apply fillna_column_upd in E2 as R.
  stageU InvU R.
  stage Inv R [filled "Lat"; filled "Latitude"; filled "Long_"; filled "Longitude"; country;
               state; county df; last_text].
  assert (HC7' : columns a5 = columns df3 /\ "Latitude" ∈ columns a5 /\ "Longitude" ∈ columns a5).
  { destruct HC4 as [_ HC4], HC5 as [H5 HC5], HC6 as [_ HC6], HC7 as [H7 HC7].
    rewrite HC7, HC6, HC5, HC4. split; [done|]. rewrite <- HC4, <- HC5. split; [|by rewrite <- HC6].
    by rewrite HC5. }
  assert (Hcoord : Forall (fun c => c ∈ columns df) ["Lat"; "Latitude"; "Long_"; "Longitude"]).
  { destruct HC4 as [H4 HC4], HC5 as [H5 HC5], HC6 as [H6 HC6], HC7 as [H7 HC7].
    rewrite HC6, HC5, HC4 in H7. rewrite HC5, HC4 in H6. rewrite HC4 in H5.
    rewrite HC3 in H4, H5, H6, H7.
    assert (Hin : forall x, x ∈ add_col (add_col (add_col
                       (rename_label "Admin2" "US_County" <$> columns df)
                       "LastUpdate") "CountryRegion") "StateProvince" ->
                     x <> "LastUpdate" -> x <> "CountryRegion" -> x <> "StateProvince" ->
                     x <> "US_County" -> x ∈ columns df).
    { intros x Hx N1 N2 N3 N4.
      apply elem_of_add_col in Hx as [Hx|?]; [|done].
      apply elem_of_add_col in Hx as [Hx|?]; [|done].
      apply elem_of_add_col in Hx as [Hx|?]; [|done].
      by apply elem_of_rename_label in Hx as [?|?]. }
    repeat constructor; apply Hin; done. }
  clear HC4 HC5 HC6 HC7 E E0 E1 E2. destruct HC7' as (HC7 & Hlat & Hlong).
  bind_inv H. apply (apply_rows_upd _ _ _ "Latitude") in E as R.
  set (df8 := setitem a5 "Latitude" a6) in *.
  stageU InvU R.
  stage Inv R [merged "Latitude" "Lat" "Latitude"; filled "Long_"; filled "Longitude"; country;
               state; county df; last_text].
  bind_inv H. apply (apply_rows_upd _ _ _ "Longitude") in E0 as R.
  set (df9 := setitem df8 "Longitude" a7) in *.
  stageU InvU R.
  stage Inv R [merged "Latitude" "Lat" "Latitude"; merged "Longitude" "Long_" "Longitude";
               country; state; county df; last_text].
  assert (HC9 : columns df9 = columns df3).
  { subst df9 df8. cbn [columns setitem].
    rewrite (decide_True (P := "Latitude" ∈ columns a5)) by done.
    by rewrite decide_True. }
  clearbody df9. clear E E0 HC7 Hlat Hlong.
  bind_inv H. apply (apply_rows_upd _ _ _ "LastUpdateDatetime") in E as R.
  set (df10 := setitem df9 "LastUpdateDatetime" a8) in *.
  stageU InvU R.
  assert (HG : Forall (fun r0 => exists t,
                         convertLastUpdate (last_update_of (last_update_text r0)) = Ok t)
                      (rows df)).
  { apply (Forall2_Forall_left _ _ (rows df10)).
    eapply Forall2_compose; [|exact Inv|exact R].
    intros x y z Hxy (v & Hv & _). apply parsed_of_row in Hv as [_ Hv].
    cells. unfold last_update_text.
    match goal with E : cell y "LastUpdate" = _ |- _ => by rewrite <- E end. }
  assert (R' : Forall2 (upd "LastUpdateDatetime" (fun r v => v = parsed (cell r "LastUpdate")))
                       (rows df9) (rows df10)).
  { eapply Forall2_impl; [exact R|]. intros y z (v & Hv & ->).
    apply parsed_of_row in Hv as [Hv _]. by exists v. }
  clear R.
  stage Inv R' [merged "Latitude" "Lat" "Latitude"; merged "Longitude" "Long_" "Longitude";
                country; state; county df; last_datetime].
  bind_inv H. bind_inv H.
  assert (R : Forall2 (upd "LastUpdateDate"
                           (fun r v => v = date_part (cell r "LastUpdateDatetime")))
                      (rows df10) (rows (setitem df10 "LastUpdateDate" a10))).
  { apply Forall2_zip_with_upd. apply getattr_Ok in E0 as [_ ->].
    apply series_dt_date_Ok in E1 as [_ ->]. rewrite <- list_fmap_compose.
    apply (Forall2_fmap_self (fun r => date_part (cell r "LastUpdateDatetime"))). }
  set (df11 := setitem df10 "LastUpdateDate" a10) in *.
  stageU InvU R.
  stage Inv R [merged "Latitude" "Lat" "Latitude"; merged "Longitude" "Long_" "Longitude";
               country; state; county df; last_datetime; last_date].
  assert (HC11 : columns df11 = add_col (add_col (columns df3) "LastUpdateDatetime")
                                        "LastUpdateDate").
  { subst df11 df10. simpl. rewrite HC9. reflexivity. }
  clearbody df11. clear E E0 E1 HC9.
  match type of H with context [foldl try_drop df11 ?cols] =>
    pose proof (foldl_try_drop_keeps jhu_colsCategory cols df11 ltac:(in_list)) as R;
    pose proof (foldl_try_drop_untouched jhu_touched cols df11 ltac:(in_list)) as RU;
    pose proof (columns_foldl_try_drop cols df11) as HC12;
    set (df12 := foldl try_drop df11 cols) in *
  end.
  assert (InvU' : Forall2 (untouched jhu_touched) (rows df) (rows df12))
    by (eapply Forall2_compose; [apply untouched_trans|exact InvU|exact RU]).
  clear InvU RU. rename InvU' into InvU.
  unfold jhu_colsCategory in R.
  stage Inv R [merged "Latitude" "Lat" "Latitude"; merged "Longitude" "Long_" "Longitude";
               country; state; county df; last_datetime; last_date].
  bind_inv H.
  apply foldM_astype_category_same in E as (RS & HC13 & Hcat).
  assert (InvU' : Forall2 (untouched jhu_touched) (rows df) (rows a11)).
  { eapply Forall2_compose; [|exact InvU|exact RS].
    intros x y z Hxy Hyz l Hl. by rewrite Hyz, Hxy. }
  assert (Inv' : Forall2 (facts (jhu_cells df)) (rows df) (rows a11)).
  { eapply Forall2_compose; [|exact Inv|exact RS].
    intros x y z Hxy Hyz. unfold jhu_cells. cells. rewrite !Hyz.
    intuition congruence. }
  bind_inv H. injection H as <-. apply getattr_Ok in E as [_ ->].
  exists a11. split; [|split; [exact HG|split; [|split; [|split; [|split; [exact Hcoord|exact Htext]]]]]].
  - apply Forall2_same_length_lookup. split; [by eapply Forall2_length|].
    intros i x y Hx Hy. split.
    + exact (Forall2_lookup_lr _ _ _ _ _ _ Inv' Hx Hy).
    + exact (Forall2_lookup_lr _ _ _ _ _ _ InvU' Hx Hy).
  - cbn [columns boolean_index]. rewrite HC13, HC12, HC11, HC3. reflexivity.
  - cbn [columns boolean_index]. by rewrite HC13.
  - apply (boolean_index_rows a11 (fun x => negb (isin ["China"; "Mainland China"] x))).
Qed.

(** X9: The rows [processJHUProvinceState] keeps are the input rows whose
    country/region is not China, all of them and in their order; each keeps
    its cells in every column the transform does not write, rename or
    delete (the counts among them), and gets its state/province from the
    older column when that holds text, else from the newer one, and its
    county from [Admin2] (on a frame that has no [US_County] yet). *)
Theorem processJHUProvinceState_keeps_the_other_rows (df out : DataFrame) :
  processJHUProvinceState df = Ok out ->
  Forall2 (fun r0 r' =>
             untouched jhu_touched r0 r'
             /\ cell r' "StateProvince"
                = text_or (cell r0 "Province/State") (cell r0 "Province_State")
             /\ ("Admin2" ∈ columns df -> "US_County" ∉ columns df ->
                 cell r' "US_County" = cell r0 "Admin2"))
          (filter (fun r0 => kept_by_jhu r0 = true) (rows df)) (rows out).
Proof.
  intros H. apply processJHUProvinceState_inv in H as (pre & Inv & _ & _ & _ & -> & _).
  eapply Forall2_impl.
  - apply (Forall2_filter _ (fun r0 => kept_by_jhu r0 = true) (fun r => not_china r = true));
      [|exact Inv].
    intros x y [F _]. unfold kept_by_jhu, not_china, jhu_cells in *. cells.
    match goal with E : cell y "CountryRegion" = _ |- _ => by rewrite E end.
  - intros x y [F U]. split; [exact U|]. unfold jhu_cells in F. cells.
    split; [tauto|]. intros Ha _.
    match goal with E : cell y "US_County" = _ |- _ => rewrite E end.
    unfold county_of. by rewrite decide_True.
Qed.

(** X10: The parsed last update of a row of the output.  The rows of the
    output are, place by place, the rows of the input that are kept, and in
    each of them [LastUpdateDatetime] is what [convertLastUpdate] returned
    on the last-update value of its own input row, a null when it returned
    [None], and [LastUpdateDate] is the calendar date of it. *)
Theorem processJHUProvinceState_last_update (df out : DataFrame) :
  processJHUProvinceState df = Ok out ->
  Forall2 (fun r0 r' => exists t,
             convertLastUpdate (last_update_of (last_update_text r0)) = Ok t
             /\ cell r' "LastUpdateDatetime" = cell_of_datetime t
             /\ cell r' "LastUpdateDate" = date_part (cell_of_datetime t))
          (filter (fun r0 => kept_by_jhu r0 = true) (rows df)) (rows out).
Proof.
  intros H. apply processJHUProvinceState_inv in H as (pre & Inv & HG & _ & _ & -> & _).
  assert (Inv' : Forall2 (fun r0 r => facts (jhu_cells df) r0 r
                            /\ exists t, convertLastUpdate
                                           (last_update_of (last_update_text r0)) = Ok t)
                         (rows df) (rows pre)).
  { apply Forall2_same_length_lookup. split; [by eapply Forall2_length|].
    intros i x y Hx Hy. split.
    - exact (proj1 (Forall2_lookup_lr _ _ _ _ _ _ Inv Hx Hy)).
    - exact (proj1 (Forall_lookup _ _) HG i x Hx). }
  eapply Forall2_impl.
  - apply (Forall2_filter _ (fun r0 => kept_by_jhu r0 = true) (fun r => not_china r = true));
      [|exact Inv'].
    intros x y [F _]. unfold kept_by_jhu, not_china, jhu_cells in *. cells.
    match goal with E : cell y "CountryRegion" = _ |- _ => by rewrite E end.
  - intros r0 r' [F [t Ht]]. exists t. split; [exact Ht|].
    unfold jhu_cells in F. cells. unfold last_update_text in Ht.
    match goal with
    | E1 : cell r' "LastUpdateDatetime" = _, E2 : cell r' "LastUpdateDate" = _ |- _ =>
        rewrite E1, E2
    end.
    unfold parsed. by rewrite Ht.
Qed.

(** X11: [processJHUProvinceState] returns only if every row of the input, the
    rows of China included, holds a last-update text on which
    [convertLastUpdate] returns: one row without such a text, or with a
    text of the right shape and fields out of range, fails the whole
    transform. *)
Theorem processJHUProvinceState_needs_last_update (df out : DataFrame) :
  processJHUProvinceState df = Ok out ->
  Forall (fun r0 => exists s t,
            last_update_text r0 = Str s
            /\ convertLastUpdate (last_update_of (Str s)) = Ok t)
         (rows df).
Proof.
  intros H. apply processJHUProvinceState_inv in H as (pre & _ & HG & _).
  eapply Forall_impl; [exact HG|]. intros r0 [t Ht].
  destruct (last_update_text r0) as [|s| | |] eqn:E; try discriminate.
  by exists s, t.
Qed.

(** X13: The columns of the output, in order: those of the input with [Admin2]
    renamed, then the new ones, without the thirteen raw columns; all seven
    normalised columns are among them. *)
Theorem processJHUProvinceState_columns (df out : DataFrame) :
  processJHUProvinceState df = Ok out ->
  columns out = jhu_columns df
  /\ Forall (fun c => c ∈ columns out) jhu_colsCategory
  /\ Forall (fun c => c ∉ columns out) jhu_colsToDelete.
Proof.
  intros H. apply processJHUProvinceState_inv in H as (pre & _ & _ & HC & Hcat & _).
  split; [exact HC|]. split; [exact Hcat|].
  rewrite HC. apply Forall_forall. intros c Hc Hin.
  unfold jhu_columns in Hin. by apply list_elem_of_filter in Hin as [Hn _].
Qed.

(** X12: The columns [processJHUProvinceState] cannot do without: the four
    coordinate columns of both eras, a county column, and, as soon as there
    is a row, the three older text columns. *)
Theorem processJHUProvinceState_needs_columns (df out : DataFrame) :
  processJHUProvinceState df = Ok out ->
  Forall (fun c => c ∈ columns df) ["Lat"; "Latitude"; "Long_"; "Longitude"]
  /\ ("Admin2" ∈ columns df \/ "US_County" ∈ columns df)
  /\ (rows df <> [] ->
      Forall (fun c => c ∈ columns df) ["Last Update"; "Country/Region"; "Province/State"]).
Proof.
  intros H.
  apply processJHUProvinceState_inv in H as (pre & _ & _ & HC & Hcat & _ & Hcoord & Htext).
  split; [exact Hcoord|]. split; [|exact Htext].
  assert (Hc : "US_County" ∈ columns out).
  { apply (proj1 (Forall_forall _ _) Hcat). in_list. }
  rewrite HC in Hc. unfold jhu_columns in Hc. apply list_elem_of_filter in Hc as [_ Hc].
  cbn [foldl] in Hc.
  repeat (apply elem_of_add_col in Hc as [Hc|?]; [|discriminate]).
  apply list_elem_of_fmap in Hc as (c & Hc & Hin). unfold rename_label in Hc.
  case_decide; subst; auto.
Qed.

Lemma traverse_exists {A B : Type} (f : A -> result B) (l : list A) :
  Forall (fun x => exists y, f x = Ok y) l -> exists ys, traverse f l = Ok ys.
Proof.
  induction 1 as [|x l [y Hy] _ [ys IH]]; simpl; [by exists []|].
  rewrite Hy, IH. by eexists.
Qed.

Lemma apply_rows_coalesce_text a b df :
  a ∈ columns df -> b ∈ columns df -> exists c, apply_rows (coalesce_text a b) df = Ok c.
Proof.
  intros Ha Hb. apply traverse_exists, Forall_forall. intros r _.
  unfold coalesce_text, getitem. cbn [index values].
  rewrite !decide_True by done. simpl. destruct (cell r a); eauto.
Qed.

Lemma apply_rows_coalesce_coord a b df :
  a ∈ columns df -> b ∈ columns df -> exists c, apply_rows (coalesce_coord a b) df = Ok c.
Proof.
  intros Ha Hb. apply traverse_exists, Forall_forall. intros r _.
  unfold coalesce_coord, getitem. cbn [index values].
  rewrite !decide_True by done. simpl. destruct (ne_zero (cell r a)); eauto.
Qed.

Lemma fillna_column_exists df n :
  n ∈ columns df -> exists df', fillna_column df n = Ok df'.
Proof. intros H. unfold fillna_column, getattr. rewrite decide_True by done. by eexists. Qed.

Lemma foldM_astype_category_exists cols df :
  Forall (fun c => c ∈ columns df) cols -> exists df', foldM astype_category df cols = Ok df'.
Proof.
  revert df. induction cols as [|c cols IH]; intros df H; simpl; [by eexists|].
  inversion H as [|? ? Hc Hcols]; subst.
  destruct (astype_category_Ok df c Hc) as (df1 & -> & HC & _). simpl.
  apply IH. by rewrite HC.
Qed.

Lemma convertLastUpdate_row cols (r : Row) :
  "LastUpdate" ∈ cols ->
  convertLastUpdate (mkSeries cols r) = convertLastUpdate (last_update_of (cell r "LastUpdate")).
Proof.
  intros H. unfold convertLastUpdate, series_getattr, last_update_of. cbn [index values].
  rewrite !decide_True by (done || by left). unfold cell at 2.
  by rewrite lookup_singleton_eq.
Qed.

Lemma foldM_astype_category_columns cols df :
  Forall (fun c => c ∈ columns df) cols ->
  exists df', foldM astype_category df cols = Ok df' /\ columns df' = columns df.
Proof.
  revert df. induction cols as [|c cols IH]; intros df H; simpl; [by eexists|].
  inversion H as [|? ? Hc Hcols]; subst.
  destruct (astype_category_Ok df c Hc) as (df1 & -> & HC & _). simpl.
  destruct (IH df1) as (df' & -> & HC'); [by rewrite HC|].
  exists df'. split; [done|]. by rewrite HC'.
Qed.

Lemma Forall_columns_setitem (L : list string) df l c :
  Forall (fun x => x ∈ columns df) L ->
  Forall (fun x => x ∈ columns (setitem df l c)) (l :: L).
Proof.
  intros H. cbn [columns setitem]. fold (add_col (columns df) l). constructor.
  - apply elem_of_add_col. by right.
  - eapply Forall_impl; [exact H|]. intros x Hx. apply elem_of_add_col. by left.
Qed.

Lemma Forall_columns_rename (L : list string) df old new :
  old ∉ L -> Forall (fun x => x ∈ columns df) L ->
  Forall (fun x => x ∈ columns (rename_column df old new)) L.
Proof.
  intros Ho H. rewrite rename_column_columns. apply Forall_forall. intros x Hx.
  apply list_elem_of_fmap. exists x. split.
  - unfold rename_label. rewrite decide_False; [done|]. by intros ->.
  - by apply (proj1 (Forall_forall _ _) H).
Qed.

Lemma getattr_present df n :
  n ∈ columns df -> getattr df n = Ok ((fun r => cell r n) <$> rows df).
Proof. intros H. unfold getattr. by rewrite decide_True. Qed.

Ltac has H := apply (proj1 (Forall_forall _ _) H); in_list.

Lemma is_datetime64_parsed {A : Type} (f : A -> result (option datetime))
    (xs : list A) (col : list Cell) :
  Forall2 (fun x c => exists o, f x = Ok o /\ c = cell_of_datetime o) xs col ->
  Forall (fun x => exists o, f x = Ok o /\ forall t, o = Some t -> in_bounds t = true) xs ->
  Exists (fun x => exists t, f x = Ok (Some t)) xs ->
  is_datetime64 col = true.
Proof.
  intros H2 Hall Hex. unfold is_datetime64. apply andb_true_iff. split.
  - clear Hex. induction H2 as [|x c xs col (o & Ho & ->) _ IH]; [done|].
    inversion Hall as [|? ? (o' & Ho' & Hb) Hall']; subst.
    cbn [forallb]. rewrite IH by done. rewrite andb_true_r.
    destruct o as [t|]; [|done]. apply Hb. congruence.
  - clear Hall. induction H2 as [|x c xs col (o & Ho & ->) _ IH]; [by inversion Hex|].
    cbn [existsb]. inversion Hex as [? ? [t Ht]|? ? Hex']; subst.
    + assert (o = Some t) as -> by congruence. done.
    + rewrite IH by done. apply orb_true_r.
Qed.

(** X14: On a frame that has the ten raw columns and a county column, whose
    rows all hold a last-update value on which [convertLastUpdate] returns,
    a date-time within the bounds of nanosecond timestamps or [None], and a
    date-time for one row at least, [processJHUProvinceState] returns a
    frame. *)
Theorem processJHUProvinceState_returns (df : DataFrame) :
  Forall (fun c => c ∈ columns df) jhu_raw_columns ->
  "Admin2" ∈ columns df \/ "US_County" ∈ columns df ->
  Forall (fun r0 => exists x,
            convertLastUpdate (last_update_of (last_update_text r0)) = Ok x
            /\ forall t, x = Some t -> in_bounds t = true)
         (rows df) ->
  Exists (fun r0 => exists t,
            convertLastUpdate (last_update_of (last_update_text r0)) = Ok (Some t))
         (rows df) ->
  exists out, processJHUProvinceState df = Ok out.
Proof.
  intros Hcols Hcounty Hlu Hsome. unfold processJHUProvinceState.
  assert (H0 : Forall (fun c => c ∈ columns (rename_column df "Admin2" "US_County"))
                      ("US_County" :: jhu_raw_columns)).
  { constructor; [|apply Forall_columns_rename; [in_list|exact Hcols]].
    rewrite rename_column_columns. apply list_elem_of_fmap. unfold rename_label.
    destruct Hcounty as [Ha|Hu].
    - exists "Admin2". by rewrite decide_True.
    - exists "US_County". by rewrite decide_False. }
  assert (Inv : Forall2 (facts [orig "Last Update"; orig "Last_Update"])
                        (rows df) (rows (rename_column df "Admin2" "US_County"))).
  { eapply Forall2_impl;
      [apply (rename_column_keeps ["Last Update"; "Last_Update"]); in_list|].
    intros r r' Hk. cells. tauto. }
  set (df0 := rename_column df "Admin2" "US_County") in *.
  destruct (apply_rows_coalesce_text "Last Update" "Last_Update" df0) as [a E];
    [has H0..|].
  rewrite E, result_bind_Ok. cbv zeta.
  apply (apply_rows_upd _ _ _ "LastUpdate") in E as R.
  apply (Forall_columns_setitem _ _ "LastUpdate" a) in H0 as H1.
  set (df1 := setitem df0 "LastUpdate" a) in *.
  stage Inv R [last_text]. clear E H0.
  destruct (apply_rows_coalesce_text "Country/Region" "Country_Region" df1) as [a0 E];
    [has H1..|].
  rewrite E, result_bind_Ok. cbv zeta.
  apply (apply_rows_upd _ _ _ "CountryRegion") in E as R.
  apply (Forall_columns_setitem _ _ "CountryRegion" a0) in H1 as H2.
  set (df2 := setitem df1 "CountryRegion" a0) in *.
  stage Inv R [last_text]. clear E H1.
  destruct (apply_rows_coalesce_text "Province/State" "Province_State" df2) as [a1 E];
    [has H2..|].
  rewrite E, result_bind_Ok. cbv zeta.
  apply (apply_rows_upd _ _ _ "StateProvince") in E as R.
  apply (Forall_columns_setitem _ _ "StateProvince" a1) in H2 as H3.
  set (df3 := setitem df2 "StateProvince" a1) in *.
  stage Inv R [last_text]. clear E H2. clearbody df3.
  destruct (fillna_column_exists df3 "Lat") as [df4 E]; [has H3|].
  rewrite E, result_bind_Ok.
  apply fillna_column_columns in E as HC. apply fillna_column_upd in E as R.
  destruct HC as [_ HC]. rewrite <- HC in H3. stage Inv R [last_text]. clear E HC.
  destruct (fillna_column_exists df4 "Latitude") as [df5 E]; [has H3|].
  rewrite E, result_bind_Ok.
  apply fillna_column_columns in E as HC. apply fillna_column_upd in E as R.
  destruct HC as [_ HC]. rewrite <- HC in H3. stage Inv R [last_text]. clear E HC.
  destruct (fillna_column_exists df5 "Long_") as [df6 E]; [has H3|].
  rewrite E, result_bind_Ok.
  apply fillna_column_columns in E as HC. apply fillna_column_upd in E as R.
  destruct HC as [_ HC]. rewrite <- HC in H3. stage Inv R [last_text]. clear E HC.
  destruct (fillna_column_exists df6 "Longitude") as [df7 E]; [has H3|].
  rewrite E, result_bind_Ok.
  apply fillna_column_columns in E as HC. apply fillna_column_upd in E as R.
  destruct HC as [_ HC]. rewrite <- HC in H3. stage Inv R [last_text]. clear E HC.
  destruct (apply_rows_coalesce_coord "Lat" "Latitude" df7) as [a2 E]; [has H3..|].
  rewrite E, result_bind_Ok. cbv zeta.
  apply (apply_rows_upd _ _ _ "Latitude") in E as R.
  apply (Forall_columns_setitem _ _ "Latitude" a2) in H3 as H8.
  set (df8 := setitem df7 "Latitude" a2) in *.
  stage Inv R [last_text]. clear E H3.
  destruct (apply_rows_coalesce_coord "Long_" "Longitude" df8) as [a3 E]; [has H8..|].
  rewrite E, result_bind_Ok. cbv zeta.
  apply (apply_rows_upd _ _ _ "Longitude") in E as R.
  apply (Forall_columns_setitem _ _ "Longitude" a3) in H8 as H9.
  set (df9 := setitem df8 "Longitude" a3) in *.
  stage Inv R [last_text]. clear E H8. clearbody df9.
  (* the last update of every row parses *)
  destruct (traverse_exists
              (fun r => cell_of_datetime <$> convertLastUpdate (mkSeries (columns df9) r))
              (rows df9)) as [a4 E].
  { apply Forall_lookup. intros i y Hy.
    destruct (Forall2_lookup_r _ _ _ _ _ Inv Hy) as (x & Hx & F).
    rewrite convertLastUpdate_row by has H9. cells.
    match goal with E : cell y "LastUpdate" = _ |- _ => rewrite E end.
    destruct (proj1 (Forall_lookup _ _) Hlu i x Hx) as (o & Ho & _).
    unfold last_update_text in Ho. rewrite Ho. by eexists. }
  fold (apply_rows (fun row => cell_of_datetime <$> convertLastUpdate row) df9) in E.
  rewrite E, result_bind_Ok. cbv zeta.
  apply (apply_rows_upd _ _ _ "LastUpdateDatetime") in E as R.
  apply (Forall_columns_setitem _ _ "LastUpdateDatetime" a4) in H9 as H10.
  set (df10 := setitem df9 "LastUpdateDatetime" a4) in *.
  rewrite (getattr_present df10 "LastUpdateDatetime") by has H10. rewrite result_bind_Ok.
  assert (E5 : is_datetime64 ((fun r => cell r "LastUpdateDatetime") <$> rows df10) = true).
  { apply (is_datetime64_parsed
             (fun r0 => convertLastUpdate (last_update_of (last_update_text r0))) (rows df));
      [|exact Hlu|exact Hsome].
    apply Forall2_fmap_r. eapply Forall2_compose; [|exact Inv|exact R].
    intros x y z F (v & Hv & ->). unfold compose. rewrite cell_insert, decide_True by done.
    apply fmap_Ok in Hv as (o & Ho & ->). exists o. split; [|done].
    rewrite convertLastUpdate_row in Ho by (has H9).
    unfold last_update_text. cells.
    match goal with E : cell y "LastUpdate" = _ |- _ => by rewrite <- E end. }
  unfold series_dt_date. rewrite E5, result_bind_Ok. cbv zeta.
  match goal with |- context [setitem df10 "LastUpdateDate" ?c] => set (a5 := c) end.
  apply (Forall_columns_setitem _ _ "LastUpdateDate" a5) in H10 as H11.
  set (df11 := setitem df10 "LastUpdateDate" a5) in *.
  clearbody df11. clear E E5 R Inv H9 H10.
  match goal with |- context [foldl try_drop df11 ?cols] =>
    pose proof (columns_foldl_try_drop cols df11) as HC12;
    set (df12 := foldl try_drop df11 cols) in *
  end.
  destruct (foldM_astype_category_columns jhu_colsCategory df12) as (df13 & E13 & HC13).
  { rewrite HC12. apply Forall_forall. intros c Hc. apply list_elem_of_filter.
    unfold jhu_colsCategory in Hc.
    repeat (apply elem_of_cons in Hc as [->|Hc]; [split; [in_list|has H11]|]).
    by apply elem_of_nil in Hc. }
  unfold jhu_colsCategory in E13. rewrite E13, result_bind_Ok.
  rewrite (getattr_present df13 "CountryRegion").
  - rewrite result_bind_Ok. by eexists.
  - rewrite HC13, HC12. apply list_elem_of_filter. split; [in_list|has H11].
Qed.

Lemma processJHUProvinceState_returns_witness :
  exists out, processJHUProvinceState jhu_example = Ok out.
Proof.
  apply processJHUProvinceState_returns.
  - in_list.
  - left. in_list.
  - repeat (apply Forall_cons_2;
              [eexists; split; [vm_compute; reflexivity|];
               intros t [= <-]; vm_compute; reflexivity|]).
    apply Forall_nil_2.
  - apply Exists_cons_hd. eexists. vm_compute. reflexivity.
Defined.

Lemma processJHUProvinceState_needs_columns_witness :
  Forall (fun c => c ∈ columns jhu_example) ["Lat"; "Latitude"; "Long_"; "Longitude"]
  /\ ("Admin2" ∈ columns jhu_example \/ "US_County" ∈ columns jhu_example)
  /\ (rows jhu_example <> [] ->
      Forall (fun c => c ∈ columns jhu_example)
             ["Last Update"; "Country/Region"; "Province/State"]).
Proof.
  apply (processJHUProvinceState_needs_columns jhu_example
           (get_ok (processJHUProvinceState jhu_example))).
  vm_compute. reflexivity.
Defined.

Lemma processJHUProvinceState_needs_last_update_witness :
  Forall (fun r0 => exists s t,
            last_update_text r0 = Str s
            /\ convertLastUpdate (last_update_of (Str s)) = Ok t)
         (rows jhu_example).
Proof.
  apply (processJHUProvinceState_needs_last_update jhu_example
           (get_ok (processJHUProvinceState jhu_example))).
  vm_compute. reflexivity.
Defined.

Lemma processJHUProvinceState_columns_witness :
  columns (get_ok (processJHUProvinceState jhu_example))
  = ["Confirmed"; "Latitude"; "Longitude"; "US_County"; "CountryRegion"; "StateProvince";
     "LastUpdateDatetime"; "LastUpdateDate"].
Proof.
  destruct (processJHUProvinceState_columns jhu_example
              (get_ok (processJHUProvinceState jhu_example))) as (H & _).
  - vm_compute. reflexivity.
  - rewrite H. vm_compute. reflexivity.
Defined.

Lemma processJHUProvinceState_last_update_witness :
  Forall2 (fun r0 r' => exists t,
             convertLastUpdate (last_update_of (last_update_text r0)) = Ok t
             /\ cell r' "LastUpdateDatetime" = cell_of_datetime t
             /\ cell r' "LastUpdateDate" = date_part (cell_of_datetime t))
          (filter (fun r0 => kept_by_jhu r0 = true) (rows jhu_example))
          (rows (get_ok (processJHUProvinceState jhu_example)))
  /\ last_update_text <$> filter (fun r0 => kept_by_jhu r0 = true) (rows jhu_example)
     = [Str "2020-03-22 23:45:00"; Str "2020-03-01T08:00:00"; Str "2020-03-22 23:45:00"]
  /\ (fun r' => cell r' "LastUpdateDatetime")
       <$> rows (get_ok (processJHUProvinceState jhu_example))
     = [DateTime (mkDateTime (mkDate 2020 3 22) 23 45 0);
        DateTime (mkDateTime (mkDate 2020 3 1) 8 0 0);
        DateTime (mkDateTime (mkDate 2020 3 22) 23 45 0)].
Proof.
  split; [|split].
  - apply (processJHUProvinceState_last_update jhu_example). vm_compute. reflexivity.
  - vm_compute. reflexivity.
  - vm_compute. reflexivity.
Defined.

Lemma processJHUProvinceState_keeps_the_other_rows_witness :
  Forall2 (fun r0 r' =>
             untouched jhu_touched r0 r'
             /\ cell r' "StateProvince"
                = text_or (cell r0 "Province/State") (cell r0 "Province_State")
             /\ ("Admin2" ∈ columns jhu_example -> "US_County" ∉ columns jhu_example ->
                 cell r' "US_County" = cell r0 "Admin2"))
          (filter (fun r0 => kept_by_jhu r0 = true) (rows jhu_example))
          (rows (get_ok (processJHUProvinceState jhu_example)))
  /\ (fun r' => (cell r' "StateProvince", cell r' "US_County", cell r' "Confirmed"))
       <$> rows (get_ok (processJHUProvinceState jhu_example))
     = [(Str "New York", Str "New York City", num 100); (Str "Ontario", NaN, num 4);
        (NaN, NaN, num 7)].
Proof.
  split.
  - apply (processJHUProvinceState_keeps_the_other_rows jhu_example). vm_compute. reflexivity.
  - vm_compute. reflexivity.
Defined.

(** ** State-level historical counts *)

Lemma to_date_column_converts to_datetime fmt col :
  Forall (converts to_datetime fmt) col ->
  to_date_column to_datetime fmt col = Ok (to_date to_datetime fmt <$> col).
Proof.
  intros H. unfold to_date_column.
  assert (traverse (to_datetime fmt) col
          = Ok ((fun c => match to_datetime fmt c with Ok t => t | Raise _ => NaN end) <$> col))
    as ->.
  { apply traverse_total_Forall. eapply Forall_impl; [exact H|].
    intros c [->|[t ->]]; reflexivity. }
  rewrite result_bind_Ok.
  assert (Hd : Forall (fun c => timestamp_date
                         (match to_datetime fmt c with Ok t => t | Raise _ => NaN end)
                       = Ok (to_date to_datetime fmt c)) col).
  { eapply Forall_impl; [exact H|]. intros c [E|[t E]]; unfold to_date; by rewrite E. }
  clear H. induction Hd as [|c cs Hc _ IH]; [done|].
  cbn [fmap list_fmap traverse]. rewrite Hc, result_bind_Ok.
  cbn [fmap list_fmap] in IH. by rewrite IH.
Qed.

Lemma drop_columns_reports_missing df labels :
  missing_labels df labels <> [] ->
  drop_columns df labels = Raise (KeyError (missing_labels df labels)).
Proof.
  unfold drop_columns, missing_labels. by destruct (filter _ labels).
Qed.

(** X15: The state-level historical transform on a frame that has the four
    tracking columns, [date] and [state], and whose dates convert: it
    returns the frame without the four columns, in the order of the input;
    [date] holds the calendar date of the converted value and every other
    cell is as in the input. *)
Theorem processCovidTrackingStateHistorical_returns
    (to_datetime : string -> Cell -> result Cell) (df : DataFrame) :
  Forall (fun l => l ∈ columns df) state_colsToDrop ->
  "date" ∈ columns df -> "state" ∈ columns df ->
  Forall (fun r => converts to_datetime "%Y%m%d" (cell r "date")) (rows df) ->
  exists out,
    processCovidTrackingStateHistorical to_datetime df = Ok out
    /\ columns out = filter (fun c => c ∉ state_colsToDrop) (columns df)
    /\ Forall2 (fun r r' =>
                  cell r' "date" = to_date to_datetime "%Y%m%d" (cell r "date")
                  /\ (forall l, l ∈ state_colsToDrop -> cell r' l = NaN)
                  /\ (forall l, l ∉ state_colsToDrop -> l <> "date" -> cell r' l = cell r l))
               (rows df) (rows out).
Proof.
  intros Hall Hdate Hstate Hconv. unfold processCovidTrackingStateHistorical.
  fold state_colsToDrop. rewrite (drop_columns_present _ _ Hall), result_bind_Ok.
  set (df1 := mkFrame _ _ _).
  assert (Hcols1 : forall l, l ∉ state_colsToDrop -> l ∈ columns df -> l ∈ columns df1).
  { intros l Hl Hin. simpl. by apply list_elem_of_filter. }
  rewrite (getattr_present df1 "date") by (apply Hcols1; [in_list|done]).
  rewrite result_bind_Ok.
  rewrite to_date_column_converts.
  2:{ simpl. rewrite <- list_fmap_compose. apply Forall_fmap.
      eapply Forall_impl; [exact Hconv|]. intros r Hr.
      unfold compose. rewrite !cell_delete. exact Hr. }
  rewrite result_bind_Ok. cbv zeta.
  set (df2 := setitem df1 "date" _).
  assert (HC2 : columns df2 = columns df1).
  { subst df2. cbn [columns setitem]. rewrite decide_True; [done|].
    apply Hcols1; [in_list|done]. }
  destruct (foldM_astype_category_columns ["date"; "state"] df2) as (out & E & HC).
  { rewrite HC2. repeat constructor; apply Hcols1; (in_list || done). }
  exists out. split; [exact E|]. split; [by rewrite HC, HC2|].
  apply foldM_astype_category_same in E as (RS & _ & _).
  eapply Forall2_compose; [| |exact RS].
  2:{ subst df2 df1. cbn [rows setitem]. rewrite <- !list_fmap_compose.
      rewrite zip_with_fmap_l, zip_with_fmap_r, zip_with_diag.
      apply Forall2_fmap_self. }
  intros r y r' -> Hyz. unfold compose in *. rewrite !Hyz.
  split; [|split].
  - rewrite cell_insert, decide_True by done.
    by rewrite cell_foldr_delete by in_list.
  - intros l Hl. rewrite Hyz, cell_insert. rewrite decide_False by (intros <-; revert Hl; in_list).
    clear -Hl. unfold state_colsToDrop in *. cbn [foldr]. rewrite !cell_delete.
    repeat (apply elem_of_cons in Hl as [->|Hl]; [repeat case_decide; done|]).
    by apply elem_of_nil in Hl.
  - intros l Hl Hd. rewrite Hyz, cell_insert, decide_False by done.
    by apply cell_foldr_delete.
Qed.

(** X16: How the state-level historical transform fails: the [KeyError] of
    [drop] names exactly the tracking columns the input lacks; an input
    without [date] is an [AttributeError]; and an input that has all of
    these but no [state] column, as the country-level file, is a
    [KeyError] on [state]. *)
Theorem processCovidTrackingStateHistorical_raises
    (to_datetime : string -> Cell -> result Cell) (df : DataFrame) :
  (missing_labels df state_colsToDrop <> [] ->
   processCovidTrackingStateHistorical to_datetime df
   = Raise (KeyError (missing_labels df state_colsToDrop)))
  /\ (Forall (fun l => l ∈ columns df) state_colsToDrop -> "date" ∉ columns df ->
      processCovidTrackingStateHistorical to_datetime df = Raise (AttributeError "date"))
  /\ (Forall (fun l => l ∈ columns df) state_colsToDrop -> "date" ∈ columns df ->
      Forall (fun r => converts to_datetime "%Y%m%d" (cell r "date")) (rows df) ->
      "state" ∉ columns df ->
      processCovidTrackingStateHistorical to_datetime df = Raise (KeyError ["state"])).
Proof.
  unfold processCovidTrackingStateHistorical. fold state_colsToDrop. split; [|split].
  - intros H. by rewrite (drop_columns_reports_missing _ _ H).
  - intros Hall Hdate. rewrite (drop_columns_present _ _ Hall), result_bind_Ok.
    unfold getattr. rewrite decide_False; [done|].
    cbn [columns]. by intros [_ ?]%list_elem_of_filter.
  - intros Hall Hdate Hconv Hstate.
    rewrite (drop_columns_present _ _ Hall), result_bind_Ok.
    set (df1 := mkFrame _ _ _).
    assert (Hd1 : "date" ∈ columns df1).
    { simpl. apply list_elem_of_filter. split; [in_list|done]. }
    rewrite (getattr_present df1 "date") by done. rewrite result_bind_Ok.
    rewrite to_date_column_converts.
    2:{ simpl. rewrite <- list_fmap_compose. apply Forall_fmap.
        eapply Forall_impl; [exact Hconv|]. intros r Hr.
        unfold compose. rewrite !cell_delete. exact Hr. }
    rewrite result_bind_Ok. cbv zeta.
    set (df2 := setitem df1 "date" _).
    assert (HC2 : columns df2 = columns df1).
    { subst df2. cbn [columns setitem]. by rewrite decide_True. }
    cbn [foldM].
    destruct (astype_category_Ok df2 "date") as (df3 & -> & HC3 & _); [by rewrite HC2|].
    rewrite result_bind_Ok. unfold astype_category at 1, getcol.
    rewrite decide_False; [done|].
    rewrite HC3, HC2. cbn [columns df1]. by intros [_ ?]%list_elem_of_filter.
Qed.

Lemma processCovidTrackingStateHistorical_returns_witness :
  exists out,
    processCovidTrackingStateHistorical to_datetime_model states_daily = Ok out
    /\ columns out = ["date"; "state"; "positive"].
Proof.
  destruct (processCovidTrackingStateHistorical_returns to_datetime_model states_daily)
    as (out & E & HC & HR).
  - in_list.
  - in_list.
  - in_list.
  - apply Forall_cons_2; [|apply Forall_nil_2]. right. eexists. vm_compute. reflexivity.
  - exists out. split; [exact E|]. rewrite HC. vm_compute. reflexivity.
Defined.

Lemma processCovidTrackingStateHistorical_raises_witness :
  processCovidTrackingStateHistorical to_datetime_model us_daily = Raise (KeyError ["state"])
  /\ processCovidTrackingStateHistorical to_datetime_model dxy_overall
     = Raise (KeyError ["hash"; "posNeg"; "fips"; "dateChecked"]).
Proof.
  destruct (processCovidTrackingStateHistorical_raises to_datetime_model us_daily)
    as (_ & _ & H3).
  destruct (processCovidTrackingStateHistorical_raises to_datetime_model dxy_overall)
    as (H1 & _ & _).
  split.
  - apply H3.
    + in_list.
    + in_list.
    + apply Forall_cons_2; [|apply Forall_nil_2]. right. eexists. vm_compute. reflexivity.
    + in_list.
  - rewrite H1; [vm_compute; reflexivity|]. vm_compute. discriminate.
Defined.

(** ** Province-level counts: the groups of the running maximum *)

Lemma cell_bind_cells_other labels cs (r : Row) l :
  l ∉ labels -> cell (bind_cells labels cs r) l = cell r l.
Proof.
  unfold bind_cells. revert cs. induction labels as [|x labels IH]; intros cs Hl; [done|].
  destruct cs as [|c cs]; [done|]. simpl. apply not_elem_of_cons in Hl as [Hx Hl].
  rewrite cell_insert, decide_False by done. by apply IH.
Qed.

Lemma key_of_bind_cells keys k (r : Row) :
  NoDup keys -> length k = length keys -> key_of keys (bind_cells keys k r) = k.
Proof.
  unfold key_of, bind_cells. intros Hnd. revert k.
  induction Hnd as [|x keys Hx Hnd IH]; intros k Hlen.
  - by destruct k.
  - destruct k as [|c k]; [done|]. simpl in *. rewrite cell_insert, decide_True by done.
    f_equal. etrans; [|apply (IH k); lia].
    apply list_fmap_ext. intros i l Hl. rewrite cell_insert, decide_False; [done|].
    intros ->. apply Hx. by eapply list_elem_of_lookup_2.
Qed.

Lemma elem_of_product ls k : k ∈ product ls -> Forall2 (fun l x => x ∈ l) ls k.
Proof.
  revert k. induction ls as [|l ls IH]; intros k; simpl.
  - intros ->%list_elem_of_singleton. constructor.
  - intros (x & Hk & Hx)%list_elem_of_bind.
    apply list_elem_of_fmap in Hk as (k' & -> & Hk'). constructor; auto.
Qed.

Lemma NoDup_product ls : Forall NoDup ls -> NoDup (product ls).
Proof.
  induction 1 as [|l ls Hl _ IH]; simpl; [apply NoDup_singleton|].
  induction Hl as [|x l Hx _ IHl]; [constructor|].
  rewrite bind_cons. apply NoDup_app. split; [|split].
  - apply NoDup_fmap_2; [|exact IH]. by intros a b [=].
  - intros k (k1 & -> & _)%list_elem_of_fmap (y & Hk & Hy)%list_elem_of_bind.
    apply list_elem_of_fmap in Hk as (k2 & [= -> _] & _). done.
  - exact IHl.
Qed.

Lemma NoDup_sorted_unique l : NoDup (sorted_unique l).
Proof. unfold sorted_unique. rewrite merge_sort_Permutation. apply NoDup_remove_dups. Qed.

Lemma length_key_of keys r : length (key_of keys r) = length keys.
Proof. unfold key_of. by rewrite length_fmap. Qed.

Lemma group_index_spec observed keys df :
  Forall (fun k => forall cs, categories df !! k = Some cs -> NoDup cs) keys ->
  NoDup (group_index observed keys df)
  /\ Forall (fun k => length k = length keys) (group_index observed keys df).
Proof.
  intros Hcat. unfold group_index. destruct (_ || _).
  - split; [apply observed_keys_NoDup|]. apply Forall_forall.
    intros k (_ & r & _ & ->)%elem_of_observed_keys. apply length_key_of.
  - split.
    + apply NoDup_product, Forall_fmap. eapply Forall_impl; [exact Hcat|].
      intros k Hk. unfold compose, levels. destruct (categories df !! k) as [cs|] eqn:E; [by apply Hk|].
      apply NoDup_sorted_unique.
    + apply Forall_forall. intros k Hk%elem_of_product.
      apply Forall2_length in Hk. by rewrite length_fmap in Hk.
Qed.

Lemma groupby_agg_keys observed keys aggs df g :
  groupby_agg observed keys aggs df = Ok g ->
  NoDup keys ->
  Forall (fun k => forall cs, categories df !! k = Some cs -> NoDup cs) keys ->
  columns g = keys ++ aggs.*1
  /\ key_of keys <$> rows g = group_index observed keys df
  /\ NoDup (group_index observed keys df).
Proof.
  unfold groupby_agg. destruct (missing_labels _ _); [|discriminate].
  intros [= <-] Hnd Hcat. destruct (group_index_spec observed keys df Hcat) as [Hn Hl].
  split; [done|]. split; [|done]. cbn [rows]. rewrite <- list_fmap_compose.
  rewrite <- (list_fmap_id (group_index observed keys df)) at 2.
  apply Forall_fmap_ext. eapply Forall_impl; [exact Hl|]. intros k Hk.
  cbn. by apply key_of_bind_cells.
Qed.

Lemma ffill_rows_other (cols : list string) last rs :
  Forall2 (fun r r' : Row => forall l, l ∉ cols -> cell r' l = cell r l)
          rs (ffill_rows cols last rs).
Proof.
  revert last. induction rs as [|r rs IH]; intros last; simpl; constructor; [|apply IH].
  clear IH. intros l Hl. induction cols as [|c cols IHc]; [done|]. simpl.
  apply not_elem_of_cons in Hl as [Hc Hl].
  destruct (is_nan (cell r c)); [|by apply IHc].
  rewrite cell_insert, decide_False by done. by apply IHc.
Qed.

Lemma cummax_rows_other keys (cols : list string) seen rs :
  Forall2 (fun r r' : Row => forall l, l ∉ cols -> cell r' l = cell r l)
          rs (cummax_rows keys cols seen rs).
Proof.
  revert seen. induction rs as [|r rs IH]; intros seen; simpl; constructor; [|apply IH].
  clear IH. intros l Hl. generalize (group_rows keys (key_of keys r) seen). intros same.
  induction cols as [|c cols IHc]; [done|]. simpl.
  apply not_elem_of_cons in Hl as [Hc Hl].
  rewrite cell_insert, decide_False by done. by apply IHc.
Qed.

Lemma key_of_same keys (cols : list string) (rs rs' : list Row) :
  Forall (fun k => k ∉ cols) keys ->
  Forall2 (fun r r' : Row => forall l, l ∉ cols -> cell r' l = cell r l) rs rs' ->
  key_of keys <$> rs' = key_of keys <$> rs.
Proof.
  intros Hk. induction 1 as [|r r' rs rs' Hr _ IH]; [done|].
  cbn [fmap list_fmap]. f_equal; [|exact IH].
  unfold key_of. apply Forall_fmap_ext. eapply Forall_impl; [exact Hk|].
  intros k Hkc. by apply Hr.
Qed.

(** The categories that [astype('category')] leaves. *)
Lemma foldM_astype_category_categories cols df df' :
  foldM astype_category df cols = Ok df' ->
  Forall (fun k => forall cs, categories df' !! k = Some cs -> NoDup cs) cols.
Proof.
  intros H.
  assert (Hkeep : forall cols df df' k,
             foldM astype_category df cols = Ok df' ->
             (forall cs, categories df !! k = Some cs -> NoDup cs) ->
             forall cs, categories df' !! k = Some cs -> NoDup cs).
  { clear. induction cols as [|c cols IH]; intros df df' k H Hk; simpl in H.
    - by injection H as <-.
    - bind_inv H. apply (IH a df' k H). unfold astype_category in E. bind_inv E.
      injection E as <-. cbn [categories]. intros cs.
      destruct (decide (c = k)) as [->|Hne].
      + rewrite lookup_insert_eq. intros [= <-]. apply NoDup_sorted_unique.
      + rewrite lookup_insert_ne by done. apply Hk. }
  revert df H. induction cols as [|c cols IH]; intros df H; [constructor|].
  simpl in H. bind_inv H. constructor; [|by eapply IH].
  eapply Hkeep; [exact H|]. unfold astype_category in E. bind_inv E. injection E as <-.
  cbn [categories]. intros cs. rewrite lookup_insert_eq. intros [= <-].
  apply NoDup_sorted_unique.
Qed.

(** X17: The frame [processDxyCovid19Region] returns has the four group columns
    and the four counts, and at most one row for each continent, country,
    province and date: the groups over which its last step takes the
    running maximum have one row each. *)
Theorem processDxyCovid19Region_one_row_per_key
    (to_datetime : string -> Cell -> result Cell) (observed : bool) (df out : DataFrame) :
  processDxyCovid19Region to_datetime observed df = Ok out ->
  columns out = region_keys ++ count_columns
  /\ NoDup (key_of region_keys <$> rows out).
Proof.
  unfold processDxyCovid19Region. intros H.
  bind_inv H. cbv zeta in H. bind_inv H. bind_inv H. bind_inv H. bind_inv H. bind_inv H.
  bind_inv H. bind_inv H. bind_inv H. injection H as <-.
  apply foldM_astype_category_categories in E5 as Hcat.
  apply groupby_agg_keys in E7 as (HC & HK & Hnd).
  - cbn [columns rows groupby_cummax ffill]. split.
    + rewrite HC. unfold count_columns. by rewrite <- list_fmap_compose.
    + assert (Hk : Forall (fun k => k ∉ count_columns) region_keys) by in_list.
      rewrite (key_of_same region_keys count_columns _ _ Hk (cummax_rows_other _ _ _ _)).
      rewrite (key_of_same region_keys count_columns _ _ Hk (ffill_rows_other _ _ _)).
      unfold region_keys. rewrite HK. exact Hnd.
  - in_list.
  - cbn [categories boolean_index].
    apply Forall_forall. intros k Hk. apply (proj1 (Forall_forall _ _) Hcat).
    revert Hk. rewrite !elem_of_cons. tauto.
Qed.

Lemma processDxyCovid19Region_one_row_per_key_witness :
  columns (get_ok (processDxyCovid19Region to_datetime_model false dxy_area))
  = region_keys ++ count_columns
  /\ NoDup (key_of region_keys
              <$> rows (get_ok (processDxyCovid19Region to_datetime_model false dxy_area))).
Proof.
  apply (processDxyCovid19Region_one_row_per_key to_datetime_model false dxy_area).
  vm_compute. reflexivity.
Defined.

(** ** Country-level counts: the order of the output *)

Lemma lex_leb_total a b : lex_leb a b = true \/ lex_leb b a = true.
Proof.
  revert b. induction a as [|x a IH]; intros [|y b]; simpl; auto.
  destruct (IH b) as [H|H]; rewrite H;
    destruct (Z.ltb_spec x y), (Z.ltb_spec y x), (Z.eqb_spec x y), (Z.eqb_spec y x);
    simpl; auto; lia.
Qed.

Lemma cell_leb_total a b : cell_leb a b = true \/ cell_leb b a = true.
Proof.
  destruct a as [|s|p|d|t], b as [|s'|p'|d'|t']; simpl; auto.
  - apply String.leb_total.
  - destruct (Qle_bool p p') eqn:E; [by left|right].
    apply Qle_bool_iff. apply Qlt_le_weak, Qnot_le_lt. intros H.
    apply Qle_bool_iff in H. congruence.
  - apply lex_leb_total.
  - apply lex_leb_total.
Qed.

Lemma key_le_total : Total key_le.
Proof.
  intros a. unfold key_le. induction a as [|x a IH]; intros [|y b]; simpl; auto.
  destruct (decide (x = y)) as [->|Hne].
  - rewrite decide_True by done. apply IH.
  - rewrite decide_False by done. destruct (cell_leb_total x y) as [H|H]; rewrite H; auto.
Qed.

Lemma observed_keys_Sorted keys df : Sorted key_le (observed_keys keys df).
Proof. unfold observed_keys. apply Sorted_merge_sort, key_le_total. Qed.

Lemma cell_leb_refl a : cell_leb a a = true.
Proof. by destruct (cell_leb_total a a). Qed.

Lemma Sorted_singletons (l : list Cell) :
  Sorted key_le ((fun c => [c]) <$> l) -> Sorted cell_le l.
Proof.
  induction l as [|a l IH]; [constructor|]. cbn [fmap list_fmap].
  intros H. apply Sorted_inv in H as [Hs Hh]. constructor; [by apply IH|].
  destruct l as [|b l]; constructor. apply HdRel_inv in Hh.
  unfold key_le, cell_le in *. simpl in Hh. case_decide; [subst; by rewrite cell_leb_refl|done].
Qed.

(** X19: The rows [processDxyCovid19Country] returns are in ascending order of
    date, whatever the order of the input: [groupby] sorts the groups by
    their key. *)
Theorem processDxyCovid19Country_sorted_by_date
    (to_datetime : string -> Cell -> result Cell) (group_keys : bool) (df : DataFrame) :
  Forall (fun l => l ∈ columns df) country_colsToKeep ->
  Forall (has_timestamp to_datetime) (rows df) ->
  NoDup ((fun r => cell r "updateTime") <$> rows df) ->
  (group_keys = true
   \/ exists i j r1 r2, i <> j /\ rows df !! i = Some r1 /\ rows df !! j = Some r2
                        /\ date_of to_datetime r1 = date_of to_datetime r2) ->
  exists out,
    processDxyCovid19Country to_datetime group_keys df = Ok out
    /\ Sorted cell_le ((fun r' => cell r' "date") <$> rows out).
Proof.
  intros Hcols Hts Hnd Hmut.
  destruct (country_prepare to_datetime group_keys df Hcols Hts) as (p & -> & Cp & Rp).
  (* the rows that reach the group-by, against the input rows *)
  assert (Hrow : forall n r0 r, rows df !! n = Some r0 -> rows p !! n = Some r ->
             cell r "updateTime" = cell r0 "updateTime"
             /\ cell r "date" = date_of to_datetime r0
             /\ is_nan (cell r "date") = false
             /\ is_text (cell r "updateTime")
             /\ cell r "confirmed" = cell r0 "confirmedCount"
             /\ cell r "suspected" = cell r0 "suspectedCount"
             /\ cell r "recovered" = cell r0 "curedCount"
             /\ cell r "death" = cell r0 "deadCount"
             /\ cell r "serious" = cell r0 "seriousCount").
  { intros n r0 r Hr0 Hr. pose proof (Forall2_lookup_lr _ _ _ _ _ _ Rp Hr0 Hr) as F.
    apply list_elem_of_lookup_2 in Hr0.
    destruct (proj1 (Forall_forall _ _) Hts r0 Hr0) as (Htext & t & Ht).
    unfold country_prepared in F. cells.
    repeat match goal with H : cell r _ = _ |- _ => rewrite H end.
    unfold date_of. rewrite Ht. simpl. tauto. }
  assert (Hlen : length (rows df) = length (rows p)) by (by eapply Forall2_length).
  assert (Hpre : forall r, r ∈ rows p -> exists n r0, rows df !! n = Some r0 /\ rows p !! n = Some r).
  { intros r [n Hn]%list_elem_of_lookup.
    destruct (Forall2_lookup_r _ _ _ _ _ Rp Hn) as (r0 & Hr0 & _). eauto. }
  assert (Himg : forall n r0, rows df !! n = Some r0 -> exists r, rows p !! n = Some r).
  { intros n r0 Hn. destruct (Forall2_lookup_l _ _ _ _ _ Rp Hn) as (r & Hr & _). eauto. }
  assert (Hut : (fun r => cell r "updateTime") <$> rows p
                = (fun r => cell r "updateTime") <$> rows df).
  { apply list_eq. intros n. rewrite !list_lookup_fmap.
    destruct (rows df !! n) as [r0|] eqn:E0.
    - destruct (Himg n r0 E0) as [r Er]. rewrite Er. simpl. f_equal.
      by apply (Hrow n r0 r).
    - apply lookup_ge_None in E0. rewrite lookup_ge_None_2 by lia. done. }
  (* one kept row in every group *)
  assert (Hgroup : Forall (fun k => exists r,
                     latest (group_rows ["date"] k (rows p)) = [r]
                     /\ (r ∈ rows p /\ k = [cell r "date"]
                         /\ Forall (fun r2 => key_of ["date"] r2 = k ->
                                      cell_leb (cell r2 "updateTime") (cell r "updateTime") = true)
                                   (rows p)))
                   (observed_keys ["date"] p)).
  { apply Forall_forall. intros k (Hnan & rk & Hrk & ->)%elem_of_observed_keys.
    destruct (latest_unique (group_rows ["date"] (key_of ["date"] rk) (rows p)))
      as (r & Hl & Hr & Hmax).
    - apply Forall_forall. intros x [_ Hx]%list_elem_of_filter.
      destruct (Hpre x Hx) as (n & x0 & Hx0 & Hxn). by apply (Hrow n x0 x).
    - intros E. assert (rk ∈ group_rows ["date"] (key_of ["date"] rk) (rows p)) as Hin
        by (by apply list_elem_of_filter).
      rewrite E in Hin. by apply elem_of_nil in Hin.
    - rewrite <- Hut in Hnd.
      eapply sublist_NoDup; [exact Hnd|]. apply fmap_sublist, sublist_filter.
    - exists r. split; [done|]. apply list_elem_of_filter in Hr as [Hkey Hr].
      split; [done|]. split; [by rewrite <- Hkey|].
      apply Forall_forall. intros x Hx Hk.
      apply (proj1 (Forall_forall _ _) Hmax). by apply list_elem_of_filter. }
  destruct (country_tail group_keys p) as (out & -> & Cout & Rout).
  { rewrite Cp. in_list. }
  { rewrite Cp. in_list. }
  { rewrite Cp. in_list. }
  { destruct Hmut as [->|(i & j & r1 & r2 & Hij & Hi & Hj & Hsame)]; [by left|].
    destruct (Himg i r1 Hi) as [p1 Hp1]. destruct (Himg j r2 Hj) as [p2 Hp2].
    destruct (Hrow i r1 p1 Hi Hp1) as (_ & Hd1 & Hn1 & _).
    destruct (Hrow j r2 p2 Hj Hp2) as (_ & Hd2 & _).
    right. exists [cell p1 "date"].
    assert (Hk : [cell p1 "date"] ∈ observed_keys ["date"] p).
    { apply elem_of_observed_keys. split; [simpl; by rewrite Hn1|].
      exists p1. split; [by eapply list_elem_of_lookup_2|done]. }
    split; [done|].
    destruct (proj1 (Forall_forall _ _) Hgroup _ Hk) as (r & -> & _). simpl.
    pose proof (length_filter_two (fun r => key_of ["date"] r = [cell p1 "date"])
                  (rows p) i j p1 p2 Hij Hp1 Hp2) as Hge.
    unfold group_rows. intros E. rewrite <- E in Hge.
    assert (2 <= 1)%nat; [apply Hge|lia].
    - done.
    - simpl. by rewrite Hd1, Hd2, Hsame. }
  exists out. split; [done|].
  pose proof (Forall2_bind_singletons
                (fun k => latest (group_rows ["date"] k (rows p))) country_row _ _ Hgroup)
    as F2.
  cbv beta in F2. rewrite <- Rout in F2.
  assert (Hkeys : observed_keys ["date"] p
                  = (fun c => [c]) <$> ((fun r' => cell r' "date") <$> rows out)).
  { rewrite <- list_fmap_compose. apply list_eq. intros n. rewrite list_lookup_fmap.
    destruct (observed_keys ["date"] p !! n) as [k|] eqn:Ek.
    - destruct (Forall2_lookup_l _ _ _ _ _ F2 Ek) as (r' & -> & r & _ & (_ & -> & _) & ->).
      simpl. by rewrite cell_country_row, decide_True.
    - apply lookup_ge_None in Ek. apply Forall2_length in F2.
      rewrite lookup_ge_None_2 by lia. done. }
  apply Sorted_singletons. rewrite <- Hkeys. apply observed_keys_Sorted.
Qed.

Lemma processDxyCovid19Country_sorted_by_date_witness :
  exists out,
    processDxyCovid19Country to_datetime_model true dxy_overall = Ok out
    /\ Sorted cell_le ((fun r' => cell r' "date") <$> rows out).
Proof.
  apply processDxyCovid19Country_sorted_by_date.
  - in_list.
  - repeat (apply Forall_cons_2;
            [split; [by eexists|eexists; vm_compute; reflexivity]|]).
    apply Forall_nil_2.
  - in_list.
  - by left.
Defined.

(** ** The fetcher *)

(** ** The calendar *)

Lemma valid_date_bounds d :
  valid_date d = true ->
  1 <= year d <= 9999 /\ 1 <= month d <= 12
  /\ 1 <= day d <= days_in_month (year d) (month d)
  /\ 28 <= days_in_month (year d) (month d) <= 31.
Proof.
  unfold valid_date. rewrite !andb_true_iff, !Z.leb_le. intros [[[[[? ?] ?] ?] ?] ?].
  repeat split; try lia; unfold days_in_month;
    repeat match goal with |- context [if ?b then _ else _] => destruct b end; lia.
Qed.

Lemma date_leb_index a b :
  valid_date a = true -> valid_date b = true ->
  date_leb a b = (day_index a <=? day_index b).
Proof.
  intros (Ya & Ma & Da & Ba)%valid_date_bounds (Yb & Mb & Db & Bb)%valid_date_bounds.
  unfold date_leb, day_index. cbn [lex_leb].
  destruct (Z.ltb_spec (year a) (year b)), (Z.eqb_spec (year a) (year b)),
    (Z.ltb_spec (month a) (month b)), (Z.eqb_spec (month a) (month b)),
    (Z.ltb_spec (day a) (day b)), (Z.eqb_spec (day a) (day b));
    cbn [orb andb]; symmetry;
    first [apply Z.leb_le; lia | apply Z.leb_gt; lia].
Qed.

Lemma day_index_inj a b :
  valid_date a = true -> valid_date b = true -> day_index a = day_index b -> a = b.
Proof.
  intros (Ya & Ma & Da & Ba)%valid_date_bounds (Yb & Mb & Db & Bb)%valid_date_bounds.
  unfold day_index. destruct a as [ya ma da], b as [yb mb db]. cbn [year month day] in *.
  intros E. assert (ya = yb) as -> by lia. assert (ma = mb) as -> by lia.
  assert (da = db) as -> by lia. reflexivity.
Qed.

Lemma valid_date_intro y m d :
  1 <= y <= 9999 -> 1 <= m <= 12 -> 1 <= d <= days_in_month y m ->
  valid_date (mkDate y m d) = true.
Proof.
  intros. unfold valid_date. cbn [year month day].
  rewrite !andb_true_iff, !Z.leb_le. lia.
Qed.

Lemma next_day_valid d d' :
  valid_date d = true -> next_day d = Some d' ->
  valid_date d' = true /\ day_index d < day_index d'.
Proof.
  intros Hv. pose proof (valid_date_bounds d Hv) as (Y & M & D & B).
  unfold next_day, day_index.
  destruct (Z.ltb_spec (day d) (days_in_month (year d) (month d)));
    [|destruct (Z.ltb_spec (month d) 12); [|destruct (Z.ltb_spec (year d) 9999)]];
    intros [= <-]; cbn [year month day].
  - split; [apply valid_date_intro; lia|lia].
  - split; [|lia]. apply valid_date_intro; try lia.
    unfold days_in_month.
    repeat match goal with |- context [if ?b then _ else _] => destruct b end; lia.
  - split; [|lia]. apply valid_date_intro; try lia. vm_compute. split; discriminate.
Qed.

Lemma next_day_least d d' x :
  valid_date d = true -> valid_date x = true -> next_day d = Some d' ->
  day_index d < day_index x -> day_index d' <= day_index x.
Proof.
  intros Hv Hx. pose proof (valid_date_bounds d Hv) as (Y & M & D & B).
  pose proof (valid_date_bounds x Hx) as (Yx & Mx & Dx & Bx).
  unfold next_day, day_index.
  destruct (Z.ltb_spec (day d) (days_in_month (year d) (month d)));
    [|destruct (Z.ltb_spec (month d) 12); [|destruct (Z.ltb_spec (year d) 9999)]];
    intros [= <-]; cbn [year month day]; intros Hlt; try lia.
  - destruct (decide (year x = year d)) as [Ey|Ey]; [|lia].
    destruct (decide (month x = month d)) as [Em|Em]; [|lia].
    rewrite Ey, Em in Dx. lia.
  - destruct (decide (year x = year d)) as [Ey|Ey]; [|lia].
    destruct (decide (month x = month d)) as [Em|Em]; [|lia].
    rewrite Ey, Em in Dx. lia.
Qed.

Lemma next_day_is_Some d :
  valid_date d = true -> year d < 9999 -> is_Some (next_day d).
Proof.
  intros Hv Hy. unfold next_day.
  destruct (_ <? _); [by eexists|]. destruct (_ <? _); [by eexists|].
  destruct (Z.ltb_spec (year d) 9999); [by eexists|lia].
Qed.

(** ** The names of the staged days *)

Lemma digit_char_inj u v : 0 <= u <= 9 -> 0 <= v <= 9 -> digit_char u = digit_char v -> u = v.
Proof.
  intros Hu Hv E. apply (f_equal digit_val) in E.
  rewrite !digit_val_digit_char in E by done. congruence.
Qed.

Lemma strftime_mdY_inj a b :
  valid_date a = true -> valid_date b = true -> strftime_mdY a = strftime_mdY b -> a = b.
Proof.
  intros (Ya & Ma & Da & Ba)%valid_date_bounds (Yb & Mb & Db & Bb)%valid_date_bounds E.
  unfold strftime_mdY in E. apply (f_equal list_ascii_of_string) in E.
  rewrite !list_ascii_of_string_of_list_ascii in E.
  unfold two_digits, four_digits in E. cbn [app] in E.
  injection E as E1 E2 E3 E4 E5 E6 E7 E8.
  apply digit_char_inj in E1, E2, E3, E4, E5, E6, E7, E8;
    try (Z.div_mod_to_equations; lia).
  destruct a as [ya ma da], b as [yb mb db]. cbn [year month day] in *.
  f_equal; Z.div_mod_to_equations; lia.
Qed.

Lemma append_inv_head (p a b : string) : p +:+ a = p +:+ b -> a = b.
Proof. induction p as [|c p IH]; simpl; [done|]. intros [= E]. by apply IH. Qed.

Lemma append_inv_tail (a b s : string) : a +:+ s = b +:+ s -> a = b.
Proof.
  intros E. apply (f_equal chars) in E. rewrite !chars_app in E.
  apply app_inv_tail in E. apply (f_equal string_of_list_ascii) in E.
  by rewrite !string_of_chars in E.
Qed.

Lemma jhu_staging_key_inj folder a b :
  valid_date a = true -> valid_date b = true ->
  jhu_staging_key folder a = jhu_staging_key folder b -> a = b.
Proof.
  intros Ha Hb E. unfold jhu_staging_key in E. apply append_inv_head in E.
  apply (append_inv_head "jhu-") in E. apply append_inv_tail in E.
  by apply strftime_mdY_inj.
Qed.

Section FetchFacts.
Variable fetch : string -> result DataFrame.
Variable to_csv : DataFrame -> string.
Variable str_exn : exn -> string.

(** One day: the fetched frame is staged under the name of the day; a
  failed fetch is logged and nothing is written. *)
Lemma fetch_day_spec folder baseURL (d : date) w :
exists out,
  fetch_day fetch to_csv str_exn folder baseURL (strftime_mdY d) w
  = (Ok tt,
     mkWorld (match fetch (jhu_url baseURL d) with
              | Ok df => <[jhu_staging_key folder d := to_csv df]> (bucket w)
              | Raise _ => bucket w
              end) out).
Proof.
unfold fetch_day, jhu_url, jhu_staging_key. io.
destruct (fetch _); cbn [bucket stdout fst snd]; by eexists.
Qed.

Lemma getJhuData_loop_spec folder baseURL stop :
valid_date stop = true -> year stop < 9999 ->
forall fuel cur w,
  valid_date cur = true ->
  (Z.to_nat (day_index stop - day_index cur + 1) < fuel)%nat ->
  exists w',
    getJhuData_loop fetch to_csv str_exn fuel folder baseURL cur stop w = Finished (Ok tt) w'
    /\ (forall d, in_range cur stop d ->
          bucket w' !! jhu_staging_key folder d
          = match fetch (jhu_url baseURL d) with
            | Ok df => Some (to_csv df)
            | Raise _ => bucket w !! jhu_staging_key folder d
            end)
    /\ (forall k, (forall d, in_range cur stop d -> k <> jhu_staging_key folder d) ->
          bucket w' !! k = bucket w !! k).
Proof.
intros Hstop Hy. induction fuel as [|fuel IH]; intros cur w Hcur Hfuel; [lia|].
pose proof (valid_date_bounds _ Hstop) as (Ys & Ms & Ds & Bs).
pose proof (valid_date_bounds _ Hcur) as (Yc & Mc & Dc & Bc).
cbn [getJhuData_loop]. rewrite (date_leb_index cur stop) by done.
destruct (Z.leb_spec (day_index cur) (day_index stop)) as [Hle|Hgt].
- destruct (fetch_day_spec folder baseURL cur w) as [out1 ->].
  destruct (next_day_is_Some cur Hcur) as [c' Hc'].
  { unfold day_index in Hle. lia. }
  rewrite Hc'. destruct (next_day_valid _ _ Hcur Hc') as [Hv' Hlt].
  set (w1 := mkWorld _ out1).
  destruct (IH c' w1 Hv') as (w' & -> & Hin & Hout); [lia|].
  exists w'. split; [done|].
  assert (Hsplit : forall d, in_range cur stop d -> d = cur \/ in_range c' stop d).
  { intros d (Hd & H1 & H2). rewrite date_leb_index in H1, H2 by done.
    apply Z.leb_le in H1, H2.
    destruct (decide (day_index d = day_index cur)) as [E|E].
    - left. by apply day_index_inj.
    - right. split; [done|]. split; [|by rewrite date_leb_index by done; apply Z.leb_le].
      rewrite date_leb_index by done. apply Z.leb_le.
      apply (next_day_least cur c' d); try done. lia. }
  assert (Hcur_in : in_range cur stop cur).
  { split; [done|]. rewrite !date_leb_index by done. split; apply Z.leb_le; lia. }
  assert (Hsub : forall d, in_range c' stop d -> in_range cur stop d).
  { intros d (Hd & H1 & H2). split; [done|]. split; [|done].
    rewrite date_leb_index in * by done. apply Z.leb_le. apply Z.leb_le in H1. lia. }
  assert (Hnot : ~ in_range c' stop cur).
  { intros (_ & H1 & _). rewrite date_leb_index in H1 by done. apply Z.leb_le in H1. lia. }
  split.
  + intros d Hd. destruct (Hsplit d Hd) as [->|Hd'].
    * rewrite Hout.
      -- subst w1. cbn [bucket]. destruct (fetch _); [by rewrite lookup_insert_eq|done].
      -- intros d' Hd' E. apply jhu_staging_key_inj in E; [|done|by destruct Hd'].
         subst d'. by apply Hnot.
    * rewrite (Hin d Hd'). destruct (fetch (jhu_url baseURL d)); [done|].
      subst w1. cbn [bucket]. destruct (fetch _); [|done].
      rewrite lookup_insert_ne; [done|].
      intros E. apply jhu_staging_key_inj in E; [|done|by destruct Hd'].
      subst d. by apply Hnot.
  + intros k Hk. rewrite Hout by (intros d Hd; apply Hk, Hsub, Hd).
    subst w1. cbn [bucket]. destruct (fetch _); [|done].
    rewrite lookup_insert_ne; [done|]. intros E. by apply (Hk cur Hcur_in).
- exists w. split; [done|]. split; [|done].
  intros d (Hd & H1 & H2). rewrite date_leb_index in H1, H2 by done.
  apply Z.leb_le in H1, H2. lia.
Qed.

Lemma getJhuData_spec
  (self : Covid19Data) (folder baseURL : string) (start stop current : option date)
  (w : World) :
let first := default (currentDate self) current in
let last := default (endDate self) stop in
valid_date first = true -> valid_date last = true -> year last < 9999 ->
exists w',
  getJhuData fetch to_csv str_exn self folder baseURL start stop current w
  = Finished (Ok tt) w'
  /\ (forall d, in_range first last d ->
        bucket w' !! jhu_staging_key folder d
        = match fetch (jhu_url baseURL d) with
          | Ok df => Some (to_csv df)
          | Raise _ => bucket w !! jhu_staging_key folder d
          end)
  /\ (forall k, (forall d, in_range first last d -> k <> jhu_staging_key folder d) ->
        bucket w' !! k = bucket w !! k).
Proof.
intros first last Hfirst Hlast Hy. unfold getJhuData. fold first last.
apply getJhuData_loop_spec; try done. unfold turns. lia.
Qed.

(** X20: [getJhuData] over the days from [currentDate] to [endDate], in years
  of four digits: it returns without an exception, whatever the fetches
  do; every day whose fetch succeeds is staged as [jhu-mm-dd-YYYY.csv], a
  day whose fetch fails is left as it was, and no other object is
  written. *)
Theorem getJhuData_stages_each_day
  (self : Covid19Data) (folder baseURL : string) (start stop current : option date)
  (w : World) :
let first := default (currentDate self) current in
let last := default (endDate self) stop in
valid_date first = true -> valid_date last = true ->
1000 <= year first -> year last < 9999 ->
exists w',
  getJhuData fetch to_csv str_exn self folder baseURL start stop current w
  = Finished (Ok tt) w'
  /\ (forall d, in_range first last d ->
        bucket w' !! jhu_staging_key folder d
        = match fetch (jhu_url baseURL d) with
          | Ok df => Some (to_csv df)
          | Raise _ => bucket w !! jhu_staging_key folder d
          end)
  /\ (forall k, (forall d, in_range first last d -> k <> jhu_staging_key folder d) ->
        bucket w' !! k = bucket w !! k).
Proof. intros first last Hfirst Hlast _ Hy. by apply getJhuData_spec. Qed.

(** X21: There is no day after [date.max]: a run whose last day is 9999-12-31
  ends in the overflow of [currentDate + timedelta(days=1)]. *)
Theorem getJhuData_overflows_at_date_max
  (self : Covid19Data) (folder baseURL : string) (start current : option date)
  (w : World) :
valid_date (default (currentDate self) current) = true ->
exists w',
  getJhuData fetch to_csv str_exn self folder baseURL start (Some (mkDate 9999 12 31)) current w
  = Overflow w'.
Proof.
intros Hcur. unfold getJhuData. cbn [default]. unfold turns.
set (last := mkDate 9999 12 31). set (cur := default (currentDate self) current) in *.
assert (H : forall fuel c w,
           valid_date c = true ->
           (Z.to_nat (day_index last - day_index c + 1) < fuel)%nat ->
           exists w', getJhuData_loop fetch to_csv str_exn fuel folder baseURL c last w
                      = Overflow w').
{ assert (Hlast : valid_date last = true) by reflexivity.
  induction fuel as [|fuel IH]; intros c w0 Hc Hfuel; [lia|].
  pose proof (valid_date_bounds _ Hc) as (Yc & Mc & Dc & Bc).
  assert (Hle : day_index c <= day_index last).
  { unfold day_index, last. cbn [year month day].
    destruct (decide (year c = 9999)) as [Ey|?]; [|lia].
    destruct (decide (month c = 12)) as [Em|?]; [|lia].
    rewrite Ey, Em in Dc. change (days_in_month 9999 12) with 31 in Dc. lia. }
  cbn [getJhuData_loop]. rewrite (date_leb_index c last) by done.
  destruct (Z.leb_spec (day_index c) (day_index last)); [|lia].
  destruct (fetch_day_spec folder baseURL c w0) as [out1 ->].
  destruct (next_day c) as [c'|] eqn:Hc'; [|by eexists].
  destruct (next_day_valid _ _ Hc Hc') as [Hv' Hlt].
  apply IH; [done|lia]. }
apply H; [done|apply Nat.lt_succ_diag_r].
Qed.
End FetchFacts.

Section FetchRun.
Variable fetch : string -> result DataFrame.
Variable read_csv : string -> result DataFrame.
Variable to_csv : DataFrame -> string.
Variable str_exn : exn -> string.

Lemma fetch_key_spec staging k entry w :
exists w',
  fetch_key fetch to_csv str_exn staging k entry w = (Ok tt, w')
  /\ forall key, (forall x, key <> staging +:+ x) -> bucket w' !! key = bucket w !! key.
Proof.
unfold fetch_key. io.
destruct (fetch entry.2) as [df|e]; cbn [bucket stdout fst snd]; [|by eexists].
destruct (getFilename k entry.2 entry.1) as [filename|e]; cbn [bucket stdout fst snd];
  [|by eexists].
eexists. split; [done|]. cbn [bucket]. intros key Hkey.
by rewrite lookup_insert_ne.
Qed.

Lemma for_each_fetch_key staging k entries w :
exists w',
  for_each (fetch_key fetch to_csv str_exn staging k) entries w = (Ok tt, w')
  /\ forall key, (forall x, key <> staging +:+ x) -> bucket w' !! key = bucket w !! key.
Proof.
revert w. induction entries as [|entry entries IH]; intros w; [by eexists|].
cbn [for_each]. unfold io_bind at 1.
destruct (fetch_key_spec staging k entry w) as (w1 & -> & H1).
destruct (IH w1) as (w' & -> & H2). exists w'. split; [done|].
intros key Hkey. by rewrite H2, H1.
Qed.

(** X22: [getData] returns without an exception whatever the fetches do: a
  failure to fetch or to name a dataset is caught and logged, and the run
  goes on with the next dataset or day.  All it writes is under the
  staging folder. *)
Theorem getData_only_stages (self : Covid19Data) (staging : string) (w : World) :
valid_date (currentDate self) = true -> valid_date (endDate self) = true ->
1000 <= year (currentDate self) -> year (endDate self) < 9999 ->
exists w',
  getData fetch to_csv str_exn self staging w = Finished (Ok tt) w'
  /\ forall key, (forall x, key <> staging +:+ x) -> bucket w' !! key = bucket w !! key.
Proof.
intros Hcur Hend Hy0 Hy. unfold getData, sources. cbn [getData_sources String.eqb Ascii.eqb Bool.eqb].
destruct (for_each_fetch_key staging "NyTimes"
            [("County", "https://raw.githubusercontent.com/nytimes/covid-19-data/master/us-counties.csv")] w)
  as (w1 & -> & H1).
destruct (for_each_fetch_key staging "CovidTracking"
            [("StateHistorical", "https://covidtracking.com/api/v1/states/daily.csv");
             ("CountryHistorical", "https://covidtracking.com/api/v1/us/daily.csv")] w1)
  as (w2 & -> & H2).
destruct (for_each_fetch_key staging "DxyCovid19"
            [("Region", "https://raw.githubusercontent.com/BlankerL/DXY-COVID-19-Data/master/csv/DXYArea.csv");
             ("Country", "https://raw.githubusercontent.com/BlankerL/DXY-COVID-19-Data/master/csv/DXYOverall.csv")] w2)
  as (w3 & -> & H3).
cbn [assoc String.eqb Ascii.eqb Bool.eqb].
destruct (getJhuData_spec fetch to_csv str_exn self staging
            "https://raw.githubusercontent.com/CSSEGISandData/COVID-19/master/csse_covid_19_data/csse_covid_19_daily_reports/"
            (Some (startDate self)) (Some (endDate self)) None w3)
  as (w4 & -> & _ & H4); [exact Hcur|exact Hend|exact Hy|].
exists w4. split; [reflexivity|]. intros key Hkey.
rewrite H4 by (intros d _; apply Hkey). by rewrite H3, H2, H1.
Qed.

Lemma day_key_jhu folder d : day_key folder "JHU" (strftime_mdY d) = jhu_staging_key folder d.
Proof. reflexivity. Qed.

(** X23: The fetcher and the processor agree on the names of the days: the
  days that [getJhuData] fetched are the ones the loop of [process] finds
  in staging, and the combined frame is made of what was fetched, as
  [read_csv] reads back what [to_csv] wrote. *)
Theorem fetched_days_are_processed
  (self : Covid19Data) (folder baseURL : string) (start stop current : option date)
  (ds : list date) (ts : list DataFrame) (df0 : DataFrame) (w : World) :
let first := default (currentDate self) current in
let last := default (endDate self) stop in
valid_date first = true -> valid_date last = true ->
1000 <= year first -> year last < 9999 ->
Forall (in_range first last) ds ->
Forall2 (fun d t => exists df, fetch (jhu_url baseURL d) = Ok df
                               /\ to_csv df <> EmptyString
                               /\ read_csv (to_csv df) = Ok t) ds ts ->
exists w',
  getJhuData fetch to_csv str_exn self folder baseURL start stop current w
  = Finished (Ok tt) w'
  /\ (append_days read_csv str_exn folder "JHU" df0 (strftime_mdY <$> ds) w').1
     = Ok (foldl df_append df0 ts).
Proof.
intros first last Hfirst Hlast Hy0 Hy Hds Hts.
destruct (getJhuData_spec fetch to_csv str_exn self folder baseURL
            start stop current w Hfirst Hlast Hy) as (w' & E & Hin & _).
exists w'. split; [exact E|].
rewrite (append_days_staged read_csv str_exn folder "JHU" df0
           (strftime_mdY <$> ds) (Some <$> ts) w').
- f_equal. f_equal. clear. induction ts as [|t ts IH]; [done|].
  cbn [fmap list_fmap omap list_omap id]. by rewrite IH.
- apply Forall2_fmap. clear E.
  induction Hts as [|d t ds ts (df & Hf & Hne & Hr) _ IH]; [constructor|].
  apply Forall_cons in Hds as [Hd Hds]. constructor; [|by apply IH].
  unfold staged_day. rewrite day_key_jhu, (Hin d Hd), Hf. by exists (to_csv df).
Qed.
End FetchRun.

Lemma getJhuData_stages_each_day_witness :
  exists w',
    getJhuData fetch_example write_header show_exn
      (init (mkDate 2020 1 21) (mkDate 2020 1 23)) "staging/" "https://example.org/reports/"
      None None None (mkWorld ∅ [])
    = Finished (Ok tt) w'
    /\ bucket w' !! "staging/jhu-01-22-2020.csv" = Some (write_header jhu_example)
    /\ bucket w' !! "staging/jhu-01-23-2020.csv" = None
    /\ bucket w' !! "target/jhu-target.csv" = None.
Proof.
  destruct (getJhuData_stages_each_day fetch_example write_header show_exn
              (init (mkDate 2020 1 21) (mkDate 2020 1 23)) "staging/"
              "https://example.org/reports/" None None None (mkWorld ∅ []))
    as (w' & E & Hin & Hout); [reflexivity|reflexivity|cbn; lia|reflexivity|].
  exists w'. split; [exact E|]. split; [|split].
  - apply (Hin (mkDate 2020 1 22)). vm_compute. auto.
  - apply (Hin (mkDate 2020 1 23)). vm_compute. auto.
  - rewrite Hout; [reflexivity|]. intros d _. vm_compute. discriminate.
Defined.

Lemma getJhuData_overflows_at_date_max_witness :
  exists w',
    getJhuData fetch_example write_header show_exn
      (init (mkDate 9999 12 30) (mkDate 9999 12 31)) "staging/" "https://example.org/reports/"
      None (Some (mkDate 9999 12 31)) None (mkWorld ∅ [])
    = Overflow w'.
Proof. apply getJhuData_overflows_at_date_max. reflexivity. Defined.

Lemma getData_only_stages_witness :
  exists w',
    getData fetch_example write_header show_exn
      (init (mkDate 2020 1 21) (mkDate 2020 1 23)) "staging/" jhu_world
    = Finished (Ok tt) w'
    /\ bucket w' !! "target/jhu-target.csv" = Some "old".
Proof.
  destruct (getData_only_stages fetch_example write_header show_exn
              (init (mkDate 2020 1 21) (mkDate 2020 1 23)) "staging/" jhu_world)
    as (w' & E & H); [reflexivity|reflexivity|cbn; lia|reflexivity|].
  exists w'. split; [exact E|]. rewrite H; [reflexivity|].
  intros x. vm_compute. discriminate.
Defined.

Lemma fetched_days_are_processed_witness :
  exists w',
    getJhuData fetch_example write_header show_exn
      (init (mkDate 2020 1 21) (mkDate 2020 1 23)) "staging/" "https://example.org/reports/"
      None None None (mkWorld ∅ [])
    = Finished (Ok tt) w'
    /\ (append_days read_header show_exn "staging/" "JHU" empty_frame
          (strftime_mdY <$> [mkDate 2020 1 22]) w').1
       = Ok (foldl df_append empty_frame [mkFrame [write_header jhu_example] [] ∅]).
Proof.
  apply (fetched_days_are_processed fetch_example read_header write_header show_exn
           (init (mkDate 2020 1 21) (mkDate 2020 1 23)) "staging/"
           "https://example.org/reports/" None None None [mkDate 2020 1 22]);
    [reflexivity|reflexivity|cbn; lia|reflexivity| |].
  - constructor; [|constructor]. vm_compute. auto.
  - constructor; [|constructor]. exists jhu_example. vm_compute.
    split; [reflexivity|]. split; [discriminate|reflexivity].
Defined.

(** ** The day format *)

(** X24: The format of the names of the days round-trips: [strptime] with
    [%m-%d-%Y] reads back the date that [strftime] wrote with it, for the
    years of four digits. *)
Theorem startDateDefault_strftime (d : date) :
  valid_date d = true -> 1000 <= year d ->
  startDateDefault (strftime_mdY d) "%m-%d-%Y" = Ok d.
Proof.
  intros Hv _. pose proof (valid_date_bounds d Hv) as (By & Bm & Bd & Bdim).
  unfold startDateDefault.
  assert (E : strptime_from (parse_format (chars "%m-%d-%Y")) (chars (strftime_mdY d))
                            default_fields
              = Some (mkFields (year d) (month d) (day d) 0 0 0, [])).
  { unfold strftime_mdY, chars. rewrite list_ascii_of_string_of_list_ascii.
    change (parse_format (list_ascii_of_string "%m-%d-%Y"))
      with [Dm; Dlit "-"; Dd; Dlit "-"; DY].
    pose proof (writes_padded (month d)) as Wm. pose proof (writes_padded (day d)) as Wd.
    pose proof (writes_run (month d) _ ltac:(lia) Wm) as Rm.
    pose proof (writes_run (day d) _ ltac:(lia) Wd) as Rd.
    pose proof (four_digits_run (year d) ltac:(lia)) as Ry.
    field_step first_alt_month. rewrite strptime_lit.
    field_step first_alt_day. rewrite strptime_lit.
    rewrite <- (app_nil_r (four_digits (year d))). field_step first_alt_year4.
    reflexivity. }
  rewrite (strptime_Ok _ _ _ E).
  - by destruct d.
  - unfold valid_datetime, valid_date in *. cbn [datetime_of_fields dt_date hour minute second
      f_year f_month f_day f_hour f_minute f_second year month day].
    rewrite Hv. reflexivity.
Qed.

Lemma startDateDefault_strftime_witness :
  startDateDefault (strftime_mdY (mkDate 2020 1 22)) "%m-%d-%Y" = Ok (mkDate 2020 1 22)
  /\ strftime_mdY (mkDate 2020 1 22) = "01-22-2020".
Proof.
  split; [|reflexivity]. apply startDateDefault_strftime; [reflexivity|cbn; lia].
Defined.

(** ** Province-level counts: the rows that are aggregated *)

Lemma cell_key_of keys (r r' : Row) l :
  l ∈ keys -> key_of keys r' = key_of keys r -> cell r' l = cell r l.
Proof.
  intros [i Hi]%list_elem_of_lookup E. unfold key_of in E.
  apply (f_equal (fun k => k !! i)) in E. rewrite !list_lookup_fmap, Hi in E.
  by injection E.
Qed.

Lemma elem_of_sorted_unique c l : c ∈ sorted_unique l -> c ∈ l.
Proof.
  unfold sorted_unique. rewrite merge_sort_Permutation, elem_of_remove_dups.
  by intros [_ ?]%list_elem_of_filter.
Qed.

(** The rows of a group-by carry the keys of its index. *)
Lemma groupby_agg_rows observed keys aggs df g :
  groupby_agg observed keys aggs df = Ok g -> NoDup keys ->
  Forall (fun k => forall cs, categories df !! k = Some cs -> NoDup cs) keys ->
  Forall (fun r' => key_of keys r' ∈ group_index observed keys df) (rows g)
  /\ categories g = filter (fun kv => kv.1 ∈ keys) (categories df).
Proof.
  intros H Hnd Hcat. pose proof (groupby_agg_keys _ _ _ _ _ H Hnd Hcat) as (_ & HK & _).
  split.
  - apply Forall_forall. intros r' Hr'. rewrite <- HK. by apply list_elem_of_fmap_2.
  - unfold groupby_agg in H. destruct (missing_labels _ _); [|discriminate].
    by injection H as <-.
Qed.

(** Without categorical columns the index is made of keys of rows. *)
Lemma group_index_plain observed keys df k :
  categories df = ∅ -> k ∈ group_index observed keys df ->
  exists r, r ∈ rows df /\ k = key_of keys r.
Proof.
  intros Hc. unfold group_index.
  assert (forallb (fun k => bool_decide (categories df !! k = None)) keys = true) as ->.
  { apply forallb_forall. intros x _. apply bool_decide_eq_true. by rewrite Hc. }
  rewrite orb_true_r. by intros (_ & r & Hr & ->)%elem_of_observed_keys; eauto.
Qed.

Lemma groupby_agg_plain observed keys aggs df g (P : Cell -> Prop) l :
  groupby_agg observed keys aggs df = Ok g -> NoDup keys -> categories df = ∅ ->
  l ∈ keys -> Forall (fun r => P (cell r l)) (rows df) ->
  Forall (fun r => P (cell r l)) (rows g) /\ categories g = ∅.
Proof.
  intros H Hnd Hc Hl HP.
  destruct (groupby_agg_rows _ _ _ _ _ H Hnd) as [Hrows Hcat].
  { apply Forall_forall. intros k _ cs. by rewrite Hc. }
  split.
  - eapply Forall_impl; [exact Hrows|]. intros r' Hk.
    apply (group_index_plain _ _ _ _ Hc) in Hk as (r & Hr & Hk).
    rewrite (cell_key_of keys r r' l Hl Hk). by apply (proj1 (Forall_forall _ _) HP).
  - rewrite Hcat, Hc. apply map_filter_empty.
Qed.

(** The categories that [astype('category')] leaves are values of the
    column. *)
Lemma foldM_astype_category_values cols df df' k cs c :
  foldM astype_category df cols = Ok df' -> categories df = ∅ ->
  categories df' !! k = Some cs -> c ∈ cs -> exists r, r ∈ rows df /\ c = cell r k.
Proof.
  intros H Hc. 
  assert (G : forall cols d d',
             foldM astype_category d cols = Ok d' ->
             (forall k cs c, categories d !! k = Some cs -> c ∈ cs ->
                             exists r, r ∈ rows d /\ c = cell r k) ->
             forall k cs c, categories d' !! k = Some cs -> c ∈ cs ->
                            exists r, r ∈ rows d /\ c = cell r k).
  { clear. induction cols as [|x cols IH]; intros d d' H Hd; simpl in H.
    - by injection H as <-.
    - bind_inv H. intros k cs c Hk Hin.
      pose proof (astype_category_upd _ _ _ E) as Hu.
      assert (Hsame : forall r', r' ∈ rows a -> exists r, r ∈ rows d /\ forall l, cell r' l = cell r l).
      { intros r' [i Hi]%list_elem_of_lookup.
        destruct (Forall2_lookup_r _ _ _ _ _ Hu Hi) as (r & Hr & v & -> & ->).
        exists r. split; [by eapply list_elem_of_lookup_2|]. intros l.
        rewrite cell_insert. case_decide; by subst. }
      destruct (IH a d' H) with (k := k) (cs := cs) (c := c) as (r' & Hr' & ->); try done.
      + intros k0 cs0 c0 Hk0 Hc0. unfold astype_category in E. bind_inv E.
        injection E as <-. cbn [categories rows] in *.
        apply getcol_Ok in E0 as [_ ->].
        destruct (decide (x = k0)) as [->|Hne].
        * rewrite lookup_insert_eq in Hk0. injection Hk0 as <-.
          apply elem_of_sorted_unique, list_elem_of_fmap in Hc0 as (r & -> & Hr).
          destruct (list_elem_of_lookup_1 _ _ Hr) as [i Hi].
          eexists. split.
          -- eapply list_elem_of_lookup_2. rewrite lookup_zip_with, Hi. simpl.
             rewrite list_lookup_fmap, Hi. reflexivity.
          -- by rewrite cell_insert, decide_True.
        * rewrite lookup_insert_ne in Hk0 by done.
          destruct (Hd k0 cs0 c0 Hk0 Hc0) as (r & Hr & ->).
          destruct (list_elem_of_lookup_1 _ _ Hr) as [i Hi].
          eexists. split.
          -- eapply list_elem_of_lookup_2. rewrite lookup_zip_with, Hi. simpl.
             rewrite list_lookup_fmap, Hi. reflexivity.
          -- by rewrite cell_insert, decide_False.
      + destruct (Hsame r' Hr') as (r & Hr & Hl). exists r. by rewrite Hl. }
  intros Hk Hin. eapply G; [exact H| |exact Hk|exact Hin].
  intros k0 cs0 c0. by rewrite Hc.
Qed.

Lemma drop_columns_plain df labels a :
  drop_columns df labels = Ok a -> categories df = ∅ -> categories a = ∅.
Proof.
  unfold drop_columns. destruct (filter _ labels); [|discriminate].
  intros [= <-] Hc. cbn [categories]. rewrite Hc. clear.
  induction labels as [|l labels IH]; [done|]. simpl. rewrite IH. apply delete_empty.
Qed.

Lemma rename_column_plain df old new :
  categories df = ∅ -> categories (rename_column df old new) = ∅.
Proof.
  intros Hc. unfold rename_column. case_decide; [|done]. cbn [categories].
  rewrite Hc, lookup_empty. apply delete_empty.
Qed.

Lemma product_component (ls : list (list Cell)) k i l c :
  k ∈ product ls -> ls !! i = Some l -> k !! i = Some c -> c ∈ l.
Proof.
  intros Hk%elem_of_product Hl Hc. exact (Forall2_lookup_lr _ _ _ _ _ _ Hk Hl Hc).
Qed.

(** X18: Only the rows of China are aggregated: every row of the output of
    [processDxyCovid19Region] on a frame as [read_csv] gives it (no
    categorical column) has the country [China]; and where [groupby] keeps
    the observed groups only, none has the province [China]. *)
Theorem processDxyCovid19Region_only_China
    (to_datetime : string -> Cell -> result Cell) (observed : bool) (df out : DataFrame) :
  categories df = ∅ ->
  processDxyCovid19Region to_datetime observed df = Ok out ->
  Forall (fun r => cell r "country" = Str "China") (rows out)
  /\ (observed = true -> Forall (fun r => cell r "province" <> Str "China") (rows out)).
Proof.
  unfold processDxyCovid19Region. intros Hc H.
  bind_inv H. cbv zeta in H. bind_inv H. bind_inv H. bind_inv H. bind_inv H. bind_inv H.
  bind_inv H. bind_inv H. bind_inv H. injection H as <-.
  apply drop_columns_plain in E as Hca; [|exact Hc].
  apply getattr_Ok in E2 as [_ ->].
  match type of E3 with groupby_agg _ _ _ ?d = _ => set (dfF := d) in * end.
  assert (HF : Forall (fun r => cell r "country" = Str "China") (rows dfF)).
  { apply Forall_forall. intros r Hr.
    apply (boolean_index_elem_of _ (isin ["China"]) "country") in Hr as [_ Hr].
    destruct (cell r "country") as [|s| | |]; try discriminate. simpl in Hr.
    apply bool_decide_eq_true in Hr. apply list_elem_of_singleton in Hr. by subst. }
  assert (HcF : categories dfF = ∅).
  { subst dfF. cbn [categories boolean_index setitem].
    rewrite (rename_column_plain _ _ _ (rename_column_plain _ _ _
               (rename_column_plain _ _ _ (rename_column_plain _ _ _ Hca)))).
    apply delete_empty. }
  clearbody dfF. clear E E0 E1 Hca Hc.
  destruct (groupby_agg_plain _ _ _ _ _ (fun c => c = Str "China") "country" E3)
    as [H1 Hc1]; [in_list|exact HcF|in_list|exact HF|].
  destruct (groupby_agg_plain _ _ _ _ _ (fun c => c = Str "China") "country" E4)
    as [H2 Hc2]; [in_list|exact Hc1|in_list|exact H1|].
  clear E3 E4 H1 Hc1 HF HcF.
  pose proof (foldM_astype_category_same _ _ _ E5) as (RS & _ & _).
  assert (H3 : Forall (fun r => cell r "country" = Str "China") (rows a5)).
  { apply Forall_lookup. intros i r Hi.
    destruct (Forall2_lookup_r _ _ _ _ _ RS Hi) as (r0 & Hr0 & Hl). rewrite Hl.
    exact (proj1 (Forall_lookup _ _) H2 i r0 Hr0). }
  pose proof (foldM_astype_category_categories _ _ _ E5) as Hnd.
  apply getattr_Ok in E6 as [_ ->].
  match type of E7 with groupby_agg _ _ _ ?d = _ => set (dfP := d) in * end.
  assert (HP : Forall (fun r => cell r "country" = Str "China"
                               /\ cell r "province" <> Str "China") (rows dfP)).
  { apply Forall_forall. intros r Hr.
    apply (boolean_index_elem_of _ (ne_text "China") "province") in Hr as [Hin Hr].
    split; [by apply (proj1 (Forall_forall _ _) H3)|].
    intros E. rewrite E in Hr. discriminate. }
  assert (Hcat : Forall (fun k => forall cs, categories dfP !! k = Some cs -> NoDup cs)
                        ["continent"; "country"; "province"; "date"]).
  { subst dfP. cbn [categories boolean_index]. apply Forall_forall. intros k Hk.
    apply (proj1 (Forall_forall _ _) Hnd). revert Hk. rewrite !elem_of_cons. tauto. }
  destruct (groupby_agg_rows _ _ _ _ _ E7) as [Hrows _]; [in_list|exact Hcat|].
  assert (Hother : Forall2 (fun r r' : Row => forall l, l ∉ count_columns -> cell r' l = cell r l)
                           (rows a7)
                           (rows (groupby_cummax ["continent"; "country"; "province"; "date"]
                                    count_columns (ffill count_columns a7)))).
  { cbn [rows groupby_cummax ffill].
    eapply Forall2_compose; [|apply ffill_rows_other|apply cummax_rows_other].
    intros x y z Hxy Hyz l Hl. by rewrite Hyz, Hxy. }
  split.
  - apply Forall_lookup. intros i r' Hi.
    destruct (Forall2_lookup_r _ _ _ _ _ Hother Hi) as (r & Hr & Hl).
    rewrite Hl by in_list.
    pose proof (proj1 (Forall_lookup _ _) Hrows i r Hr) as Hk. unfold group_index in Hk.
    destruct (_ || _).
    + apply elem_of_observed_keys in Hk as (_ & r0 & Hr0 & Hk).
      rewrite (cell_key_of region_keys r0 r "country" ltac:(in_list) Hk).
      by apply (proj1 (Forall_forall _ _) HP).
    + apply (product_component _ _ 1%nat (levels dfP "country") (cell r "country")) in Hk;
        [|reflexivity|reflexivity].
      unfold levels in Hk. destruct (categories dfP !! "country") as [cs|] eqn:Ecs.
      * subst dfP. cbn [categories boolean_index] in Ecs.
        destruct (foldM_astype_category_values _ _ _ _ _ _ E5 Hc2 Ecs Hk) as (r0 & Hr0 & ->).
        by apply (proj1 (Forall_forall _ _) H2).
      * apply elem_of_sorted_unique, list_elem_of_fmap in Hk as (r0 & -> & Hr0).
        by apply (proj1 (Forall_forall _ _) HP).
  - intros ->. apply Forall_lookup. intros i r' Hi.
    destruct (Forall2_lookup_r _ _ _ _ _ Hother Hi) as (r & Hr & Hl).
    rewrite Hl by in_list.
    pose proof (proj1 (Forall_lookup _ _) Hrows i r Hr) as Hk. unfold group_index in Hk.
    cbn [orb] in Hk. apply elem_of_observed_keys in Hk as (_ & r0 & Hr0 & Hk).
    rewrite (cell_key_of region_keys r0 r "province" ltac:(in_list) Hk).
    by apply (proj1 (Forall_forall _ _) HP).
Qed.

Lemma processDxyCovid19Region_only_China_witness :
  Forall (fun r => cell r "country" = Str "China")
         (rows (get_ok (processDxyCovid19Region to_datetime_model true dxy_area)))
  /\ (true = true ->
      Forall (fun r => cell r "province" <> Str "China")
             (rows (get_ok (processDxyCovid19Region to_datetime_model true dxy_area)))).
Proof.
  apply (processDxyCovid19Region_only_China to_datetime_model true dxy_area).
  - reflexivity.
  - vm_compute. reflexivity.
Defined.
